(** * tap-cbr: the daily exchange-rate extractor of [tap_cbr/__init__.py]

    A shallow embedding of [make_schema], [make_retry] and [do_sync] and of the
    pieces of Python they stand on (ISO dates, insertion-ordered dicts, the
    [requests] response object, the Singer output calls), followed by the
    properties of the program.

    Conventions.
    - A Python [str] is a [string] of bytes holding its UTF-8 encoding; a
      substring test on code points and on their UTF-8 bytes agree.
    - A Python [dict] is an association list in insertion order.
    - Effects ([time.sleep], [requests.request], the logger, the three Singer
      writers) are recorded as a list of events; an uncaught Python exception
      is the [Raise] result. *)

From Stdlib Require Import ZArith List String Ascii Bool Lia Floats Sorted.

Set Warnings "-register-all".
Set Warnings "-inexact-float".
Import ListNotations.

Local Open Scope string_scope.
Local Open Scope list_scope.
Local Open Scope Z_scope.

(** ** Strings *)

(** [needle in hay] of Python. *)
Fixpoint str_in (needle hay : string) : bool :=
  match hay with
  | EmptyString => String.prefix needle EmptyString
  | String _ rest => String.prefix needle hay || str_in needle rest
  end.

(** [s.replace(old, new)] for a non-empty [old]: every occurrence, scanning
    from the left, occurrences do not overlap.  [skip] counts the characters
    of a matched occurrence that are still to be dropped. *)
Fixpoint replace_from (old new s : string) (skip : nat) : string :=
  match s with
  | EmptyString => EmptyString
  | String c rest =>
      match skip with
      | S k => replace_from old new rest k
      | O =>
          if String.prefix old s
          then (new ++ replace_from old new rest (String.length old - 1))%string
          else String c (replace_from old new rest 0)
      end
  end.

Definition replace (s old new : string) : string := replace_from old new s 0.

(** ** Calendar dates ([datetime.date]) *)

Module Date.

Record date := mkdate { year : Z; month : Z; day : Z }.

Definition MINYEAR : Z := 1.
Definition MAXYEAR : Z := 9999.
(** [date(9999, 12, 31).toordinal()] *)
Definition MAXORDINAL : Z := 3652059.

Definition is_leap (y : Z) : bool :=
  (y mod 4 =? 0) && (negb (y mod 100 =? 0) || (y mod 400 =? 0)).

Definition days_in_month (y m : Z) : Z :=
  if m =? 2 then (if is_leap y then 29 else 28)
  else if (m =? 4) || (m =? 6) || (m =? 9) || (m =? 11) then 30
  else 31.

Definition days_in_year (y : Z) : Z := if is_leap y then 366 else 365.

(** Number of days before January 1st of year [y]. *)
Definition days_before_year (y : Z) : Z :=
  let y1 := y - 1 in y1 * 365 + y1 / 4 - y1 / 100 + y1 / 400.

(** Number of days in year [y] before the first day of month [m]. *)
Definition days_before_month (y m : Z) : Z :=
  (match m with
   | 1 => 0 | 2 => 31 | 3 => 59 | 4 => 90 | 5 => 120 | 6 => 151
   | 7 => 181 | 8 => 212 | 9 => 243 | 10 => 273 | 11 => 304 | _ => 334
   end)
  + (if (2 <? m) && is_leap y then 1 else 0).

(** [d.toordinal()]: 0001-01-01 is day 1. *)
Definition toordinal (d : date) : Z :=
  days_before_year (year d) + days_before_month (year d) (month d) + day d.

(** The check of the [date] constructor. *)
Definition valid (d : date) : bool :=
  (MINYEAR <=? year d) && (year d <=? MAXYEAR)
  && (1 <=? month d) && (month d <=? 12)
  && (1 <=? day d) && (day d <=? days_in_month (year d) (month d)).

(** Dates compare as the tuples (year, month, day). *)
Definition ltb (a b : date) : bool :=
  (year a <? year b)
  || ((year a =? year b)
      && ((month a <? month b)
          || ((month a =? month b) && (day a <? day b)))).

Definition eqb (a b : date) : bool :=
  (year a =? year b) && (month a =? month b) && (day a =? day b).

Definition leb (a b : date) : bool := ltb a b || eqb a b.

(** The calendar day after [d]. *)
Definition tomorrow (d : date) : date :=
  if day d <? days_in_month (year d) (month d)
  then mkdate (year d) (month d) (day d + 1)
  else if month d <? 12
       then mkdate (year d) (month d + 1) 1
       else mkdate (year d + 1) 1 1.

(** [d + timedelta(days=1)]: the date whose ordinal is one more, and
    [OverflowError] ([None]) past 9999-12-31. *)
Definition add_one_day (d : date) : option date :=
  if toordinal d + 1 <=? MAXORDINAL then Some (tomorrow d) else None.

(** *** Text *)

Definition digit_char (z : Z) : ascii := ascii_of_N (Z.to_N (48 + z)).

Definition digit_value (c : ascii) : option Z :=
  let n := Z.of_N (N_of_ascii c) in
  if (48 <=? n) && (n <=? 57) then Some (n - 48) else None.

Definition two_digits (z : Z) : string :=
  String (digit_char (z / 10)) (String (digit_char (z mod 10)) EmptyString).

Definition four_digits (z : Z) : string :=
  String (digit_char (z / 1000))
    (String (digit_char ((z / 100) mod 10))
       (String (digit_char ((z / 10) mod 10))
          (String (digit_char (z mod 10)) EmptyString))).

(** [d.strftime(fmt)] for the directives the program uses, [%Y], [%m] and
    [%d], zero-padded as the library documents them; any other character is
    copied.  This is the text on every platform for the years from 1000 on.
    For a year below 1000 the C library of some platforms writes [%Y] without
    its leading zeros ([5-01-02] for the second day of the year 5), a text
    that [date.fromisoformat] does not read back: what depends on the text of
    such a year is stated for [1000 <= year] below. *)
Fixpoint strftime (d : date) (fmt : string) : string :=
  match fmt with
  | EmptyString => EmptyString
  | String c rest =>
      if Ascii.eqb c "%"
      then match rest with
           | EmptyString => String c EmptyString
           | String k rest' =>
               ((if Ascii.eqb k "Y" then four_digits (year d)
                 else if Ascii.eqb k "m" then two_digits (month d)
                 else if Ascii.eqb k "d" then two_digits (day d)
                 else String c (String k EmptyString))
                ++ strftime d rest')%string
           end
      else String c (strftime d rest)
  end.

(** [date.fromisoformat(s)] on the format [YYYY-MM-DD], the one that
    [DATE_FORMAT] writes and that every version of the library reads; [None]
    is [ValueError] for the texts of [plain_text] below.  From Python 3.11
    on the library also reads [YYYYMMDD] and the week dates [YYYY-Www],
    [YYYYWww], [YYYY-Www-D] and [YYYYWwwD], which are left out here. *)
Definition fromisoformat (s : string) : option date :=
  match s with
  | String y1 (String y2 (String y3 (String y4 (String s1
      (String m1 (String m2 (String s2
         (String d1 (String d2 EmptyString))))))))) =>
      if Ascii.eqb s1 "-" && Ascii.eqb s2 "-" then
        match digit_value y1, digit_value y2, digit_value y3, digit_value y4,
              digit_value m1, digit_value m2, digit_value d1, digit_value d2
        with
        | Some a, Some b, Some c, Some e, Some f, Some g, Some h, Some i =>
            let d := mkdate (1000 * a + 100 * b + 10 * c + e)
                            (10 * f + g) (10 * h + i) in
            if valid d then Some d else None
        | _, _, _, _, _, _, _, _ => None
        end
      else None
  | _ => None
  end.

Definition is_digit (c : ascii) : bool :=
  match digit_value c with Some _ => true | None => false end.

(** Texts that no version of the library reads unless they have the form
    [YYYY-MM-DD]: those that are not 7, 8 or 10 characters long, those that
    do not start with four digits, those whose fifth character is no dash,
    no [W] and no digit, and those of 10 characters with a dash in fifth
    place and no [W] in sixth place.  On them [date.fromisoformat] raises
    [ValueError] exactly when [fromisoformat] is [None]. *)
Definition plain_text (s : string) : bool :=
  let n := String.length s in
  let at_ (i : nat) (p : ascii -> bool) :=
    match String.get i s with Some c => p c | None => false end in
  negb (Nat.eqb n 7 || Nat.eqb n 8 || Nat.eqb n 10)
  || negb (at_ 0%nat is_digit && at_ 1%nat is_digit
           && at_ 2%nat is_digit && at_ 3%nat is_digit)
  || negb (at_ 4%nat (fun c => Ascii.eqb c "-" || Ascii.eqb c "W" || is_digit c))
  || (Nat.eqb n 10
      && at_ 4%nat (fun c => Ascii.eqb c "-")
      && negb (at_ 5%nat (fun c => Ascii.eqb c "W"))).

End Date.

(** ** Python values *)

(** What [json.loads] builds, which is also what a record holds: [None],
    booleans, integers, floats, strings, lists and dicts with string keys. *)
Inductive pyvalue :=
| PyNone
| PyBool (b : bool)
| PyInt (z : Z)
| PyFloat (f : float)
| PyStr (s : string)
| PyList (l : list pyvalue)
| PyDict (d : list (string * pyvalue)).

(** A dict with string keys, in insertion order. *)
Definition dict := list (string * pyvalue).

(** [d.get(k)] *)
Fixpoint dict_get (d : dict) (k : string) : option pyvalue :=
  match d with
  | [] => None
  | (k', v) :: rest => if String.eqb k' k then Some v else dict_get rest k
  end.

(** [d[k] = v]: an existing key keeps its place, a new key goes last. *)
Fixpoint dict_set (d : dict) (k : string) (v : pyvalue) : dict :=
  match d with
  | [] => [(k, v)]
  | (k', v') :: rest =>
      if String.eqb k' k then (k', v) :: rest else (k', v') :: dict_set rest k v
  end.

(** [k in d] *)
Definition dict_mem (d : dict) (k : string) : bool :=
  match dict_get d k with Some _ => true | None => false end.

(** The keys, in iteration order. *)
Definition keys (d : dict) : list string := map fst d.

(** [bool(v)] *)
Definition truthy (v : pyvalue) : bool :=
  match v with
  | PyNone => false
  | PyBool b => b
  | PyInt z => negb (z =? 0)
  | PyFloat f => negb (PrimFloat.eqb f 0%float)
  | PyStr s => negb (String.eqb s "")
  | PyList l => match l with [] => false | _ :: _ => true end
  | PyDict d => match d with [] => false | _ :: _ => true end
  end.

(** ** The outside world *)

(** A [requests.Response], by the members the program reads.  [json] is what
    [response.json()] returns, [None] when it raises. *)
Module Response.

Record response := mk {
  status_code : Z;
  text : string;
  url : string;
  json : option pyvalue
}.

(** [bool(response)] is [response.ok]: false for a 4xx or 5xx status. *)
Definition ok (r : response) : bool :=
  negb ((400 <=? status_code r) && (status_code r <? 600)).

End Response.

Abbreviation response := Response.response.

(** One call of [requests.request]: it raises, or it returns a response. *)
Inductive attempt :=
| Failed (e : string)
| Responded (r : response).

(** The network answers the [n]-th request of the run, made to [url]. *)
Definition network := nat -> string -> attempt.

(** The [state] dict of [do_sync], which has these two keys only. *)
Record state := mkstate { date_start : string; date_stop : string }.

Inductive level := Info | Warning.

(** The log lines, by their text and the values formatted into it. *)
Inductive message :=
| MsgException (e : string)
| MsgSecondsBeforeNextRetry (delay : Z)
| MsgResponseURL (u : string)
| MsgResponseStatusCode (code : Z)
| MsgResponseText (t : string)
| MsgFailedAfter (n_retries : nat)
| MsgCurrenciesNotAList
| MsgCurrenciesSpecified (currencies : list string)
| MsgDateToProcess (d : string)
| MsgCompleted (rows : nat)
| MsgNothingDone.

Inductive event :=
| Sleep (seconds : Z)
| Request (method url : string)
| Log (l : level) (m : message)
| WriteSchema (stream : string) (schema : pyvalue) (key_properties : string)
| WriteRecords (stream : string) (records : list dict)
| WriteState (s : state).

(** The exceptions that can leave [do_sync]. *)
Inductive exn :=
| ValueError (s : string)        (* date.fromisoformat(s), s not a date *)
| OverflowError                  (* date + timedelta(days=1) past 9999-12-31 *)
| JSONDecodeError (body : string) (* response.json() *)
| AttributeError (v : pyvalue)   (* v.get(...), v not a dict *)
| BadValute (v : pyvalue)        (* iterating or indexing a Valute that is not
                                    a dict: TypeError, IndexError or
                                    AttributeError *)
| TypeError (v : pyvalue)        (* date.fromisoformat(v), v not a str *)
| KeyError (k : string)          (* d[k], k not in d *)
| UnboundLocalError (name : string).

Inductive result (A : Type) :=
| Ok (a : A)
| Raise (e : exn)
| OutOfFuel.

Arguments Ok {A} a.
Arguments Raise {A} e.
Arguments OutOfFuel {A}.

(** What a computation did: its events in order, the number of requests made
    so far, and how it ended. *)
Record outcome (A : Type) := mkoutcome {
  events : list event;
  requests : nat;
  value : result A
}.

Arguments mkoutcome {A} _ _ _.
Arguments events {A} _.
Arguments requests {A} _.
Arguments value {A} _.

(** A computation starts from the number of requests already made. *)
Definition M (A : Type) : Type := nat -> outcome A.

Definition ret {A} (a : A) : M A := fun n => mkoutcome [] n (Ok a).

Definition lift {A} (r : result A) : M A := fun n => mkoutcome [] n r.

Definition raise {A} (e : exn) : M A := lift (Raise e).

Definition bind {A B} (m : M A) (f : A -> M B) : M B := fun n =>
  let o := m n in
  match value o with
  | Ok a =>
      let o' := f a (requests o) in
      mkoutcome (events o ++ events o') (requests o') (value o')
  | Raise e => mkoutcome (events o) (requests o) (Raise e)
  | OutOfFuel => mkoutcome (events o) (requests o) OutOfFuel
  end.

Definition emit (e : event) : M unit := fun n => mkoutcome [e] n (Ok tt).

Declare Scope prog_scope.
Delimit Scope prog_scope with prog.
Notation "x <- m ;; k" := (bind m (fun x => k))
  (at level 100, m at next level, right associativity) : prog_scope.
Notation "m ;; k" := (bind m (fun _ => k))
  (at level 100, right associativity) : prog_scope.
Local Open Scope prog_scope.

(** Binding in [result], for the code that has no effect. *)
Definition rbind {A B} (r : result A) (f : A -> result B) : result B :=
  match r with
  | Ok a => f a
  | Raise e => Raise e
  | OutOfFuel => OutOfFuel
  end.

(** ** The program *)

Definition ENDPOINT : string :=
  "https://www.cbr-xml-daily.ru//archive//DATE//daily_json.js".
Definition DATE_FORMAT : string := "%Y-%m-%d".
Definition N_RETRIES : nat := 10.
Definition DELAY_SECONDS : Z := 10.

(** The text the archive answers for a day without a rate
    (lines 83 and 90). *)
Definition NO_RATE_TEXT : string :=
  "Курс ЦБ РФ на данную дату не установлен или указана ошибочная дата.".

Definition STREAM : string := "exchange_rate_cbr".

(** [make_schema(record)] *)
Definition make_schema (record : dict) : pyvalue :=
  let properties : dict :=
    [("date", PyDict [("type", PyStr "string"); ("format", PyStr "date")])] in
  let properties :=
    fold_left
      (fun (properties : dict) (rate : string) =>
         if negb (dict_mem properties rate)
         then dict_set properties rate
                (PyDict [("type", PyList [PyStr "null"; PyStr "number"])])
         else properties)
      (keys record) properties in
  PyDict [("type", PyStr "object"); ("properties", PyDict properties)].

(** [date.fromisoformat(s)] and [d + timedelta(days=1)] with their
    exceptions. *)
Definition parse_date (s : string) : result Date.date :=
  match Date.fromisoformat s with
  | Some d => Ok d
  | None => Raise (ValueError s)
  end.

Definition next_day (d : Date.date) : result Date.date :=
  match Date.add_one_day d with
  | Some d' => Ok d'
  | None => Raise OverflowError
  end.

(** [(date.fromisoformat(s) + timedelta(days=1)).strftime(DATE_FORMAT)] *)
Definition day_after (s : string) : result string :=
  rbind (parse_date s) (fun d =>
  rbind (next_day d) (fun d' =>
  Ok (Date.strftime d' DATE_FORMAT))).

(** [entry.get(field)], [None] for a missing key. *)
Definition get_field (entry : pyvalue) (field : string) : result pyvalue :=
  match entry with
  | PyDict d =>
      Ok (match dict_get d field with Some v => v | None => PyNone end)
  | _ => Raise (AttributeError entry)
  end.

(** Lines 129-131: the loop over the configured currencies. *)
Fixpoint fill_from_currencies (valutes : pyvalue) (currencies : list string)
    (record : dict) : result dict :=
  match currencies with
  | [] => Ok record
  | valute :: rest =>
      match valutes with
      | PyDict vs =>
          let entry :=
            match dict_get vs valute with Some e => e | None => PyDict [] end in
          rbind (get_field entry "Value") (fun v =>
          let record := dict_set record valute v in
          rbind (get_field entry "Nominal") (fun n =>
          let record := dict_set record (valute ++ "_Nominal")%string n in
          fill_from_currencies valutes rest record))
      | _ => Raise (AttributeError valutes)
      end
  end.

(** Lines 133-135: the loop over the keys of the day's [Valute]. *)
Fixpoint fill_from_keys (vs : dict) (valutes_keys : list string)
    (record : dict) : result dict :=
  match valutes_keys with
  | [] => Ok record
  | valute :: rest =>
      match dict_get vs valute with
      | None => Raise (KeyError valute)
      | Some entry =>
          rbind (get_field entry "Value") (fun v =>
          let record := dict_set record valute v in
          rbind (get_field entry "Nominal") (fun n =>
          let record := dict_set record (valute ++ "_Nominal")%string n in
          fill_from_keys vs rest record))
      end
  end.

(** [if currencies:] *)
Definition currencies_truthy (currencies : option (list string)) : bool :=
  match currencies with
  | Some (_ :: _) => true
  | _ => false
  end.

(** Lines 127-135: the record of one day.  [valutes] is truthy here.  With no
    currencies to go by, a truthy [valutes] that is not a dict (a non-empty
    list or string, a number, [True]) cannot be walked by lines 133-135: the
    [for] or the first [valutes[valute].get] that has no dict to call raises. *)
Definition build_record (currencies : option (list string))
    (date_to_process : string) (valutes : pyvalue) : result dict :=
  let record : dict := [("date", PyStr date_to_process)] in
  if currencies_truthy currencies
  then fill_from_currencies valutes
         (match currencies with Some l => l | None => [] end) record
  else match valutes with
       | PyDict vs => fill_from_keys vs (keys vs) record
       | _ => Raise (BadValute valutes)
       end.

(** The variables of the [while] loop of [do_sync]; [record] is unbound
    until a first record is built. *)
Record vars := mkvars {
  date_to_process : string;
  data : list dict;
  record : option dict
}.

(** Lines 124-136. *)
Definition handle_response (currencies : option (list string))
    (response : option response) (v : vars) : result vars :=
  match response with
  | None => Ok v
  | Some r =>
      if Response.ok r then
        match Response.json r with
        | None => Raise (JSONDecodeError (Response.text r))
        | Some (PyDict body) =>
            match dict_get body "Valute" with
            | None => Ok v
            | Some valutes =>
                if truthy valutes then
                  rbind (build_record currencies (date_to_process v) valutes)
                    (fun record =>
                       Ok (mkvars (date_to_process v) (data v ++ [record])
                             (Some record)))
                else Ok v
            end
        | Some other => Raise (AttributeError other)
        end
      else Ok v
  end.

(** What the caller may pass as [currencies]: nothing ([None]), a list, or a
    value of another type (a string, a number, a dict).  The elements of a
    list are strings, the currency codes of the configuration.  A list with
    an element of another type is left out: line 130 looks each element up
    in a dict and builds a key from it, and raises [TypeError] on one that
    cannot be hashed. *)
Inductive currencies_arg :=
| CurrenciesNone
| CurrenciesList (codes : list string)
| CurrenciesOther (v : pyvalue).

Section Program.

Variable net : network.

Definition sleep (seconds : Z) : M unit := emit (Sleep seconds).
Definition log (l : level) (m : message) : M unit := emit (Log l m).

(** [requests.request('get', url, params=None)] inside [try]. *)
Definition request (method url : string) : M attempt := fun n =>
  mkoutcome [Request method url] (S n) (Ok (net n url)).

(** Lines 74-96: the [for retry in range(n_retries)] loop over the values
    [retries] still to come, and the warning after it. *)
Fixpoint make_retry_from (url : string) (n_retries : nat) (delay_seconds : Z)
    (retries : list nat) : M (option response) :=
  match retries with
  | [] =>
      log Warning (MsgFailedAfter n_retries) ;;
      ret None
  | retry :: retries' =>
      a <- request "get" url ;;
      match a with
      | Failed e =>
          log Info (MsgException e) ;;
          let delay := delay_seconds * 2 ^ Z.of_nat retry in
          log Info (MsgSecondsBeforeNextRetry delay) ;;
          sleep delay ;;
          make_retry_from url n_retries delay_seconds retries'
      | Responded response =>
          if negb (Response.status_code response =? 200)
             && negb (str_in NO_RATE_TEXT (Response.text response))
          then
            let delay := delay_seconds * 2 ^ Z.of_nat retry in
            log Info (MsgResponseURL (Response.url response)) ;;
            log Info (MsgResponseStatusCode (Response.status_code response)) ;;
            log Info (MsgResponseText (Response.text response)) ;;
            log Info (MsgSecondsBeforeNextRetry delay) ;;
            sleep delay ;;
            make_retry_from url n_retries delay_seconds retries'
          else if str_in NO_RATE_TEXT (Response.text response)
          then
            log Warning (MsgResponseText (Response.text response)) ;;
            ret None
          else ret (Some response)
      end
  end.

Definition make_retry (url : string) (n_retries : nat) (delay_seconds : Z)
    : M (option response) :=
  make_retry_from url n_retries delay_seconds (seq 0 n_retries).

(** Lines 112-138: the body of the [while] loop. *)
Definition sync_day (currencies : option (list string)) (v : vars) : M vars :=
  sleep 2 ;;
  log Info (MsgDateToProcess (date_to_process v)) ;;
  d <- lift (parse_date (date_to_process v)) ;;
  let endpoint := replace ENDPOINT "DATE" (Date.strftime d "%Y//%m//%d") in
  response <- make_retry endpoint N_RETRIES DELAY_SECONDS ;;
  v <- lift (handle_response currencies response v) ;;
  next <- lift (day_after (date_to_process v)) ;;
  ret (mkvars next (data v) (record v)).

(** Lines 111-138: the [while] loop, run for at most [fuel] iterations. *)
Fixpoint sync_loop (fuel : nat) (date_stop : string)
    (currencies : option (list string)) (v : vars) : M vars :=
  match fuel with
  | O => lift OutOfFuel
  | S fuel' =>
      d <- lift (parse_date (date_to_process v)) ;;
      stop <- lift (parse_date date_stop) ;;
      if Date.leb d stop then
        v <- sync_day currencies v ;;
        sync_loop fuel' date_stop currencies v
      else ret v
  end.

(** Lines 142-144: the loop that writes the records. *)
Fixpoint write_all (data : list dict) (st : state) : M state :=
  match data with
  | [] => ret st
  | record :: rest =>
      emit (WriteRecords STREAM [record]) ;;
      date_of_record <-
        lift (match dict_get record "date" with
              | Some d => Ok d
              | None => Raise (KeyError "date")
              end) ;;
      next <-
        lift (match date_of_record with
              | PyStr s => day_after s
              | other => Raise (TypeError other)
              end) ;;
      write_all rest (mkstate next (date_stop st))
  end.

(** Lines 98-102. *)
Definition check_currencies (currencies : currencies_arg)
    : M (option (list string)) :=
  match currencies with
  | CurrenciesList codes =>
      log Info (MsgCurrenciesSpecified codes) ;;
      ret (Some codes)
  | _ =>
      log Warning MsgCurrenciesNotAList ;;
      ret None
  end.

(** Lines 140-154. *)
Definition finish (st : state) (v : vars) : M unit :=
  if (0 <? List.length (data v))%nat then
    last_record <-
      lift (match record v with
            | Some r => Ok r
            | None => Raise (UnboundLocalError "record")
            end) ;;
    emit (WriteSchema STREAM (make_schema last_record) "date") ;;
    st <- write_all (data v) st ;;
    stop <- lift (day_after (date_stop st)) ;;
    let st := mkstate (date_start st) stop in
    emit (WriteState st) ;;
    log Info (MsgCompleted (List.length (data v)))
  else
    log Info MsgNothingDone.

(** [do_sync] with its [while] loop bounded by [fuel]. *)
Definition do_sync_fuel (fuel : nat) (date_start date_stop : string)
    (currencies : currencies_arg) : M unit :=
  currencies <- check_currencies currencies ;;
  let st := mkstate date_start date_stop in
  v <- sync_loop fuel date_stop currencies (mkvars date_start [] None) ;;
  finish st v.

(** The number of days from [date_start] to [date_stop], both included. *)
Definition days_to_sync (date_start date_stop : string) : nat :=
  match Date.fromisoformat date_start, Date.fromisoformat date_stop with
  | Some a, Some b => Z.to_nat (Date.toordinal b - Date.toordinal a + 1)
  | _, _ => 0
  end.

(** [do_sync(date_start, date_stop, currencies)].  Its loop gets one
    iteration per day and one more for the test that leaves it:
    [do_sync_fuel_enough] and [do_sync_terminates] below show that this is
    enough, so that [OutOfFuel] is never the result of [do_sync]. *)
Definition do_sync (date_start date_stop : string)
    (currencies : currencies_arg) : M unit :=
  do_sync_fuel (S (days_to_sync date_start date_stop))
    date_start date_stop currencies.

End Program.

(** ** Reading a run *)

(** The text of a date in [DATE_FORMAT]. *)
Definition iso (d : Date.date) : string := Date.strftime d DATE_FORMAT.

(** The URL requested for a day (line 115). *)
Definition endpoint_of (d : Date.date) : string :=
  replace ENDPOINT "DATE" (Date.strftime d "%Y//%m//%d").

(** [k] successive days from [d] on. *)
Fixpoint date_range (d : Date.date) (k : nat) : list Date.date :=
  match k with
  | O => []
  | S k' => d :: date_range (Date.tomorrow d) k'
  end.

(** The days from [a] to [b], both included; none when [b] is before [a]. *)
Definition dates_between (a b : Date.date) : list Date.date :=
  date_range a (Z.to_nat (Date.toordinal b - Date.toordinal a + 1)).

(** The seconds slept, in order. *)
Fixpoint sleeps (evs : list event) : list Z :=
  match evs with
  | [] => []
  | Sleep s :: rest => s :: sleeps rest
  | _ :: rest => sleeps rest
  end.

(** The URLs requested, in order. *)
Fixpoint requested (evs : list event) : list string :=
  match evs with
  | [] => []
  | Request _ u :: rest => u :: requested rest
  | _ :: rest => requested rest
  end.

(** The days the driver started on, in order: one "Date to process" line
    opens each iteration of the [while] loop. *)
Fixpoint visited (evs : list event) : list string :=
  match evs with
  | [] => []
  | Log _ (MsgDateToProcess d) :: rest => d :: visited rest
  | _ :: rest => visited rest
  end.

(** The Singer messages: schema, records and state. *)
Definition is_write (e : event) : bool :=
  match e with
  | WriteSchema _ _ _ | WriteRecords _ _ | WriteState _ => true
  | _ => false
  end.

Definition writes (evs : list event) : list event := filter is_write evs.

(** The two completion lines of lines 148-154. *)
Definition is_completion (e : event) : bool :=
  match e with
  | Log _ (MsgCompleted _) | Log _ MsgNothingDone => true
  | _ => false
  end.

(** What [make_retry] itself does: it sleeps, requests and logs its own
    lines. *)
Definition is_fetch_event (e : event) : bool :=
  match e with
  | Sleep _ | Request _ _ => true
  | Log _ (MsgException _) | Log _ (MsgSecondsBeforeNextRetry _)
  | Log _ (MsgResponseURL _) | Log _ (MsgResponseStatusCode _)
  | Log _ (MsgResponseText _) | Log _ (MsgFailedAfter _) => true
  | _ => false
  end.

(** What the loop does: the events of [make_retry] and the line that opens a
    day. *)
Definition is_loop_event (e : event) : bool :=
  match e with
  | Log _ (MsgDateToProcess _) => true
  | _ => is_fetch_event e
  end.

(** An attempt after which [make_retry] sleeps and tries again. *)
Definition retryable (a : attempt) : bool :=
  match a with
  | Failed _ => true
  | Responded r =>
      negb (Response.status_code r =? 200)
      && negb (str_in NO_RATE_TEXT (Response.text r))
  end.

(** The value of [currencies] after lines 98-102. *)
Definition checked (currencies : currencies_arg) : option (list string) :=
  match currencies with
  | CurrenciesList codes => Some codes
  | _ => None
  end.

(** The currency codes a record is built from: the configured ones, or the
    keys of the day's [Valute]. *)
Definition codes_of (currencies : option (list string)) (vs : dict)
    : list string :=
  if currencies_truthy currencies
  then match currencies with Some l => l | None => [] end
  else keys vs.

(** The keys that the codes write into a record. *)
Definition written (codes : list string) : list string :=
  flat_map (fun c => [c; (c ++ "_Nominal")%string]) codes.

(** The [while] loop of [do_sync] as [do_sync] runs it, and the records it
    has accumulated when it is left. *)
Definition run_loop (net : network) (date_start date_stop : string)
    (currencies : currencies_arg) : M vars :=
  sync_loop net (S (days_to_sync date_start date_stop)) date_stop
    (checked currencies) (mkvars date_start [] None).

Definition accumulated (net : network) (date_start date_stop : string)
    (currencies : currencies_arg) (n : nat) : option (list dict) :=
  match value (run_loop net date_start date_stop currencies n) with
  | Ok v => Some (data v)
  | _ => None
  end.

(** [k] rounds of [f]. *)
Fixpoint iterate {A : Type} (k : nat) (f : A -> M A) (a : A) : M A :=
  match k with
  | O => ret a
  | S k' => a' <- f a ;; iterate k' f a'
  end.

Definition is_dict (v : pyvalue) : bool :=
  match v with PyDict _ => true | _ => false end.

(** A [Valute] dict that lines 127-135 turn into a record whose [date] is the
    day: every entry read is a dict, and no code is the string [date]. *)
Definition good_valutes (currencies : option (list string)) (vs : dict)
    : bool :=
  if currencies_truthy currencies
  then forallb
         (fun c =>
            negb (String.eqb c "date")
            && match dict_get vs c with Some e => is_dict e | None => true end)
         (match currencies with Some l => l | None => [] end)
  else forallb (fun kv => negb (String.eqb (fst kv) "date") && is_dict (snd kv))
         vs.

(** A body that lines 125-136 accept: a JSON object whose [Valute] is
    missing, falsy, or a good dict. *)
Definition good_body (currencies : option (list string)) (r : response)
    : bool :=
  match Response.json r with
  | Some (PyDict body) =>
      match dict_get body "Valute" with
      | None => true
      | Some valutes =>
          negb (truthy valutes)
          || match valutes with
             | PyDict vs => good_valutes currencies vs
             | _ => false
             end
      end
  | _ => false
  end.

(** No record gets its [date] overwritten: [date] is not a configured code
    and, when the codes come from the answers, not a key of a [Valute]. *)
Definition date_is_not_a_code (net : network)
    (currencies : option (list string)) : Prop :=
  if currencies_truthy currencies
  then ~ In "date" (match currencies with Some l => l | None => [] end)
  else forall n u r body vs,
      net n u = Responded r ->
      Response.json r = Some (PyDict body) ->
      dict_get body "Valute" = Some (PyDict vs) ->
      ~ In "date" (keys vs).

(** A currency code as the archive and the configuration have them: three
    letters. *)
Definition currency_code (c : string) : bool := Nat.eqb (String.length c) 3.

(** The codes that records are built from are currency codes: the
    configured ones and, when the codes come from the answers, the keys of
    every [Valute]. *)
Definition currency_codes (net : network) (currencies : option (list string))
    : Prop :=
  if currencies_truthy currencies
  then Forall (fun c => currency_code c = true)
         (match currencies with Some l => l | None => [] end)
  else forall n u r body vs,
      net n u = Responded r ->
      Response.json r = Some (PyDict body) ->
      dict_get body "Valute" = Some (PyDict vs) ->
      Forall (fun c => currency_code c = true) (keys vs).

(** The entry that line 130 reads for a code: the one of the day, or [{}]. *)
Definition entry_of (vs : dict) (valute : string) : pyvalue :=
  match dict_get vs valute with Some e => e | None => PyDict [] end.

(** [entry.get(field)] for an entry that is a dict. *)
Definition field_of (entry : pyvalue) (field : string) : pyvalue :=
  match entry with
  | PyDict d => match dict_get d field with Some v => v | None => PyNone end
  | _ => PyNone
  end.

(** A record built on the day [s] from an answer of the network that
    [make_retry] returns. *)
Definition built_on (net : network) (currencies : option (list string))
    (s : string) (r : dict) : Prop :=
  exists m u resp body valutes,
    net m u = Responded resp
    /\ Response.status_code resp = 200
    /\ str_in NO_RATE_TEXT (Response.text resp) = false
    /\ Response.json resp = Some (PyDict body)
    /\ dict_get body "Valute" = Some valutes
    /\ truthy valutes = true
    /\ build_record currencies s valutes = Ok r.

(** The variable [record] after the records [news] were built in turn. *)
Definition latest (news : list dict) (old : option dict) : option dict :=
  fold_left (fun _ r => Some r) news old.

(** The line logged by lines 98-102. *)
Definition check_event (currencies : currencies_arg) : event :=
  match currencies with
  | CurrenciesList codes => Log Info (MsgCurrenciesSpecified codes)
  | _ => Log Warning MsgCurrenciesNotAList
  end.

(** The event of line 143 for a record. *)
Definition write_record (r : dict) : event := WriteRecords STREAM [r].

Definition is_schema (e : event) : bool :=
  match e with WriteSchema _ _ _ => true | _ => false end.

(** The two property descriptions of [make_schema]. *)
Definition date_property : pyvalue :=
  PyDict [("type", PyStr "string"); ("format", PyStr "date")].

Definition number_property : pyvalue :=
  PyDict [("type", PyList [PyStr "null"; PyStr "number"])].

(** What the network must give for the run to end well: each answer that
    [make_retry] returns has a good body. *)
Definition good_network (net : network) (currencies : option (list string))
    : Prop :=
  forall m u resp,
    net m u = Responded resp ->
    Response.status_code resp = 200 ->
    str_in NO_RATE_TEXT (Response.text resp) = false ->
    good_body currencies resp = true.

(** An answer whose [Valute] has an entry named [date], with a date as its
    [Value]. *)
Definition body_with_date_code : pyvalue :=
  PyDict
    [("Valute",
      PyDict [("date", PyDict [("Nominal", PyInt 1);
                               ("Value", PyStr "2030-01-01")])])].

Definition net_date_code : network :=
  fun _ u => Responded (Response.mk 200 "{...}" u (Some body_with_date_code)).

(** The archive has the rates of the first request only; on later days it
    has USD alone. *)
Definition body_usd_only : pyvalue :=
  PyDict
    [("Valute",
      PyDict [("USD", PyDict [("Nominal", PyInt 1); ("Value", PyFloat 100.5)])])].

Definition net_then_usd_only : network :=
  fun n u =>
    match n with
    | O => Responded (Response.mk 200 "{...}" u
                        (Some
                           (PyDict
                              [("Valute",
                                PyDict
                                  [("USD", PyDict [("Nominal", PyInt 1);
                                                   ("Value", PyFloat 99.4555)]);
                                   ("EUR", PyDict [("Nominal", PyInt 1);
                                                   ("Value", PyFloat 104.3024)])])])))
    | S _ => Responded (Response.mk 200 "{...}" u (Some body_usd_only))
    end.

(** ** Scenarios *)

(** The answer of the archive for 2023-10-05, cut to two currencies. *)
Definition body_2023_10_05 : pyvalue :=
  PyDict
    [("Date", PyStr "2023-10-05T11:30:00+03:00");
     ("Valute",
      PyDict
        [("USD", PyDict [("CharCode", PyStr "USD"); ("Nominal", PyInt 1);
                         ("Value", PyFloat 99.4555)]);
         ("EUR", PyDict [("CharCode", PyStr "EUR"); ("Nominal", PyInt 1);
                         ("Value", PyFloat 104.3024)])])].

Definition rates_response (u : string) : response :=
  Response.mk 200 "{...}" u (Some body_2023_10_05).

(** A day without a rate: status 404 and the text in the body. *)
Definition no_rate_response (u : string) : response :=
  Response.mk 404
    ("{ error: " ++ NO_RATE_TEXT ++ " }")%string u None.

(** A page that is not JSON, served with status 200. *)
Definition html_response (u : string) : response :=
  Response.mk 200 "<html>maintenance</html>" u None.

Definition busy_response (u : string) : response :=
  Response.mk 503 "busy" u None.

(** The archive answers every request. *)
Definition net_rates : network := fun _ u => Responded (rates_response u).

(** The archive is busy at the first request and answers from the second
    on. *)
Definition net_busy_then_rates : network :=
  fun n u =>
    match n with
    | O => Responded (busy_response u)
    | S _ => Responded (rates_response u)
    end.

(** No request gets through. *)
Definition net_down : network := fun _ _ => Failed "connection refused".

(** Every day is a day without a rate. *)
Definition net_no_rate : network := fun _ u => Responded (no_rate_response u).

(** The archive has the first day, and no rate on the days after. *)
Definition net_then_no_rate : network :=
  fun n u =>
    match n with
    | O => Responded (rates_response u)
    | S _ => Responded (no_rate_response u)
    end.

(** Every request gets the page that is not JSON. *)
Definition net_html : network := fun _ u => Responded (html_response u).

(** The archive answers every request with an object without [Valute]. *)
Definition net_no_valute : network :=
  fun _ u => Responded (Response.mk 200 "{}" u (Some (PyDict []))).

(** ** The entry point *)

(** The calendar day before [d]. *)
Definition yesterday (d : Date.date) : Date.date :=
  if 1 <? Date.day d
  then Date.mkdate (Date.year d) (Date.month d) (Date.day d - 1)
  else if 1 <? Date.month d
       then Date.mkdate (Date.year d) (Date.month d - 1)
              (Date.days_in_month (Date.year d) (Date.month d - 1))
       else Date.mkdate (Date.year d - 1) 12 31.

(** [d - timedelta(days=1)]: the date whose ordinal is one less, and
    [OverflowError] ([None]) before 0001-01-01. *)
Definition sub_one_day (d : Date.date) : option Date.date :=
  if 0 <? Date.toordinal d - 1 then Some (yesterday d) else None.

(** Lines 179-183 and 185-189:
    [config.get(key) or state.get(key) or (date.today() - timedelta(days=1)).strftime(DATE_FORMAT)].
    [or] gives its first operand when it is truthy and does not evaluate the
    second then; [today] is what [date.today()] returns if it is called. *)
Definition configured_date (config state : pyvalue) (key : string)
    (today : Date.date) : result pyvalue :=
  rbind (get_field config key) (fun from_config =>
  if truthy from_config then Ok from_config
  else
    rbind (get_field state key) (fun from_state =>
    if truthy from_state then Ok from_state
    else
      match sub_one_day today with
      | Some d => Ok (PyStr (Date.strftime d DATE_FORMAT))
      | None => Raise OverflowError
      end)).

(** The strings of a list of strings. *)
Fixpoint strings_of (l : list pyvalue) : option (list string) :=
  match l with
  | [] => Some []
  | PyStr s :: rest =>
      match strings_of rest with
      | Some codes => Some (s :: codes)
      | None => None
      end
  | _ :: _ => None
  end.

(** The value of [config.get("currencies")] as an argument of [do_sync];
    [None] for a list with an element that is not a string, which this
    development does not cover. *)
Definition as_currencies (v : pyvalue) : option currencies_arg :=
  match v with
  | PyNone => Some CurrenciesNone
  | PyList l =>
      match strings_of l with
      | Some codes => Some (CurrenciesList codes)
      | None => None
      end
  | other => Some (CurrenciesOther other)
  end.

(** [do_sync] on the dates [main] gives it, which are any truthy value of
    the configuration: line 111 parses [date_start], then [date_stop], and
    [date.fromisoformat] raises [TypeError] on a value that is not a string. *)
Definition do_sync_values (net : network) (date_start date_stop : pyvalue)
    (currencies : currencies_arg) : M unit :=
  match date_start with
  | PyStr start =>
      match date_stop with
      | PyStr stop => do_sync net start stop currencies
      | other =>
          (check_currencies currencies ;;
           lift (parse_date start) ;;
           raise (TypeError other))%prog
      end
  | other => (check_currencies currencies ;; raise (TypeError other))%prog
  end.

(** Lines 165-191: [main] from the files it has loaded ([None] when the
    option is not given) and the dates its two calls of [date.today()]
    return.  The result is [None] for a configuration that this development
    does not cover (see [as_currencies]). *)
Definition main (net : network) (config state : option pyvalue)
    (today_for_start today_for_stop : Date.date) : option (M unit) :=
  let config := match config with Some c => c | None => PyDict [] end in
  let state := match state with Some s => s | None => PyDict [] end in
  match configured_date config state "date_start" today_for_start with
  | Ok date_start =>
      match configured_date config state "date_stop" today_for_stop with
      | Ok date_stop =>
          match get_field config "currencies" with
          | Ok c =>
              match as_currencies c with
              | Some currencies =>
                  Some (do_sync_values net date_start date_stop currencies)
              | None => None
              end
          | Raise e => Some (raise e)
          | OutOfFuel => Some (lift OutOfFuel)
          end
      | Raise e => Some (raise e)
      | OutOfFuel => Some (lift OutOfFuel)
      end
  | Raise e => Some (raise e)
  | OutOfFuel => Some (lift OutOfFuel)
  end.

(** The [state] dict as the JSON value that a state file holds. *)
Definition state_value (s : state) : pyvalue :=
  PyDict [("date_start", PyStr (date_start s));
          ("date_stop", PyStr (date_stop s))].

(** [config] and [state] after lines 167-177: what the file holds, or [{}]
    without a file. *)
Definition loaded (file : option pyvalue) : pyvalue :=
  match file with Some v => v | None => PyDict [] end.

(** [d.get(key)] is falsy: the key is missing, or its value is [null], an
    empty string, [0], [false] or an empty list or object. *)
Definition unset (d : dict) (key : string) : bool :=
  match dict_get d key with
  | Some v => negb (truthy v)
  | None => true
  end.

(** ** More readings of a run *)

Definition total (l : list Z) : Z := fold_right Z.add 0 l.

(** The events of one day that parses: the courtesy sleep, the line of the
    day and the fetch, which starts at request [n]. *)
Definition day_events (net : network) (d : Date.date) (n : nat) : list event :=
  Sleep 2 :: Log Info (MsgDateToProcess (iso d))
  :: events (make_retry net (endpoint_of d) N_RETRIES DELAY_SECONDS n).

(** The events of [j] successive days from [d] on. *)
Inductive days_trace (net : network) : Date.date -> nat -> list event -> Prop :=
| days_trace_nil (d : Date.date) : days_trace net d 0 []
| days_trace_cons (d : Date.date) (j n : nat) (evs : list event) :
    days_trace net (Date.tomorrow d) j evs ->
    days_trace net d (S j) (day_events net d n ++ evs).

(** Walks the events and tells whether a sleep came since the last request;
    [None] when a request comes without one. *)
Fixpoint pace (slept : bool) (evs : list event) : option bool :=
  match evs with
  | [] => Some slept
  | Sleep _ :: rest => pace true rest
  | Request _ _ :: rest => if slept then pace false rest else None
  | _ :: rest => pace slept rest
  end.

(** The keys of a dict after [d[k] = v]. *)
Definition add_key (ks : list string) (k : string) : list string :=
  if in_dec string_dec k ks then ks else ks ++ [k].

(** The keys of the record that lines 127-131 build for a list of codes. *)
Definition record_keys (codes : list string) : list string :=
  fold_left (fun ks c => add_key (add_key ks c) (c ++ "_Nominal")%string)
    codes ["date"].

(** The [date] of the first record is a day before the [date] of the
    second. *)
Definition earlier (r1 r2 : dict) : Prop :=
  exists s1 s2 x1 x2,
    dict_get r1 "date" = Some (PyStr s1)
    /\ dict_get r2 "date" = Some (PyStr s2)
    /\ Date.fromisoformat s1 = Some x1
    /\ Date.fromisoformat s2 = Some x2
    /\ Date.ltb x1 x2 = true.

(** The exceptions of an answer that is not what lines 125-135 expect. *)
Definition is_body_error (e : exn) : bool :=
  match e with
  | JSONDecodeError _ | AttributeError _ | BadValute _ => true
  | _ => false
  end.

(** An answer with status 200 and without the text of a day without a rate
    that has nothing to record: a JSON object whose [Valute] is missing or
    falsy ([null], [{}], [[]], [0], an empty string). *)
Definition empty_body (r : response) : bool :=
  match Response.json r with
  | Some (PyDict body) =>
      match dict_get body "Valute" with
      | None => true
      | Some valutes => negb (truthy valutes)
      end
  | _ => false
  end.

(** * Properties *)

(** ** The calendar *)

Module DateFacts.
Import Date.

Lemma valid_inv (d : date) :
  valid d = true ->
  1 <= year d <= 9999 /\ 1 <= month d <= 12
  /\ 1 <= day d <= days_in_month (year d) (month d).
Proof.
  unfold valid, MINYEAR, MAXYEAR.
  rewrite !andb_true_iff, !Z.leb_le. lia.
Qed.

Lemma valid_intro (d : date) :
  1 <= year d <= 9999 -> 1 <= month d <= 12 ->
  1 <= day d <= days_in_month (year d) (month d) ->
  valid d = true.
Proof.
  unfold valid, MINYEAR, MAXYEAR.
  rewrite !andb_true_iff, !Z.leb_le. lia.
Qed.

Lemma month_cases (m : Z) :
  1 <= m <= 12 ->
  m = 1 \/ m = 2 \/ m = 3 \/ m = 4 \/ m = 5 \/ m = 6
  \/ m = 7 \/ m = 8 \/ m = 9 \/ m = 10 \/ m = 11 \/ m = 12.
Proof. lia. Qed.

Ltac each_month m H :=
  destruct (month_cases m H) as
    [-> | [-> | [-> | [-> | [-> | [-> | [-> | [-> | [-> | [-> | [-> | ->]]]]]]]]]]].

Lemma days_in_month_bounds (y m : Z) : 28 <= days_in_month y m <= 31.
Proof.
  unfold days_in_month.
  destruct (m =? 2); [destruct (is_leap y); lia|].
  destruct ((m =? 4) || (m =? 6) || (m =? 9) || (m =? 11)); lia.
Qed.

(** A year adds its days to the count. *)
Lemma days_before_year_succ (y : Z) :
  days_before_year (y + 1) = days_before_year y + days_in_year y.
Proof.
  unfold days_before_year, days_in_year, is_leap.
  replace (y + 1 - 1) with y by lia.
  destruct (Z.eqb_spec (y mod 4) 0) as [H4 | H4];
    destruct (Z.eqb_spec (y mod 100) 0) as [H100 | H100];
    destruct (Z.eqb_spec (y mod 400) 0) as [H400 | H400];
    cbn [andb orb negb];
    Z.div_mod_to_equations; lia.
Qed.

Lemma days_in_year_bounds (y : Z) : 365 <= days_in_year y <= 366.
Proof. unfold days_in_year. destruct (is_leap y); lia. Qed.

Lemma days_before_year_mono (y y' : Z) :
  y <= y' -> days_before_year y <= days_before_year y'.
Proof.
  intros H. replace y' with (y + Z.of_nat (Z.to_nat (y' - y))) by lia.
  induction (Z.to_nat (y' - y)) as [| n IH].
  - rewrite Z.add_0_r. lia.
  - replace (y + Z.of_nat (S n)) with (y + Z.of_nat n + 1) by lia.
    rewrite days_before_year_succ.
    pose proof (days_in_year_bounds (y + Z.of_nat n)). lia.
Qed.

(** A month adds its days to the count. *)
Lemma days_before_month_succ (y m : Z) :
  1 <= m <= 11 ->
  days_before_month y (m + 1) = days_before_month y m + days_in_month y m.
Proof.
  intros H. assert (H' : 1 <= m <= 12) by lia.
  unfold days_before_month, days_in_month.
  each_month m H'; try lia; destruct (is_leap y); reflexivity.
Qed.

Lemma days_before_month_mono (y m m' : Z) :
  1 <= m -> m <= m' -> m' <= 12 ->
  days_before_month y m <= days_before_month y m'.
Proof.
  intros H1 H2 H3.
  replace m' with (m + Z.of_nat (Z.to_nat (m' - m))) in * by lia.
  induction (Z.to_nat (m' - m)) as [| n IH].
  - rewrite Z.add_0_r. lia.
  - replace (m + Z.of_nat (S n)) with (m + Z.of_nat n + 1) in * by lia.
    rewrite days_before_month_succ by lia.
    pose proof (days_in_month_bounds y (m + Z.of_nat n)). lia.
Qed.

Lemma days_before_month_last (y : Z) :
  days_before_month y 12 + 31 = days_in_year y.
Proof.
  unfold days_before_month, days_in_year. destruct (is_leap y); reflexivity.
Qed.

(** The day of the year of a valid date lies in its year. *)
Lemma day_of_year_bounds (d : date) :
  valid d = true ->
  1 <= days_before_month (year d) (month d) + day d <= days_in_year (year d).
Proof.
  intros H. apply valid_inv in H. destruct H as (_ & Hm & Hd).
  assert (0 <= days_before_month (year d) (month d)).
  { change 0 with (0 + 0). unfold days_before_month.
    apply Z.add_le_mono.
    - each_month (month d) Hm; lia.
    - destruct ((2 <? month d) && is_leap (year d)); lia. }
  split; [lia|].
  destruct (Z.eq_dec (month d) 12) as [E | E].
  - rewrite E in *. rewrite <- days_before_month_last.
    assert (D : days_in_month (year d) 12 = 31) by reflexivity. lia.
  - pose proof (days_before_month_succ (year d) (month d)) as S1.
    pose proof (days_before_month_mono (year d) (month d + 1) 12) as S2.
    rewrite <- days_before_month_last. lia.
Qed.

(** The next day has the next ordinal. *)
Lemma toordinal_tomorrow (d : date) :
  valid d = true -> toordinal (tomorrow d) = toordinal d + 1.
Proof.
  intros H. apply valid_inv in H. destruct H as (_ & Hm & Hd).
  unfold tomorrow, toordinal.
  destruct (Z.ltb_spec (day d) (days_in_month (year d) (month d))) as [L | L].
  - cbn. lia.
  - destruct (Z.ltb_spec (month d) 12) as [L' | L']; cbn [year month day].
    + rewrite days_before_month_succ by lia. lia.
    + assert (E : month d = 12) by lia. rewrite E in *.
      assert (D : days_in_month (year d) 12 = 31) by reflexivity.
      assert (J : days_before_month (year d + 1) 1 = 0) by reflexivity.
      rewrite days_before_year_succ, <- days_before_month_last, J. lia.
Qed.

Lemma toordinal_year_bounds (d : date) :
  valid d = true ->
  days_before_year (year d) < toordinal d <= days_before_year (year d + 1).
Proof.
  intros H. pose proof (day_of_year_bounds d H).
  unfold toordinal. rewrite days_before_year_succ. lia.
Qed.

Lemma toordinal_bounds (d : date) :
  valid d = true -> 1 <= toordinal d <= MAXORDINAL.
Proof.
  intros H. pose proof (toordinal_year_bounds d H) as B.
  apply valid_inv in H. destruct H as (Hy & _ & _).
  pose proof (days_before_year_mono 1 (year d)) as L.
  pose proof (days_before_year_mono (year d + 1) 10000) as U.
  change (days_before_year 1) with 0 in L.
  change (days_before_year 10000) with MAXORDINAL in U.
  lia.
Qed.

(** The order of dates is the order of their ordinals. *)
Lemma ltb_toordinal (a b : date) :
  valid a = true -> valid b = true ->
  ltb a b = true -> toordinal a < toordinal b.
Proof.
  intros Ha Hb. unfold ltb.
  rewrite orb_true_iff, andb_true_iff, orb_true_iff, andb_true_iff.
  rewrite !Z.ltb_lt, !Z.eqb_eq.
  intros [Hy | [Ey [Hm | [Em Hd]]]].
  - pose proof (toordinal_year_bounds a Ha).
    pose proof (toordinal_year_bounds b Hb).
    pose proof (days_before_year_mono (year a + 1) (year b)). lia.
  - apply valid_inv in Ha, Hb.
    unfold toordinal. rewrite Ey.
    pose proof (days_before_month_succ (year b) (month a)).
    pose proof (days_before_month_mono (year b) (month a + 1) (month b)).
    rewrite Ey in *. lia.
  - unfold toordinal. rewrite Ey, Em. lia.
Qed.

Lemma eqb_eq (a b : date) : eqb a b = true <-> a = b.
Proof.
  unfold eqb. rewrite !andb_true_iff, !Z.eqb_eq.
  destruct a, b; cbn. split.
  - intros [[-> ->] ->]. reflexivity.
  - intros E. inversion E. auto.
Qed.

Lemma ltb_total (a b : date) :
  ltb a b = true \/ a = b \/ ltb b a = true.
Proof.
  unfold ltb.
  rewrite !orb_true_iff, !andb_true_iff, !orb_true_iff, !andb_true_iff.
  rewrite !Z.ltb_lt, !Z.eqb_eq.
  destruct a as [ya ma da], b as [yb mb db]; cbn.
  destruct (Z.lt_trichotomy ya yb) as [? | [? | ?]]; [lia | | lia].
  destruct (Z.lt_trichotomy ma mb) as [? | [? | ?]]; [lia | | lia].
  destruct (Z.lt_trichotomy da db) as [? | [? | ?]]; [lia | | lia].
  right; left. congruence.
Qed.

Lemma leb_toordinal (a b : date) :
  valid a = true -> valid b = true ->
  leb a b = (toordinal a <=? toordinal b).
Proof.
  intros Ha Hb. unfold leb.
  destruct (ltb_total a b) as [L | [E | G]].
  - rewrite L. cbn. symmetry. apply Z.leb_le.
    pose proof (ltb_toordinal a b Ha Hb L). lia.
  - subst b. rewrite (proj2 (eqb_eq a a) eq_refl), orb_true_r.
    symmetry. apply Z.leb_le. lia.
  - pose proof (ltb_toordinal b a Hb Ha G) as Lt.
    destruct (ltb a b) eqn:L.
    + pose proof (ltb_toordinal a b Ha Hb L). lia.
    + destruct (eqb a b) eqn:E.
      * apply eqb_eq in E. subst. lia.
      * cbn. symmetry. apply Z.leb_gt. lia.
Qed.

Lemma toordinal_inj (a b : date) :
  valid a = true -> valid b = true ->
  toordinal a = toordinal b -> a = b.
Proof.
  intros Ha Hb E.
  destruct (ltb_total a b) as [L | [? | G]]; [| assumption |].
  - pose proof (ltb_toordinal a b Ha Hb L). lia.
  - pose proof (ltb_toordinal b a Hb Ha G). lia.
Qed.

(** A day that is not the last one has a valid next day. *)
Lemma valid_tomorrow (d : date) :
  valid d = true -> toordinal d + 1 <= MAXORDINAL ->
  valid (tomorrow d) = true.
Proof.
  intros H Hmax. pose proof (toordinal_tomorrow d H) as T.
  pose proof (valid_inv d H) as (Hy & Hm & Hd).
  unfold tomorrow in *.
  destruct (Z.ltb_spec (day d) (days_in_month (year d) (month d))) as [L | L].
  - apply valid_intro; cbn [year month day]; lia.
  - destruct (Z.ltb_spec (month d) 12) as [L' | L'].
    + apply valid_intro; cbn [year month day]; try lia.
      pose proof (days_in_month_bounds (year d) (month d + 1)). lia.
    + apply valid_intro; cbn [year month day].
      * split; [lia|].
        destruct (Z.eq_dec (year d) 9999) as [E | E]; [| lia].
        exfalso. unfold toordinal in T. cbn [year month day] in T.
        rewrite E in T.
        change (days_before_year (9999 + 1)) with MAXORDINAL in T.
        change (days_before_month (9999 + 1) 1) with 0 in T.
        unfold toordinal in Hmax. rewrite E in Hmax. lia.
      * lia.
      * change (days_in_month (year d + 1) 1) with 31. lia.
Qed.

(** *** Dates as text *)

Lemma digit_value_digit_char (z : Z) :
  0 <= z <= 9 -> digit_value (digit_char z) = Some z.
Proof.
  intros H.
  assert (C : z = 0 \/ z = 1 \/ z = 2 \/ z = 3 \/ z = 4 \/ z = 5
              \/ z = 6 \/ z = 7 \/ z = 8 \/ z = 9) by lia.
  destruct C as [-> | [-> | [-> | [-> | [-> | [-> | [-> | [-> | [-> | ->]]]]]]]]];
    reflexivity.
Qed.

Lemma digit_char_digit_value (c : ascii) (z : Z) :
  digit_value c = Some z -> c = digit_char z /\ 0 <= z <= 9.
Proof.
  unfold digit_value, digit_char.
  destruct ((48 <=? Z.of_N (N_of_ascii c)) && (Z.of_N (N_of_ascii c) <=? 57))
    eqn:R; [| discriminate].
  apply andb_true_iff in R. rewrite !Z.leb_le in R.
  intros E. injection E as <-. split; [| lia].
  replace (48 + (Z.of_N (N_of_ascii c) - 48)) with (Z.of_N (N_of_ascii c))
    by lia.
  rewrite N2Z.id. symmetry. apply ascii_N_embedding.
Qed.

Lemma strftime_DATE_FORMAT (d : date) :
  strftime d "%Y-%m-%d"
  = String (digit_char (year d / 1000))
      (String (digit_char ((year d / 100) mod 10))
         (String (digit_char ((year d / 10) mod 10))
            (String (digit_char (year d mod 10))
               (String "-"
                  (String (digit_char (month d / 10))
                     (String (digit_char (month d mod 10))
                        (String "-"
                           (String (digit_char (day d / 10))
                              (String (digit_char (day d mod 10))
                                 EmptyString))))))))).
Proof. reflexivity. Qed.

(** Parsing what [strftime] printed gives the date back. *)
Lemma fromisoformat_strftime (d : date) :
  valid d = true -> fromisoformat (strftime d "%Y-%m-%d") = Some d.
Proof.
  intros H. pose proof (valid_inv d H) as (Hy & Hm & Hd).
  pose proof (days_in_month_bounds (year d) (month d)) as Hb.
  rewrite strftime_DATE_FORMAT. unfold fromisoformat.
  change (Ascii.eqb "-" "-") with true. cbn [andb].
  rewrite !digit_value_digit_char by (Z.div_mod_to_equations; lia).
  replace (1000 * (year d / 1000) + 100 * ((year d / 100) mod 10)
           + 10 * ((year d / 10) mod 10) + year d mod 10)
    with (year d) by (Z.div_mod_to_equations; lia).
  replace (10 * (month d / 10) + month d mod 10)
    with (month d) by (Z.div_mod_to_equations; lia).
  replace (10 * (day d / 10) + day d mod 10)
    with (day d) by (Z.div_mod_to_equations; lia).
  destruct d as [y m dd]. cbn [year month day] in *. now rewrite H.
Qed.

(** A string that parses is the one [strftime] prints for its date. *)
Lemma strftime_fromisoformat (s : string) (d : date) :
  fromisoformat s = Some d -> strftime d "%Y-%m-%d" = s /\ valid d = true.
Proof.
  unfold fromisoformat.
  destruct s as [| y1 [| y2 [| y3 [| y4 [| s1 [| m1 [| m2 [| s2
                [| d1 [| d2 [| ? ?]]]]]]]]]]]; try discriminate.
  destruct (Ascii.eqb s1 "-") eqn:E1; [| discriminate].
  destruct (Ascii.eqb s2 "-") eqn:E2; [| discriminate].
  apply Ascii.eqb_eq in E1, E2. subst s1 s2. cbn [andb].
  destruct (digit_value y1) as [a |] eqn:A; [| discriminate].
  destruct (digit_value y2) as [b |] eqn:B; [| discriminate].
  destruct (digit_value y3) as [c |] eqn:C; [| discriminate].
  destruct (digit_value y4) as [e |] eqn:E; [| discriminate].
  destruct (digit_value m1) as [f |] eqn:F; [| discriminate].
  destruct (digit_value m2) as [g |] eqn:G; [| discriminate].
  destruct (digit_value d1) as [h |] eqn:Hh; [| discriminate].
  destruct (digit_value d2) as [i |] eqn:I; [| discriminate].
  apply digit_char_digit_value in A, B, C, E, F, G, Hh, I.
  destruct A as [-> ?], B as [-> ?], C as [-> ?], E as [-> ?],
           F as [-> ?], G as [-> ?], Hh as [-> ?], I as [-> ?].
  cbv zeta.
  destruct (valid _) eqn:V; [| discriminate].
  intros Q. assert (Q' : d = mkdate (1000 * a + 100 * b + 10 * c + e)
                                    (10 * f + g) (10 * h + i))
    by congruence.
  subst d. split; [| exact V].
  rewrite strftime_DATE_FORMAT. cbn [year month day].
  repeat f_equal; Z.div_mod_to_equations; lia.
Qed.

End DateFacts.

(** ** Sequencing *)

Lemma bind_emit {B : Type} (e : event) (k : unit -> M B) (n : nat)
    (evs : list event) (r : nat) (val : result B) :
  k tt n = mkoutcome evs r val ->
  bind (emit e) k n = mkoutcome (e :: evs) r val.
Proof. intros H. unfold bind, emit. cbn. now rewrite H. Qed.

Lemma bind_lift_ok {A B : Type} (a : A) (k : A -> M B) (n : nat) :
  bind (lift (Ok a)) k n = k a n.
Proof. unfold bind, lift. cbn. now destruct (k a n). Qed.

Lemma bind_lift_raise {A B : Type} (e : exn) (k : A -> M B) (n : nat) :
  bind (lift (Raise e)) k n = mkoutcome [] n (Raise e).
Proof. reflexivity. Qed.

Lemma bind_ret {A B : Type} (a : A) (k : A -> M B) (n : nat) :
  bind (ret a) k n = k a n.
Proof. apply bind_lift_ok. Qed.

(** [bind] by the way its first part ends. *)
Lemma bind_eq {A B : Type} (m : M A) (k : A -> M B) (n : nat) :
  bind m k n
  = match value (m n) with
    | Ok a =>
        mkoutcome (events (m n) ++ events (k a (requests (m n))))
          (requests (k a (requests (m n)))) (value (k a (requests (m n))))
    | Raise e => mkoutcome (events (m n)) (requests (m n)) (Raise e)
    | OutOfFuel => mkoutcome (events (m n)) (requests (m n)) OutOfFuel
    end.
Proof. reflexivity. Qed.

(** An effect followed by three steps without effect. *)
Lemma bind_pure_steps {A B C D : Type} (m : M A) (h : A -> result B)
    (g : B -> result C) (F : C -> B -> D) (n : nat) :
  (a <- m ;; b <- lift (h a) ;; c <- lift (g b) ;; ret (F c b)) n
  = mkoutcome (events (m n)) (requests (m n))
      (rbind (value (m n)) (fun a =>
       rbind (h a) (fun b =>
       rbind (g b) (fun c => Ok (F c b))))).
Proof.
  unfold bind, lift, ret.
  destruct (m n) as [evs r [a | e |]]; cbn; [| reflexivity | reflexivity].
  destruct (h a) as [b | e |]; cbn; rewrite ?app_nil_r; [| reflexivity | reflexivity].
  destruct (g b) as [c | e |]; cbn; rewrite ?app_nil_r; reflexivity.
Qed.

(** ** Reading events *)

Lemma sleeps_app (xs ys : list event) : sleeps (xs ++ ys) = sleeps xs ++ sleeps ys.
Proof.
  induction xs as [| [] xs IH]; cbn; rewrite ?IH; reflexivity.
Qed.

Lemma requested_app (xs ys : list event) :
  requested (xs ++ ys) = requested xs ++ requested ys.
Proof.
  induction xs as [| [] xs IH]; cbn; rewrite ?IH; reflexivity.
Qed.

Lemma visited_app (xs ys : list event) :
  visited (xs ++ ys) = visited xs ++ visited ys.
Proof.
  induction xs as [| [| | l [] | | |] xs IH]; cbn; rewrite ?IH; reflexivity.
Qed.

Lemma writes_app (xs ys : list event) : writes (xs ++ ys) = writes xs ++ writes ys.
Proof. apply filter_app. Qed.

Lemma fetch_event_is_loop_event (e : event) :
  is_fetch_event e = true -> is_loop_event e = true.
Proof. destruct e as [| | l [] | | |]; cbn; congruence. Qed.

Lemma fetch_events_visited (evs : list event) :
  Forall (fun e => is_fetch_event e = true) evs -> visited evs = [].
Proof.
  induction 1 as [| e evs He _ IH]; [reflexivity|].
  destruct e as [| | l [] | | |]; cbn in *; congruence.
Qed.

Lemma loop_events_writes (evs : list event) :
  Forall (fun e => is_loop_event e = true) evs -> writes evs = [].
Proof.
  unfold writes.
  induction 1 as [| e evs He _ IH]; [reflexivity|].
  destruct e as [| | l [] | | |]; cbn in *; congruence.
Qed.

Lemma loop_events_no_completion (evs : list event) :
  Forall (fun e => is_loop_event e = true) evs ->
  filter is_completion evs = [].
Proof.
  induction 1 as [| e evs He _ IH]; [reflexivity|].
  destruct e as [| | l [] | | |]; cbn in *; congruence.
Qed.

(** ** The fetcher *)

Section Fetcher.

Variable net : network.

(** One turn of the [for] loop of [make_retry]. *)
Lemma make_retry_from_cons (url : string) (n_retries : nat)
    (delay_seconds : Z) (retry : nat) (retries : list nat) (n : nat) :
  make_retry_from net url n_retries delay_seconds (retry :: retries) n
  = let next := make_retry_from net url n_retries delay_seconds retries (S n) in
    let delay := delay_seconds * 2 ^ Z.of_nat retry in
    match net n url with
    | Failed e =>
        mkoutcome
          (Request "get" url :: Log Info (MsgException e)
           :: Log Info (MsgSecondsBeforeNextRetry delay) :: Sleep delay
           :: events next)
          (requests next) (value next)
    | Responded r =>
        if negb (Response.status_code r =? 200)
           && negb (str_in NO_RATE_TEXT (Response.text r))
        then
          mkoutcome
            (Request "get" url :: Log Info (MsgResponseURL (Response.url r))
             :: Log Info (MsgResponseStatusCode (Response.status_code r))
             :: Log Info (MsgResponseText (Response.text r))
             :: Log Info (MsgSecondsBeforeNextRetry delay) :: Sleep delay
             :: events next)
            (requests next) (value next)
        else if str_in NO_RATE_TEXT (Response.text r)
        then
          mkoutcome
            [Request "get" url; Log Warning (MsgResponseText (Response.text r))]
            (S n) (Ok None)
        else mkoutcome [Request "get" url] (S n) (Ok (Some r))
    end.
Proof.
  cbn [make_retry_from]. unfold bind at 1. cbn [request value events requests].
  destruct (net n url) as [e | r].
  - reflexivity.
  - destruct (negb (Response.status_code r =? 200)
              && negb (str_in NO_RATE_TEXT (Response.text r))).
    + reflexivity.
    + destruct (str_in NO_RATE_TEXT (Response.text r)); reflexivity.
Qed.

Lemma make_retry_from_nil (url : string) (n_retries : nat)
    (delay_seconds : Z) (n : nat) :
  make_retry_from net url n_retries delay_seconds [] n
  = mkoutcome [Log Warning (MsgFailedAfter n_retries)] n (Ok None).
Proof. reflexivity. Qed.

(** [make_retry] never raises. *)
Lemma make_retry_from_value (url : string) (n_retries : nat)
    (delay_seconds : Z) (retries : list nat) (n : nat) :
  exists resp,
    value (make_retry_from net url n_retries delay_seconds retries n) = Ok resp.
Proof.
  revert n. induction retries as [| retry retries IH]; intros n.
  - eexists. reflexivity.
  - rewrite make_retry_from_cons. cbv zeta.
    destruct (net n url) as [e | r]; [apply IH|].
    destruct (negb _ && negb _); [apply IH|].
    destruct (str_in _ _); eexists; reflexivity.
Qed.

(** Its events are its own. *)
Lemma make_retry_from_events (url : string) (n_retries : nat)
    (delay_seconds : Z) (retries : list nat) (n : nat) :
  Forall (fun e => is_fetch_event e = true)
    (events (make_retry_from net url n_retries delay_seconds retries n)).
Proof.
  revert n. induction retries as [| retry retries IH]; intros n.
  - repeat constructor.
  - rewrite make_retry_from_cons. cbv zeta.
    destruct (net n url) as [e | r].
    + cbn [events]. repeat (constructor; [reflexivity|]). apply IH.
    + destruct (negb _ && negb _).
      * cbn [events]. repeat (constructor; [reflexivity|]). apply IH.
      * destruct (str_in _ _); repeat constructor.
Qed.

(** A response it returns was given by the network with status 200 and
    without the text of a day that has no rate. *)
Lemma make_retry_from_some (url : string) (n_retries : nat)
    (delay_seconds : Z) (retries : list nat) (n : nat) (r : response) :
  value (make_retry_from net url n_retries delay_seconds retries n)
  = Ok (Some r) ->
  (exists m, net m url = Responded r)
  /\ Response.status_code r = 200
  /\ str_in NO_RATE_TEXT (Response.text r) = false.
Proof.
  revert n. induction retries as [| retry retries IH]; intros n.
  - discriminate.
  - rewrite make_retry_from_cons. cbv zeta.
    destruct (net n url) as [e | r'] eqn:N; [apply IH|].
    destruct (Z.eqb_spec (Response.status_code r') 200) as [S200 | S200];
      destruct (str_in NO_RATE_TEXT (Response.text r')) eqn:T;
      cbn [negb andb value]; try apply IH; try discriminate.
    intros E. injection E as <-. eauto.
Qed.

(** It counts its requests, makes one per turn at most, all to [url]. *)
Lemma make_retry_from_requests (url : string) (n_retries : nat)
    (delay_seconds : Z) (retries : list nat) (n : nat) :
  let o := make_retry_from net url n_retries delay_seconds retries n in
  requests o = (n + List.length (requested (events o)))%nat
  /\ (List.length (requested (events o)) <= List.length retries)%nat
  /\ (List.length (sleeps (events o)) <= List.length (requested (events o)))%nat
  /\ Forall (eq url) (requested (events o)).
Proof.
  revert n. induction retries as [| retry retries IH]; intros n.
  - cbn. repeat split; auto; lia.
  - cbv zeta. rewrite make_retry_from_cons. cbv zeta.
    specialize (IH (S n)). cbv zeta in IH. destruct IH as (I1 & I2 & I3 & I4).
    destruct (net n url) as [e | r].
    + cbn [events requests requested sleeps List.length].
      repeat split; auto; lia.
    + destruct (negb _ && negb _).
      * cbn [events requests requested sleeps List.length].
        repeat split; auto; lia.
      * destruct (str_in _ _); cbn; repeat split; auto; lia.
Qed.

(** The [j]-th sleep lasts [delay_seconds * 2 ^ retry] for the [j]-th value
    of [retry]. *)
Lemma make_retry_from_sleeps (url : string) (n_retries : nat)
    (delay_seconds : Z) (i k : nat) (n : nat) :
  let o := make_retry_from net url n_retries delay_seconds (seq i k) n in
  sleeps (events o)
  = map (fun j => delay_seconds * 2 ^ Z.of_nat j)
      (seq i (List.length (sleeps (events o)))).
Proof.
  revert i n. induction k as [| k IH]; intros i n.
  - reflexivity.
  - cbv zeta. cbn [seq]. rewrite make_retry_from_cons. cbv zeta.
    specialize (IH (S i) (S n)). cbv zeta in IH.
    destruct (net n url) as [e | r].
    + cbn [events sleeps List.length seq map]. now rewrite <- IH.
    + destruct (negb _ && negb _).
      * cbn [events sleeps List.length seq map]. now rewrite <- IH.
      * destruct (str_in _ _); reflexivity.
Qed.

(** When every attempt is to be retried, [make_retry] makes them all,
    sleeps after each, warns and returns [None]. *)
Lemma make_retry_from_exhausted (url : string) (n_retries : nat)
    (delay_seconds : Z) (i k : nat) (n : nat) :
  (forall j, (j < k)%nat -> retryable (net (n + j)%nat url) = true) ->
  let o := make_retry_from net url n_retries delay_seconds (seq i k) n in
  value o = Ok None
  /\ requests o = (n + k)%nat
  /\ requested (events o) = repeat url k
  /\ sleeps (events o)
     = map (fun j => delay_seconds * 2 ^ Z.of_nat j) (seq i k)
  /\ exists evs, events o = evs ++ [Log Warning (MsgFailedAfter n_retries)].
Proof.
  revert i n. induction k as [| k IH]; intros i n H.
  - cbn. repeat split; auto. exists []. reflexivity.
  - cbv zeta. cbn [seq]. rewrite make_retry_from_cons. cbv zeta.
    assert (H0 : retryable (net n url) = true).
    { replace n with (n + 0)%nat at 1 by lia. apply H. lia. }
    assert (H' : forall j, (j < k)%nat -> retryable (net (S n + j)%nat url) = true).
    { intros j Hj. replace (S n + j)%nat with (n + S j)%nat by lia.
      apply H. lia. }
    specialize (IH (S i) (S n) H'). cbv zeta in IH.
    destruct IH as (I1 & I2 & I3 & I4 & evs & I5).
    destruct (net n url) as [e | r].
    + cbn [events requests value requested sleeps repeat map].
      rewrite I3, I4, I5. repeat split; auto; [lia|].
      eexists. rewrite !app_comm_cons. reflexivity.
    + cbn [retryable] in H0. rewrite H0.
      cbn [events requests value requested sleeps repeat map].
      rewrite I3, I4, I5. repeat split; auto; [lia|].
      eexists. rewrite !app_comm_cons. reflexivity.
Qed.

End Fetcher.

(** The attempts that are to be retried come first: each is a request and a
    sleep, and the loop goes on after them as it would from there. *)
Lemma make_retry_from_skip (net : network) (url : string) (n_retries : nat)
    (delay_seconds : Z) (i : nat) :
  forall (s n : nat) (rest : list nat),
    (forall j, (j < i)%nat -> retryable (net (n + j)%nat url) = true) ->
    let o := make_retry_from net url n_retries delay_seconds
               (seq s i ++ rest) n in
    let o' := make_retry_from net url n_retries delay_seconds rest
                (n + i)%nat in
    exists pre,
      events o = pre ++ events o'
      /\ value o = value o'
      /\ requests o = requests o'
      /\ requested pre = repeat url i
      /\ sleeps pre = map (fun j => delay_seconds * 2 ^ Z.of_nat j) (seq s i).
Proof.
  induction i as [| i IH]; intros s n rest H; cbv zeta.
  - exists []. cbn [seq app]. rewrite Nat.add_0_r. repeat split.
  - cbn [seq app]. rewrite make_retry_from_cons. cbv zeta.
    assert (H0 : retryable (net n url) = true).
    { replace n with (n + 0)%nat at 1 by lia. apply H. lia. }
    assert (H' : forall j, (j < i)%nat -> retryable (net (S n + j)%nat url) = true).
    { intros j Hj. replace (S n + j)%nat with (n + S j)%nat by lia.
      apply H. lia. }
    destruct (IH (S s) (S n) rest H') as (pre & E & V & R & Rq & Sl).
    replace (n + S i)%nat with (S n + i)%nat by lia.
    destruct (net n url) as [e | r].
    + cbn [events requests value]. rewrite E.
      exists (Request "get" url :: Log Info (MsgException e)
              :: Log Info (MsgSecondsBeforeNextRetry
                             (delay_seconds * 2 ^ Z.of_nat s))
              :: Sleep (delay_seconds * 2 ^ Z.of_nat s) :: pre).
      cbn [app requested sleeps repeat map]. rewrite Rq, Sl. repeat split; auto.
    + cbn [retryable] in H0. rewrite H0. cbn [events requests value]. rewrite E.
      exists (Request "get" url :: Log Info (MsgResponseURL (Response.url r))
              :: Log Info (MsgResponseStatusCode (Response.status_code r))
              :: Log Info (MsgResponseText (Response.text r))
              :: Log Info (MsgSecondsBeforeNextRetry
                             (delay_seconds * 2 ^ Z.of_nat s))
              :: Sleep (delay_seconds * 2 ^ Z.of_nat s) :: pre).
      cbn [app requested sleeps repeat map]. rewrite Rq, Sl. repeat split; auto.
Qed.

(** Every turn of the loop starts with a request. *)
Lemma make_retry_from_first_request (net : network) (url : string)
    (n_retries : nat) (delay_seconds : Z) (retry : nat) (retries : list nat)
    (n : nat) :
  exists rest,
    events (make_retry_from net url n_retries delay_seconds (retry :: retries) n)
    = Request "get" url :: rest.
Proof.
  rewrite make_retry_from_cons. cbv zeta.
  destruct (net n url) as [e | r]; [eexists; reflexivity|].
  destruct (negb _ && negb _); [eexists; reflexivity|].
  destruct (str_in _ _); eexists; reflexivity.
Qed.

(** ** Dicts and records *)

Lemma append_length (a b : string) :
  String.length (a ++ b) = (String.length a + String.length b)%nat.
Proof. induction a as [| c a IH]; cbn; [reflexivity | now rewrite IH]. Qed.

Lemma append_inj_l (a b s : string) : (a ++ s = b ++ s)%string -> a = b.
Proof.
  revert b. induction a as [| c a IH]; intros [| c' b] E; cbn in E.
  - reflexivity.
  - apply (f_equal String.length) in E. cbn in E. rewrite append_length in E. lia.
  - apply (f_equal String.length) in E. cbn in E. rewrite append_length in E. lia.
  - injection E as -> E. f_equal. now apply IH.
Qed.

Lemma nominal_key_not_date (c : string) : (c ++ "_Nominal")%string <> "date".
Proof.
  intros E. apply (f_equal String.length) in E.
  rewrite append_length in E. cbn in E. lia.
Qed.

Lemma nominal_key_not_code (c : string) : (c ++ "_Nominal")%string <> c.
Proof.
  intros E. apply (f_equal String.length) in E.
  rewrite append_length in E. cbn in E. lia.
Qed.

Lemma dict_get_set (d : dict) (k k' : string) (v : pyvalue) :
  dict_get (dict_set d k v) k' = if String.eqb k k' then Some v else dict_get d k'.
Proof.
  induction d as [| [k0 v0] d IH]; cbn.
  - reflexivity.
  - destruct (String.eqb_spec k0 k) as [-> | N]; cbn.
    + destruct (String.eqb k k'); reflexivity.
    + rewrite IH. destruct (String.eqb_spec k0 k') as [-> | N'].
      * destruct (String.eqb_spec k k'); [congruence | reflexivity].
      * reflexivity.
Qed.

Lemma dict_get_set_same (d : dict) (k : string) (v : pyvalue) :
  dict_get (dict_set d k v) k = Some v.
Proof. now rewrite dict_get_set, String.eqb_refl. Qed.

Lemma dict_get_set_other (d : dict) (k k' : string) (v : pyvalue) :
  k <> k' -> dict_get (dict_set d k v) k' = dict_get d k'.
Proof.
  intros N. rewrite dict_get_set.
  destruct (String.eqb_spec k k'); [contradiction | reflexivity].
Qed.

Lemma dict_get_keys (d : dict) (k : string) :
  In k (keys d) <-> dict_get d k <> None.
Proof.
  induction d as [| [k0 v0] d IH]; cbn.
  - split; [contradiction | congruence].
  - destruct (String.eqb_spec k0 k) as [-> | N].
    + split; [congruence | auto].
    + rewrite <- IH. split; [intros [? | ?]; [contradiction | assumption] | auto].
Qed.

Lemma keys_dict_set (d : dict) (k k' : string) (v : pyvalue) :
  In k' (keys (dict_set d k v)) <-> k' = k \/ In k' (keys d).
Proof.
  rewrite !dict_get_keys, dict_get_set.
  destruct (String.eqb_spec k k') as [-> | N].
  - split; [auto | congruence].
  - split; [auto | intros [-> | ?]; [contradiction | assumption]].
Qed.

Lemma get_field_ok (entry : pyvalue) (field : string) (x : pyvalue) :
  get_field entry field = Ok x -> is_dict entry = true /\ x = field_of entry field.
Proof.
  destruct entry; cbn; try discriminate. intros E. injection E as <-. auto.
Qed.

Lemma get_field_dict (entry : pyvalue) (field : string) :
  is_dict entry = true -> get_field entry field = Ok (field_of entry field).
Proof. destruct entry; cbn; try discriminate. reflexivity. Qed.

Lemma fill_from_currencies_cons (vs : dict) (c : string) (codes : list string)
    (record : dict) :
  fill_from_currencies (PyDict vs) (c :: codes) record
  = if is_dict (entry_of vs c)
    then fill_from_currencies (PyDict vs) codes
           (dict_set (dict_set record c (field_of (entry_of vs c) "Value"))
              (c ++ "_Nominal")%string (field_of (entry_of vs c) "Nominal"))
    else Raise (AttributeError (entry_of vs c)).
Proof.
  cbn [fill_from_currencies]. fold (entry_of vs c).
  destruct (entry_of vs c); reflexivity.
Qed.

(** The loop over the keys of [Valute] is the loop over a list of codes that
    are all keys. *)
Lemma fill_from_keys_currencies (vs : dict) (ks : list string) (record : dict) :
  (forall k, In k ks -> In k (keys vs)) ->
  fill_from_keys vs ks record = fill_from_currencies (PyDict vs) ks record.
Proof.
  revert record. induction ks as [| k ks IH]; intros record H.
  - reflexivity.
  - cbn [fill_from_keys fill_from_currencies].
    assert (K : dict_get vs k <> None) by (apply dict_get_keys, H; now left).
    destruct (dict_get vs k) as [e |]; [| congruence].
    destruct (get_field e "Value"); cbn [rbind]; try reflexivity.
    destruct (get_field e "Nominal"); cbn [rbind]; try reflexivity.
    apply IH. intros k' Hk'. apply H. now right.
Qed.

(** In both modes the record of a day is filled from [codes_of]. *)
Lemma build_record_dict (currencies : option (list string)) (s : string)
    (vs : dict) :
  build_record currencies s (PyDict vs)
  = fill_from_currencies (PyDict vs) (codes_of currencies vs)
      [("date", PyStr s)].
Proof.
  unfold build_record, codes_of.
  destruct (currencies_truthy currencies); [reflexivity|].
  now apply fill_from_keys_currencies.
Qed.

(** A truthy [Valute] that gives a record is a dict. *)
Lemma build_record_ok_dict (currencies : option (list string)) (s : string)
    (valutes : pyvalue) (r : dict) :
  truthy valutes = true -> build_record currencies s valutes = Ok r ->
  exists vs, valutes = PyDict vs /\ vs <> [].
Proof.
  intros T. unfold build_record.
  destruct currencies as [[| c l] |]; cbn [currencies_truthy];
    destruct valutes as [| | | | | | vs]; try discriminate;
    intros _; exists vs; (split; [reflexivity|]);
    destruct vs; [discriminate | congruence | discriminate | congruence
                  | discriminate | congruence].
Qed.

Section Fill.

Variable vs : dict.

(** Keys that no code writes keep their value. *)
Lemma fill_untouched (codes : list string) (record r : dict) (k : string) :
  fill_from_currencies (PyDict vs) codes record = Ok r ->
  ~ In k (written codes) ->
  dict_get r k = dict_get record k.
Proof.
  revert record. induction codes as [| c codes IH]; intros record.
  - cbn. intros E _. now injection E as <-.
  - rewrite fill_from_currencies_cons.
    destruct (is_dict (entry_of vs c)); [| discriminate].
    intros E N. cbn [written flat_map app In] in N. fold (written codes) in N.
    rewrite (IH _ E) by tauto.
    rewrite !dict_get_set_other by tauto. reflexivity.
Qed.

(** Every entry that was read is a dict. *)
Lemma fill_entries (codes : list string) (record r : dict) :
  fill_from_currencies (PyDict vs) codes record = Ok r ->
  forall c, In c codes -> is_dict (entry_of vs c) = true.
Proof.
  revert record. induction codes as [| c0 codes IH]; intros record.
  - contradiction.
  - rewrite fill_from_currencies_cons.
    destruct (is_dict (entry_of vs c0)) eqn:D; [| discriminate].
    intros E c [<- | Hc]; [assumption | eauto].
Qed.

(** A code whose two keys no other code writes has its value and its
    nominal in the record. *)
Lemma fill_code (codes : list string) (record r : dict) (c : string) :
  fill_from_currencies (PyDict vs) codes record = Ok r ->
  In c codes ->
  (forall d, In d codes ->
             (d ++ "_Nominal")%string <> c /\ d <> (c ++ "_Nominal")%string) ->
  dict_get r c = Some (field_of (entry_of vs c) "Value")
  /\ dict_get r (c ++ "_Nominal")%string
     = Some (field_of (entry_of vs c) "Nominal").
Proof.
  revert record. induction codes as [| c0 codes IH]; intros record.
  - contradiction.
  - rewrite fill_from_currencies_cons.
    destruct (is_dict (entry_of vs c0)); [| discriminate].
    intros E Hc NC.
    destruct (in_dec string_dec c codes) as [I | I].
    + apply (IH _ E I). intros d Hd. apply NC. now right.
    + destruct Hc as [-> | Hc]; [| contradiction].
      assert (W : forall k, k = c \/ k = (c ++ "_Nominal")%string ->
                            ~ In k (written codes)).
      { intros k Hk Hin. unfold written in Hin.
        apply in_flat_map in Hin. destruct Hin as (d & Hd & Hin).
        destruct (NC d (or_intror Hd)) as [N1 N2].
        destruct Hin as [<- | [<- | []]], Hk as [Hk | Hk].
        - congruence.
        - congruence.
        - congruence.
        - apply append_inj_l in Hk. congruence. }
      rewrite !(fill_untouched _ _ _ _ E) by auto.
      rewrite dict_get_set_same.
      rewrite dict_get_set_other by apply nominal_key_not_code.
      now rewrite dict_get_set_same.
Qed.

(** Every key written is a key of the record, and so are the keys it had. *)
Lemma fill_keys (codes : list string) (record r : dict) (k : string) :
  fill_from_currencies (PyDict vs) codes record = Ok r ->
  In k (keys r) <-> In k (keys record) \/ In k (written codes).
Proof.
  revert record. induction codes as [| c codes IH]; intros record.
  - cbn. intros E. injection E as <-. tauto.
  - rewrite fill_from_currencies_cons.
    destruct (is_dict (entry_of vs c)); [| discriminate].
    intros E. rewrite (IH _ E), !keys_dict_set.
    cbn [written flat_map app In]. fold (written codes).
    intuition congruence.
Qed.

(** The loop raises only on an entry that is not a dict. *)
Lemma fill_ok (codes : list string) (record : dict) :
  (forall c, In c codes -> is_dict (entry_of vs c) = true) ->
  exists r, fill_from_currencies (PyDict vs) codes record = Ok r.
Proof.
  revert record. induction codes as [| c codes IH]; intros record H.
  - eexists. reflexivity.
  - rewrite fill_from_currencies_cons, (H c) by now left.
    apply IH. intros c' Hc'. apply H. now right.
Qed.

End Fill.

(** ** One day *)

Lemma handle_response_none (currencies : option (list string)) (v : vars) :
  handle_response currencies None v = Ok v.
Proof. reflexivity. Qed.

(** What [handle_response] returns: the variables as they were, or with one
    more record, built from a truthy [Valute]. *)
Lemma handle_response_inv (currencies : option (list string))
    (resp : option response) (v v' : vars) :
  handle_response currencies resp v = Ok v' ->
  v' = v
  \/ exists r body valutes rec,
      resp = Some r
      /\ Response.json r = Some (PyDict body)
      /\ dict_get body "Valute" = Some valutes
      /\ truthy valutes = true
      /\ build_record currencies (date_to_process v) valutes = Ok rec
      /\ v' = mkvars (date_to_process v) (data v ++ [rec]) (Some rec).
Proof.
  unfold handle_response. destruct resp as [r |]; [| intros E; left; congruence].
  destruct (Response.ok r); [| intros E; left; congruence].
  destruct (Response.json r) as [[| | | | | | body] |] eqn:J; try discriminate.
  destruct (dict_get body "Valute") as [valutes |] eqn:V;
    [| intros E; left; congruence].
  destruct (truthy valutes) eqn:T; [| intros E; left; congruence].
  destruct (build_record currencies (date_to_process v) valutes) as [rec | |] eqn:B;
    cbn [rbind]; try discriminate.
  intros E. right. exists r, body, valutes, rec. repeat split; congruence.
Qed.

Lemma handle_response_date (currencies : option (list string))
    (resp : option response) (v v' : vars) :
  handle_response currencies resp v = Ok v' ->
  date_to_process v' = date_to_process v.
Proof.
  intros H. apply handle_response_inv in H.
  destruct H as [-> | (r & body & valutes & rec & _ & _ & _ & _ & _ & ->)];
    reflexivity.
Qed.

Lemma good_valutes_entries (currencies : option (list string)) (vs : dict) :
  good_valutes currencies vs = true ->
  forall c, In c (codes_of currencies vs) ->
            c <> "date" /\ is_dict (entry_of vs c) = true.
Proof.
  unfold good_valutes, codes_of.
  destruct (currencies_truthy currencies).
  - rewrite forallb_forall. intros H c Hc. specialize (H c Hc).
    apply andb_true_iff in H. destruct H as [H1 H2].
    split.
    + intros ->. discriminate.
    + unfold entry_of. destruct (dict_get vs c); [assumption | reflexivity].
  - intros H. induction vs as [| [k e] vs' IH]; [contradiction|].
    cbn [forallb fst snd] in H. apply andb_true_iff in H. destruct H as [H1 H2].
    apply andb_true_iff in H1. destruct H1 as [H1 H3].
    intros c Hc. unfold entry_of. cbn [dict_get].
    destruct (String.eqb_spec k c) as [-> | N].
    + split; [| assumption]. intros ->. discriminate.
    + cbn [keys map fst In] in Hc. destruct Hc as [-> | Hc]; [contradiction|].
      destruct (IH H2 c Hc) as [I1 I2]. split; assumption.
Qed.

(** A good body never makes lines 124-136 raise. *)
Lemma handle_response_good (currencies : option (list string)) (r : response)
    (v : vars) :
  good_body currencies r = true ->
  exists v', handle_response currencies (Some r) v = Ok v'.
Proof.
  unfold good_body, handle_response.
  destruct (Response.ok r); [| eauto].
  destruct (Response.json r) as [[| | | | | | body] |]; try discriminate.
  destruct (dict_get body "Valute") as [valutes |]; [| eauto].
  destruct (truthy valutes) eqn:T; [| eauto].
  cbn [negb orb]. destruct valutes as [| | | | | | vs]; try discriminate.
  intros G. rewrite build_record_dict.
  destruct (fill_ok vs (codes_of currencies vs)
              [("date", PyStr (date_to_process v))]) as [rec ->].
  - intros c Hc. now apply (good_valutes_entries currencies vs G).
  - cbn [rbind]. eauto.
Qed.

Lemma day_after_inv (s s' : string) :
  day_after s = Ok s' ->
  exists d,
    Date.fromisoformat s = Some d
    /\ Date.toordinal d + 1 <= Date.MAXORDINAL
    /\ s' = iso (Date.tomorrow d)
    /\ Date.fromisoformat s' = Some (Date.tomorrow d).
Proof.
  unfold day_after, parse_date, next_day, Date.add_one_day.
  destruct (Date.fromisoformat s) as [d |] eqn:P; cbn [rbind]; [| discriminate].
  destruct (Z.leb_spec (Date.toordinal d + 1) Date.MAXORDINAL) as [L | L];
    cbn [rbind]; [| discriminate].
  intros E. injection E as <-. exists d. repeat split; auto.
  apply DateFacts.fromisoformat_strftime, DateFacts.valid_tomorrow; auto.
  now apply DateFacts.strftime_fromisoformat in P.
Qed.

Lemma day_after_ok (s : string) (d : Date.date) :
  Date.fromisoformat s = Some d ->
  Date.toordinal d < Date.MAXORDINAL ->
  day_after s = Ok (iso (Date.tomorrow d)).
Proof.
  intros P L. unfold day_after, parse_date, next_day, Date.add_one_day.
  rewrite P. cbn [rbind].
  destruct (Z.leb_spec (Date.toordinal d + 1) Date.MAXORDINAL); [reflexivity | lia].
Qed.

Lemma fromisoformat_valid (s : string) (d : Date.date) :
  Date.fromisoformat s = Some d -> Date.valid d = true.
Proof. intros P. now apply DateFacts.strftime_fromisoformat in P. Qed.

Lemma fromisoformat_iso (s : string) (d : Date.date) :
  Date.fromisoformat s = Some d -> iso d = s.
Proof. intros P. now apply DateFacts.strftime_fromisoformat in P. Qed.

(** Only the [while] loop can run out of fuel. *)
Lemma get_field_not_out_of_fuel (entry : pyvalue) (field : string) :
  get_field entry field <> OutOfFuel.
Proof. destruct entry; discriminate. Qed.

Lemma fill_from_currencies_not_out_of_fuel (valutes : pyvalue)
    (codes : list string) (record : dict) :
  fill_from_currencies valutes codes record <> OutOfFuel.
Proof.
  revert record. induction codes as [| c codes IH]; intros record.
  - discriminate.
  - cbn [fill_from_currencies]. destruct valutes as [| | | | | | vs];
      try discriminate.
    set (entry := match dict_get vs c with Some e => e | None => PyDict [] end).
    pose proof (get_field_not_out_of_fuel entry "Value") as H1.
    pose proof (get_field_not_out_of_fuel entry "Nominal") as H2.
    destruct (get_field entry "Value"); cbn [rbind];
      [| discriminate | congruence].
    destruct (get_field entry "Nominal"); cbn [rbind];
      [apply IH | discriminate | congruence].
Qed.

Lemma build_record_not_out_of_fuel (currencies : option (list string))
    (s : string) (valutes : pyvalue) :
  build_record currencies s valutes <> OutOfFuel.
Proof.
  unfold build_record.
  destruct (currencies_truthy currencies);
    [apply fill_from_currencies_not_out_of_fuel|].
  destruct valutes as [| | | | | | vs]; try discriminate.
  rewrite fill_from_keys_currencies by auto.
  apply fill_from_currencies_not_out_of_fuel.
Qed.

Lemma handle_response_not_out_of_fuel (currencies : option (list string))
    (resp : option response) (v : vars) :
  handle_response currencies resp v <> OutOfFuel.
Proof.
  unfold handle_response. destruct resp as [r |]; [| discriminate].
  destruct (Response.ok r); [| discriminate].
  destruct (Response.json r) as [[| | | | | | body] |]; try discriminate.
  destruct (dict_get body "Valute") as [valutes |]; [| discriminate].
  destruct (truthy valutes); [| discriminate].
  pose proof (build_record_not_out_of_fuel currencies (date_to_process v) valutes).
  destruct (build_record currencies (date_to_process v) valutes); cbn [rbind];
    [discriminate | discriminate | congruence].
Qed.

Lemma day_after_not_out_of_fuel (s : string) : day_after s <> OutOfFuel.
Proof.
  unfold day_after, parse_date, next_day.
  destruct (Date.fromisoformat s); cbn [rbind]; [| discriminate].
  destruct (Date.add_one_day _); cbn [rbind]; discriminate.
Qed.

Section Driver.

Variable net : network.
Variable currencies : option (list string).

(** The body of the loop, on a day that parses. *)
Lemma sync_day_eq (v : vars) (n : nat) (d : Date.date) :
  Date.fromisoformat (date_to_process v) = Some d ->
  sync_day net currencies v n
  = let o := make_retry net (endpoint_of d) N_RETRIES DELAY_SECONDS n in
    mkoutcome
      (Sleep 2 :: Log Info (MsgDateToProcess (date_to_process v)) :: events o)
      (requests o)
      (rbind (value o) (fun resp =>
       rbind (handle_response currencies resp v) (fun v1 =>
       rbind (day_after (date_to_process v1)) (fun next =>
       Ok (mkvars next (data v1) (record v1)))))).
Proof.
  intros P. cbv zeta. unfold sync_day, sleep, log, parse_date. rewrite P.
  apply bind_emit, bind_emit. rewrite bind_lift_ok. cbv beta zeta.
  unfold endpoint_of.
  exact (bind_pure_steps
           (make_retry net
              (replace ENDPOINT "DATE" (Date.strftime d "%Y//%m//%d"))
              N_RETRIES DELAY_SECONDS)
           (fun response => handle_response currencies response v)
           (fun v1 => day_after (date_to_process v1))
           (fun next v1 => mkvars next (data v1) (record v1)) n).
Qed.

(** The body of the loop, on a day that does not parse. *)
Lemma sync_day_unparsed (v : vars) (n : nat) :
  Date.fromisoformat (date_to_process v) = None ->
  sync_day net currencies v n
  = mkoutcome [Sleep 2; Log Info (MsgDateToProcess (date_to_process v))] n
      (Raise (ValueError (date_to_process v))).
Proof.
  intros P. unfold sync_day, sleep, log, parse_date. rewrite P.
  apply bind_emit, bind_emit. apply bind_lift_raise.
Qed.

(** A day that ends well: the fetch gave [resp], lines 124-136 gave the
    variables [v1], and the next day exists. *)
Lemma sync_day_inv (v v' : vars) (n : nat) :
  value (sync_day net currencies v n) = Ok v' ->
  exists d resp v1,
    Date.fromisoformat (date_to_process v) = Some d
    /\ value (make_retry net (endpoint_of d) N_RETRIES DELAY_SECONDS n)
       = Ok resp
    /\ handle_response currencies resp v = Ok v1
    /\ Date.toordinal d + 1 <= Date.MAXORDINAL
    /\ Date.fromisoformat (date_to_process v') = Some (Date.tomorrow d)
    /\ v' = mkvars (iso (Date.tomorrow d)) (data v1) (record v1).
Proof.
  destruct (Date.fromisoformat (date_to_process v)) as [d |] eqn:P.
  - rewrite (sync_day_eq v n d P). cbv zeta. cbn [value].
    destruct (value (make_retry net (endpoint_of d) N_RETRIES DELAY_SECONDS n))
      as [resp | e |] eqn:Mr; cbn [rbind]; try discriminate.
    destruct (handle_response currencies resp v) as [v1 | e |] eqn:Hr;
      cbn [rbind]; try discriminate.
    destruct (day_after (date_to_process v1)) as [next | e |] eqn:Da;
      cbn [rbind]; try discriminate.
    intros E. injection E as <-.
    rewrite (handle_response_date _ _ _ _ Hr) in Da.
    apply day_after_inv in Da. destruct Da as (d' & P' & L & -> & R).
    assert (d' = d) by congruence. subst d'.
    exists d, resp, v1. repeat split; auto.
  - rewrite (sync_day_unparsed v n P). discriminate.
Qed.

(** The events of a day. *)
Lemma sync_day_events (v : vars) (n : nat) :
  exists evs,
    events (sync_day net currencies v n)
    = Sleep 2 :: Log Info (MsgDateToProcess (date_to_process v)) :: evs
    /\ Forall (fun e => is_fetch_event e = true) evs.
Proof.
  destruct (Date.fromisoformat (date_to_process v)) as [d |] eqn:P.
  - rewrite (sync_day_eq v n d P). cbv zeta. cbn [events].
    eexists. split; [reflexivity|]. apply make_retry_from_events.
  - rewrite (sync_day_unparsed v n P).
    exists []. split; [reflexivity | constructor].
Qed.

Lemma sync_day_not_out_of_fuel (v : vars) (n : nat) :
  value (sync_day net currencies v n) <> OutOfFuel.
Proof.
  destruct (Date.fromisoformat (date_to_process v)) as [d |] eqn:P.
  - rewrite (sync_day_eq v n d P). cbv zeta. cbn [value].
    destruct (make_retry_from_value net (endpoint_of d) N_RETRIES DELAY_SECONDS
                (seq 0 N_RETRIES) n) as [resp E].
    unfold make_retry. rewrite E. cbn [rbind].
    pose proof (handle_response_not_out_of_fuel currencies resp v) as H.
    destruct (handle_response currencies resp v) as [v1 | e |];
      cbn [rbind]; [| discriminate | congruence].
    pose proof (day_after_not_out_of_fuel (date_to_process v1)) as H'.
    destruct (day_after (date_to_process v1)); cbn [rbind];
      [discriminate | discriminate | congruence].
  - rewrite (sync_day_unparsed v n P). discriminate.
Qed.

End Driver.

(** ** Ranges of days *)

Lemma date_range_length (d : Date.date) (k : nat) :
  List.length (date_range d k) = k.
Proof.
  revert d. induction k as [| k IH]; intros d; cbn; [reflexivity | now rewrite IH].
Qed.

(** The days of a range that stays in the calendar are valid, and their
    ordinals count up from the first. *)
Lemma date_range_nth (d : Date.date) (k i : nat) (x : Date.date) :
  Date.valid d = true ->
  Date.toordinal d + Z.of_nat k - 1 <= Date.MAXORDINAL ->
  nth_error (date_range d k) i = Some x ->
  Date.valid x = true /\ Date.toordinal x = Date.toordinal d + Z.of_nat i.
Proof.
  revert d i. induction k as [| k IH]; intros d i V B.
  - destruct i; discriminate.
  - destruct i as [| i]; cbn [date_range nth_error].
    + intros E. injection E as <-. split; [assumption | lia].
    + intros E.
      assert (K : (0 < k)%nat) by (destruct k; [destruct i; discriminate | lia]).
      apply IH in E.
      * rewrite DateFacts.toordinal_tomorrow in E by assumption. split; [tauto | lia].
      * apply DateFacts.valid_tomorrow; [assumption | lia].
      * rewrite DateFacts.toordinal_tomorrow by assumption. lia.
Qed.

Lemma date_range_step (d : Date.date) (k i : nat) (x y : Date.date) :
  nth_error (date_range d k) i = Some x ->
  nth_error (date_range d k) (S i) = Some y ->
  y = Date.tomorrow x.
Proof.
  revert d i. induction k as [| k IH]; intros d i.
  - destruct i; discriminate.
  - destruct i as [| i]; cbn [date_range nth_error].
    + intros E. injection E as <-. destruct k; cbn; [discriminate|].
      intros E. now injection E as <-.
    + apply IH.
Qed.

Section Between.

Variables a b : Date.date.
Hypothesis Va : Date.valid a = true.
Hypothesis Vb : Date.valid b = true.

Lemma dates_between_nth (i : nat) (x : Date.date) :
  nth_error (dates_between a b) i = Some x ->
  Date.valid x = true /\ Date.toordinal x = Date.toordinal a + Z.of_nat i.
Proof.
  unfold dates_between. apply date_range_nth; [assumption|].
  pose proof (DateFacts.toordinal_bounds a Va).
  pose proof (DateFacts.toordinal_bounds b Vb). lia.
Qed.

(** The range holds the valid dates from [a] to [b], and only them. *)
Lemma dates_between_In (x : Date.date) :
  In x (dates_between a b)
  <-> Date.valid x = true /\ Date.leb a x = true /\ Date.leb x b = true.
Proof.
  split.
  - intros H. apply In_nth_error in H. destruct H as [i H].
    assert (L : (i < List.length (dates_between a b))%nat).
    { apply nth_error_Some. congruence. }
    unfold dates_between in L. rewrite date_range_length in L.
    apply dates_between_nth in H. destruct H as [Vx O].
    rewrite !DateFacts.leb_toordinal, !Z.leb_le by assumption.
    repeat split; [assumption | lia | lia].
  - intros (Vx & L1 & L2).
    rewrite DateFacts.leb_toordinal, Z.leb_le in L1, L2 by assumption.
    set (i := Z.to_nat (Date.toordinal x - Date.toordinal a)).
    destruct (nth_error (dates_between a b) i) as [y |] eqn:N.
    + pose proof (dates_between_nth i y N) as [Vy O].
      assert (y = x) by (apply DateFacts.toordinal_inj; auto; lia).
      subst y. eapply nth_error_In, N.
    + apply nth_error_None in N. unfold dates_between in N.
      rewrite date_range_length in N. lia.
Qed.

(** No day comes twice. *)
Lemma dates_between_NoDup : NoDup (dates_between a b).
Proof.
  apply NoDup_nth_error. intros i j L E.
  destruct (nth_error (dates_between a b) i) as [x |] eqn:Ni.
  - symmetry in E. apply dates_between_nth in Ni, E. lia.
  - apply nth_error_None in Ni. lia.
Qed.

(** Each day is the day after the one before it, and later. *)
Lemma dates_between_step (i : nat) (x y : Date.date) :
  nth_error (dates_between a b) i = Some x ->
  nth_error (dates_between a b) (S i) = Some y ->
  y = Date.tomorrow x /\ Date.ltb x y = true.
Proof.
  intros Nx Ny. split; [eapply date_range_step; eassumption|].
  apply dates_between_nth in Nx, Ny. destruct Nx as [Vx Ox], Ny as [Vy Oy].
  destruct (DateFacts.ltb_total x y) as [L | [E | G]]; [assumption | |].
  - subst. lia.
  - pose proof (DateFacts.ltb_toordinal y x Vy Vx G). lia.
Qed.

End Between.

(** ** The loop *)

Lemma latest_app (news : list dict) (r : dict) (old : option dict) :
  latest (news ++ [r]) old = Some r.
Proof. unfold latest. now rewrite fold_left_app. Qed.

Lemma latest_cons (news : list dict) (r : dict) (old : option dict) :
  latest (r :: news) old = latest news (Some r).
Proof. reflexivity. Qed.

Lemma latest_last (news : list dict) (old : option dict) :
  news <> [] -> latest news old = Some (last news []).
Proof.
  intros N. destruct (exists_last N) as (l & r & ->).
  now rewrite latest_app, last_last.
Qed.

Section Loop.

Variable net : network.
Variable currencies : option (list string).

(** A day that ends well moves to the next day and keeps the records, or
    adds one built on the day. *)
Lemma sync_day_records (v v' : vars) (n : nat) :
  value (sync_day net currencies v n) = Ok v' ->
  exists d,
    Date.fromisoformat (date_to_process v) = Some d
    /\ Date.toordinal d + 1 <= Date.MAXORDINAL
    /\ Date.fromisoformat (date_to_process v') = Some (Date.tomorrow d)
    /\ exists news,
        data v' = data v ++ news
        /\ record v' = latest news (record v)
        /\ Forall (built_on net currencies (iso d)) news.
Proof.
  intros H. apply sync_day_inv in H.
  destruct H as (d & resp & v1 & P & Mr & Hr & L & P' & ->).
  exists d. repeat split; auto. cbn [data record].
  apply handle_response_inv in Hr.
  destruct Hr as [-> | (r & body & valutes & rec & -> & J & V & T & B & ->)].
  - exists []. rewrite app_nil_r. repeat split; auto.
  - exists [rec]. cbn [data record]. repeat split; auto.
    constructor; [| constructor].
    apply make_retry_from_some in Mr. destruct Mr as ((m & Nm) & S200 & Tx).
    rewrite (fromisoformat_iso _ _ P).
    exists m, (endpoint_of d), r, body, valutes. repeat split; auto.
Qed.

(** What [k] rounds of the body do, from a day [d] on. *)
Lemma iterate_sync_day (k : nat) (v : vars) (n : nat) (d : Date.date) :
  Date.fromisoformat (date_to_process v) = Some d ->
  let o := iterate k (sync_day net currencies) v n in
  Forall (fun e => is_loop_event e = true) (events o)
  /\ value o <> OutOfFuel
  /\ (exists j, (j <= k)%nat
                /\ visited (events o) = map iso (date_range d j)
                /\ ((exists v', value o = Ok v') -> j = k))
  /\ forall v', value o = Ok v' ->
                Date.toordinal d + Z.of_nat k <= Date.MAXORDINAL
                /\ exists news,
                    data v' = data v ++ news
                    /\ record v' = latest news (record v)
                    /\ Forall (fun r => exists x, In x (date_range d k)
                                                  /\ built_on net currencies (iso x) r)
                         news.
Proof.
  revert v n d. induction k as [| k IH]; intros v n d P.
  - cbv zeta. cbn [iterate]. unfold ret, lift. cbn [events value].
    split; [| split; [| split]].
    + constructor.
    + discriminate.
    + exists 0%nat. repeat split; auto.
    + intros v' E. injection E as <-. split.
      * pose proof (DateFacts.toordinal_bounds d (fromisoformat_valid _ _ P)).
        lia.
      * exists []. rewrite app_nil_r. auto.
  - cbv zeta. cbn [iterate]. rewrite bind_eq.
    destruct (sync_day_events net currencies v n) as (evs & Ev & Fe).
    pose proof (sync_day_not_out_of_fuel net currencies v n) as Nf.
    destruct (value (sync_day net currencies v n)) as [v1 | e |] eqn:Vd;
      [| | congruence].
    + destruct (sync_day_records v v1 n Vd) as (d' & P1 & L & P' & news1 & D1 & R1 & B1).
      assert (d' = d) by congruence. subst d'.
      specialize (IH v1 (requests (sync_day net currencies v n)) _ P').
      cbv zeta in IH. destruct IH as (I1 & I2 & (j & Hj & Vj & Cj) & I4).
      cbn [events value]. split; [| split; [| split]].
      * rewrite Ev. apply Forall_app. split; [| assumption].
        constructor; [reflexivity|]. constructor; [reflexivity|].
        eapply Forall_impl; [| exact Fe]. apply fetch_event_is_loop_event.
      * assumption.
      * exists (S j). repeat split; [lia | | ].
        -- rewrite visited_app, Ev, Vj. cbn [visited date_range map].
           rewrite (fetch_events_visited _ Fe).
           now rewrite (fromisoformat_iso _ _ P).
        -- intros Hv. f_equal. auto.
      * intros v' Hv. destruct (I4 v' Hv) as (Bd & news & D & R & B).
        rewrite DateFacts.toordinal_tomorrow in Bd
          by exact (fromisoformat_valid _ _ P).
        split; [lia|].
        exists (news1 ++ news). rewrite D, D1, R, R1, app_assoc.
        repeat split.
        -- unfold latest. now rewrite fold_left_app.
        -- apply Forall_app. split.
           ++ eapply Forall_impl; [| exact B1]. intros r Hr.
              exists d. split; [now left | assumption].
           ++ eapply Forall_impl; [| exact B]. intros r (x & Hx & Hr).
              exists x. split; [now right | assumption].
    + cbn [events value]. split; [| split; [| split]].
      * rewrite Ev. constructor; [reflexivity|]. constructor; [reflexivity|].
        eapply Forall_impl; [| exact Fe]. apply fetch_event_is_loop_event.
      * discriminate.
      * exists 1%nat. repeat split; [lia | | ].
        -- rewrite Ev. cbn [visited date_range map].
           rewrite (fetch_events_visited _ Fe).
           now rewrite (fromisoformat_iso _ _ P).
        -- intros (v' & Hv). discriminate.
      * discriminate.
Qed.

(** The [while] loop is as many rounds of its body as there are days
    left. *)
Lemma sync_loop_iterate (date_stop : string) (stop : Date.date) (k fuel : nat)
    (v : vars) (n : nat) (d : Date.date) :
  Date.fromisoformat date_stop = Some stop ->
  Date.fromisoformat (date_to_process v) = Some d ->
  k = Z.to_nat (Date.toordinal stop - Date.toordinal d + 1) ->
  (k < fuel)%nat ->
  sync_loop net fuel date_stop currencies v n
  = iterate k (sync_day net currencies) v n.
Proof.
  intros Ps. revert fuel v n d. induction k as [| k IH]; intros fuel v n d P K F.
  - destruct fuel as [| fuel]; [lia|]. cbn [sync_loop iterate].
    unfold parse_date. rewrite P, Ps, !bind_lift_ok.
    rewrite DateFacts.leb_toordinal by eauto using fromisoformat_valid.
    destruct (Z.leb_spec (Date.toordinal d) (Date.toordinal stop)); [lia|].
    reflexivity.
  - destruct fuel as [| fuel]; [lia|]. cbn [sync_loop iterate].
    unfold parse_date. rewrite P, Ps, !bind_lift_ok.
    rewrite DateFacts.leb_toordinal by eauto using fromisoformat_valid.
    destruct (Z.leb_spec (Date.toordinal d) (Date.toordinal stop)); [| lia].
    rewrite !bind_eq.
    destruct (value (sync_day net currencies v n)) as [v1 | e |] eqn:Vd;
      [| reflexivity | reflexivity].
    destruct (sync_day_records v v1 n Vd) as (d' & P1 & L & P' & _).
    assert (d' = d) by congruence. subst d'.
    rewrite (IH fuel v1 _ (Date.tomorrow d)); auto; [| lia].
    rewrite DateFacts.toordinal_tomorrow by eauto using fromisoformat_valid.
    lia.
Qed.

(** A date that does not parse stops the loop at its first test. *)
Lemma sync_loop_bad_start (date_stop : string) (fuel : nat) (v : vars)
    (n : nat) :
  Date.fromisoformat (date_to_process v) = None ->
  sync_loop net (S fuel) date_stop currencies v n
  = mkoutcome [] n (Raise (ValueError (date_to_process v))).
Proof.
  intros P. cbn [sync_loop]. unfold parse_date. rewrite P.
  apply bind_lift_raise.
Qed.

Lemma sync_loop_bad_stop (date_stop : string) (fuel : nat) (v : vars)
    (n : nat) (d : Date.date) :
  Date.fromisoformat (date_to_process v) = Some d ->
  Date.fromisoformat date_stop = None ->
  sync_loop net (S fuel) date_stop currencies v n
  = mkoutcome [] n (Raise (ValueError date_stop)).
Proof.
  intros P Ps. cbn [sync_loop]. unfold parse_date. rewrite P, Ps, bind_lift_ok.
  apply bind_lift_raise.
Qed.

End Loop.

(** ** Writing out *)

Section Output.

Variable net : network.

(** One turn of the loop of lines 142-144. *)
Lemma write_all_cons (r : dict) (rest : list dict) (st : state) (n : nat) :
  write_all (r :: rest) st n
  = match dict_get r "date" with
    | None => mkoutcome [write_record r] n (Raise (KeyError "date"))
    | Some (PyStr s) =>
        match day_after s with
        | Ok next =>
            let w := write_all rest (mkstate next (date_stop st)) n in
            mkoutcome (write_record r :: events w) (requests w) (value w)
        | Raise e => mkoutcome [write_record r] n (Raise e)
        | OutOfFuel => mkoutcome [write_record r] n OutOfFuel
        end
    | Some other => mkoutcome [write_record r] n (Raise (TypeError other))
    end.
Proof.
  cbn [write_all].
  destruct (dict_get r "date") as [[| | | | s | |] |];
    try (apply bind_emit; apply bind_lift_raise);
    try (apply bind_emit; rewrite bind_lift_ok; apply bind_lift_raise).
  destruct (day_after s) as [next | e |] eqn:A; cbv zeta;
    apply bind_emit; rewrite bind_lift_ok; cbv beta iota; rewrite A.
  - rewrite bind_lift_ok. now destruct (write_all rest _ n).
  - apply bind_lift_raise.
  - reflexivity.
Qed.

(** The records are written in order, up to the first whose [date] has no
    next day; when all have one, the state ends on the day after the last
    record. *)
Lemma write_all_spec (recs : list dict) (st : state) (n : nat) :
  let w := write_all recs st n in
  requests w = n
  /\ (exists j, events w = map write_record (firstn j recs))
  /\ forall st', value w = Ok st' ->
       events w = map write_record recs
       /\ date_stop st' = date_stop st
       /\ (recs = [] -> st' = st)
       /\ (recs <> [] ->
           exists s, dict_get (last recs []) "date" = Some (PyStr s)
                     /\ day_after s = Ok (date_start st')).
Proof.
  revert st. induction recs as [| r rest IH]; intros st.
  - cbn. repeat split; auto; try congruence.
    exists 0%nat. reflexivity.
  - cbv zeta. rewrite write_all_cons.
    destruct (dict_get r "date") as [[| | | | s | |] |] eqn:D;
      try (split; [reflexivity
                  | split; [exists 1%nat; reflexivity
                           | intros st' Hv; discriminate Hv]]).
    destruct (day_after s) as [next | e |] eqn:A;
      try (split; [reflexivity
                  | split; [exists 1%nat; reflexivity
                           | intros st' Hv; discriminate Hv]]).
    specialize (IH (mkstate next (date_stop st))). cbv zeta in IH.
    destruct IH as (I1 & (j & I2) & I3). cbn [requests events value].
    split; [assumption|]. split.
    + exists (S j). cbn [firstn map]. now rewrite I2.
    + intros st' Hv. destruct (I3 st' Hv) as (E & S1 & S2 & S3).
      cbn [date_stop] in S1. repeat split; auto.
      * cbn [map]. now rewrite E.
      * discriminate.
      * intros _. destruct rest as [| r' rest'].
        -- rewrite (S2 eq_refl). cbn. eauto.
        -- apply S3. discriminate.
Qed.

(** Records whose [date] has a next day are all written. *)
Lemma write_all_ok (recs : list dict) (st : state) (n : nat) :
  Forall (fun r => exists s t, dict_get r "date" = Some (PyStr s)
                               /\ day_after s = Ok t) recs ->
  exists st', value (write_all recs st n) = Ok st'.
Proof.
  intros H. revert st. induction H as [| r rest (s & t & D & A) _ IH]; intros st.
  - eexists. reflexivity.
  - rewrite write_all_cons, D, A. cbv zeta. cbn [value]. apply IH.
Qed.

(** Line 154. *)
Lemma finish_empty (st : state) (v : vars) (n : nat) :
  data v = [] ->
  finish st v n = mkoutcome [Log Info MsgNothingDone] n (Ok tt).
Proof. intros E. unfold finish. rewrite E. reflexivity. Qed.

(** Lines 141-150. *)
Lemma finish_nonempty (st : state) (v : vars) (n : nat) (r : dict) :
  data v <> [] -> record v = Some r ->
  finish st v n
  = let w := write_all (data v) st n in
    let schema := WriteSchema STREAM (make_schema r) "date" in
    match value w with
    | Ok st1 =>
        match day_after (date_stop st1) with
        | Ok stop =>
            mkoutcome
              (schema :: events w
               ++ [WriteState (mkstate (date_start st1) stop);
                   Log Info (MsgCompleted (List.length (data v)))])
              (requests w) (Ok tt)
        | Raise e => mkoutcome (schema :: events w) (requests w) (Raise e)
        | OutOfFuel => mkoutcome (schema :: events w) (requests w) OutOfFuel
        end
    | Raise e => mkoutcome (schema :: events w) (requests w) (Raise e)
    | OutOfFuel => mkoutcome (schema :: events w) (requests w) OutOfFuel
    end.
Proof.
  intros N R. unfold finish. rewrite R.
  destruct (data v) as [| r0 rest] eqn:D; [congruence|].
  cbn [List.length Nat.ltb Nat.leb]. rewrite bind_lift_ok. cbv zeta.
  destruct (write_all (r0 :: rest) st n) as [evs m [st1 | e |]] eqn:W;
    cbn [value events requests].
  - destruct (day_after (date_stop st1)) as [stop | e |] eqn:A;
      apply bind_emit; rewrite bind_eq, W; cbn [value events requests];
      rewrite bind_eq; unfold lift at 1 2 3 4 5; rewrite A;
      cbn [value events requests]; rewrite ?app_nil_r; reflexivity.
  - apply bind_emit. now rewrite bind_eq, W.
  - apply bind_emit. now rewrite bind_eq, W.
Qed.

Lemma check_currencies_eq (currencies : currencies_arg) (n : nat) :
  check_currencies currencies n
  = mkoutcome [check_event currencies] n (Ok (checked currencies)).
Proof. destruct currencies; reflexivity. Qed.

(** [do_sync] is its check, its loop and its output. *)
Lemma do_sync_eq (date_start date_stop : string) (currencies : currencies_arg)
    (n : nat) :
  do_sync net date_start date_stop currencies n
  = let l := run_loop net date_start date_stop currencies n in
    match value l with
    | Ok v =>
        let f := finish (mkstate date_start date_stop) v (requests l) in
        mkoutcome (check_event currencies :: events l ++ events f)
          (requests f) (value f)
    | Raise e =>
        mkoutcome (check_event currencies :: events l) (requests l) (Raise e)
    | OutOfFuel =>
        mkoutcome (check_event currencies :: events l) (requests l) OutOfFuel
    end.
Proof.
  unfold do_sync, do_sync_fuel, run_loop.
  rewrite bind_eq, check_currencies_eq. cbn [value events requests].
  rewrite bind_eq. cbv zeta.
  destruct (value (sync_loop net _ date_stop (checked currencies) _ n));
    reflexivity.
Qed.

End Output.

(** ** The run *)

Section Run.

Variable net : network.
Variables date_start date_stop : string.
Variable currencies : currencies_arg.

(** With dates that parse, the loop of [do_sync] is one round per day of
    the range: the fuel [do_sync] gives it is enough. *)
Lemma run_loop_iterate (a b : Date.date) (n : nat) :
  Date.fromisoformat date_start = Some a ->
  Date.fromisoformat date_stop = Some b ->
  run_loop net date_start date_stop currencies n
  = iterate (List.length (dates_between a b))
      (sync_day net (checked currencies)) (mkvars date_start [] None) n.
Proof.
  intros Pa Pb. unfold run_loop, days_to_sync, dates_between.
  rewrite Pa, Pb, date_range_length.
  apply (sync_loop_iterate net (checked currencies) date_stop b _ _ _ n a);
    auto.
Qed.

(** The loop ends well only on dates that parse. *)
Lemma run_loop_ok_dates (n : nat) (v : vars) :
  value (run_loop net date_start date_stop currencies n) = Ok v ->
  exists a b,
    Date.fromisoformat date_start = Some a
    /\ Date.fromisoformat date_stop = Some b.
Proof.
  unfold run_loop.
  destruct (Date.fromisoformat date_start) as [a |] eqn:Pa.
  - destruct (Date.fromisoformat date_stop) as [b |] eqn:Pb; [eauto|].
    rewrite (sync_loop_bad_stop net _ date_stop _ _ n a); auto. discriminate.
  - rewrite sync_loop_bad_start; auto. discriminate.
Qed.

(** What the loop of [do_sync] does. *)
Lemma run_loop_spec (a b : Date.date) (n : nat) :
  Date.fromisoformat date_start = Some a ->
  Date.fromisoformat date_stop = Some b ->
  let l := run_loop net date_start date_stop currencies n in
  let k := List.length (dates_between a b) in
  Forall (fun e => is_loop_event e = true) (events l)
  /\ value l <> OutOfFuel
  /\ (exists j, (j <= k)%nat
                /\ visited (events l) = map iso (date_range a j)
                /\ ((exists v, value l = Ok v) -> j = k))
  /\ forall v, value l = Ok v ->
               Date.toordinal a + Z.of_nat k <= Date.MAXORDINAL
               /\ record v = latest (data v) None
               /\ Forall (fun r => exists x,
                              In x (dates_between a b)
                              /\ built_on net (checked currencies) (iso x) r)
                    (data v).
Proof.
  intros Pa Pb. cbv zeta. rewrite (run_loop_iterate a b n Pa Pb).
  pose proof (iterate_sync_day net (checked currencies)
                (List.length (dates_between a b)) (mkvars date_start [] None)
                n a Pa) as H.
  cbv zeta in H. destruct H as (H1 & H2 & H3 & H4).
  split; [exact H1|]. split; [exact H2|]. split; [exact H3|].
  intros v Hv. destruct (H4 v Hv) as (B & news & D & R & F).
  cbn [data record app] in D, R. subst news.
  unfold dates_between in F at 1. rewrite date_range_length in F.
  auto.
Qed.

End Run.

(** The [date] of a record is its day unless [date] is one of the codes. *)
Lemma record_date (currencies : option (list string)) (s : string) (vs r : dict) :
  build_record currencies s (PyDict vs) = Ok r ->
  ~ In "date" (codes_of currencies vs) ->
  dict_get r "date" = Some (PyStr s).
Proof.
  rewrite build_record_dict. intros B N.
  rewrite (fill_untouched vs _ _ _ "date" B).
  - reflexivity.
  - unfold written. rewrite in_flat_map. intros (c & Hc & [E | [E | []]]).
    + congruence.
    + now apply nominal_key_not_date in E.
Qed.

Lemma built_on_date (net : network) (currencies : option (list string))
    (s : string) (r : dict) :
  date_is_not_a_code net currencies ->
  built_on net currencies s r ->
  dict_get r "date" = Some (PyStr s).
Proof.
  intros H (m & u & resp & body & valutes & N & _ & _ & J & V & T & B).
  destruct (build_record_ok_dict _ _ _ _ T B) as (vs & -> & _).
  apply (record_date currencies s vs r B).
  unfold date_is_not_a_code in H. unfold codes_of.
  destruct (currencies_truthy currencies); [exact H | eauto].
Qed.


(** Currency codes have three letters, and so none is the string [date],
    none is the [_Nominal] key of another. *)
Lemma currency_code_not_date (c : string) :
  currency_code c = true -> c <> "date"%string.
Proof. intros H ->. cbv in H. discriminate H. Qed.

Lemma currency_code_keys (c d : string) :
  currency_code c = true -> currency_code d = true ->
  (d ++ "_Nominal")%string <> c /\ d <> (c ++ "_Nominal")%string.
Proof.
  unfold currency_code. rewrite !Nat.eqb_eq. intros Hc Hd.
  split; intros E; apply (f_equal String.length) in E;
    rewrite append_length in E; cbn [String.length] in E; lia.
Qed.

Lemma currency_codes_not_date (net : network)
    (currencies : option (list string)) :
  currency_codes net currencies -> date_is_not_a_code net currencies.
Proof.
  unfold currency_codes, date_is_not_a_code.
  destruct (currencies_truthy currencies).
  - intros H I. rewrite Forall_forall in H.
    exact (currency_code_not_date _ (H _ I) eq_refl).
  - intros H n u r body vs N J V I. specialize (H n u r body vs N J V).
    rewrite Forall_forall in H.
    exact (currency_code_not_date _ (H _ I) eq_refl).
Qed.

(** ** The schema *)

Lemma make_schema_properties (ks : list string) (props : dict) (k : string) :
  dict_get
    (fold_left
       (fun (properties : dict) (rate : string) =>
          if negb (dict_mem properties rate)
          then dict_set properties rate number_property
          else properties)
       ks props) k
  = match dict_get props k with
    | Some x => Some x
    | None => if in_dec string_dec k ks then Some number_property else None
    end.
Proof.
  revert props. induction ks as [| c ks IH]; intros props.
  - cbn. now destruct (dict_get props k).
  - cbn [fold_left]. rewrite IH. unfold dict_mem.
    destruct (dict_get props c) eqn:C; cbn [negb].
    + destruct (dict_get props k) eqn:K; [reflexivity|].
      destruct (in_dec string_dec k ks) as [I | I];
        destruct (in_dec string_dec k (c :: ks)) as [I' | I'];
        try reflexivity.
      * exfalso. apply I'. now right.
      * exfalso. destruct I' as [-> | I']; [congruence | contradiction].
    + rewrite dict_get_set.
      destruct (String.eqb_spec c k) as [-> | N].
      * rewrite C. destruct (in_dec string_dec k (k :: ks)) as [I' | I'];
          [reflexivity | exfalso; apply I'; now left].
      * destruct (dict_get props k) eqn:K; [reflexivity|].
        destruct (in_dec string_dec k ks) as [I | I];
          destruct (in_dec string_dec k (c :: ks)) as [I' | I'];
          try reflexivity.
        -- exfalso. apply I'. now right.
        -- exfalso. destruct I' as [-> | I']; [congruence | contradiction].
Qed.

(** The schema of a record: [date] is a date string, every other key of
    the record a nullable number, and there is nothing else. *)
Lemma make_schema_spec (r : dict) :
  exists props,
    make_schema r = PyDict [("type", PyStr "object"); ("properties", PyDict props)]
    /\ dict_get props "date" = Some date_property
    /\ forall k, k <> "date" ->
                 (In k (keys r) -> dict_get props k = Some number_property)
                 /\ (~ In k (keys r) -> dict_get props k = None).
Proof.
  eexists. split; [reflexivity|]. split.
  - fold number_property. rewrite make_schema_properties. reflexivity.
  - intros k N. fold number_property. rewrite make_schema_properties.
    cbn [dict_get]. destruct (String.eqb_spec "date" k) as [E | _];
      [congruence|].
    destruct (in_dec string_dec k (keys r)); split; intros; tauto || reflexivity.
Qed.

(** ** The whole run *)

Section Whole.

Variable net : network.

(** The output part only writes and logs its last line. *)
Lemma finish_events (st : state) (v : vars) (n : nat) :
  Forall (fun e => is_write e || is_completion e = true)
    (events (finish st v n))
  /\ forall r, In (write_record r) (events (finish st v n)) -> In r (data v).
Proof.
  destruct (data v) as [| r0 rest] eqn:D.
  - rewrite finish_empty by assumption. split.
    + repeat constructor.
    + intros r [H | []]. discriminate.
  - destruct (record v) as [r1 |] eqn:R.
    + rewrite (finish_nonempty st v n r1) by congruence. cbv zeta.
      destruct (write_all_spec (data v) st n) as (_ & (j & E) & _).
      assert (W : Forall (fun e => is_write e || is_completion e = true)
                    (events (write_all (data v) st n))).
      { rewrite E. apply Forall_forall. intros e He.
        apply in_map_iff in He. destruct He as (r & <- & _). reflexivity. }
      assert (I : forall r, In (write_record r) (events (write_all (data v) st n))
                            -> In r (data v)).
      { intros r He. rewrite E in He. apply in_map_iff in He.
        destruct He as (r' & Q & Hr'). injection Q as ->.
        rewrite <- (firstn_skipn j (data v)). apply in_or_app. now left. }
      rewrite <- D.
      destruct (value (write_all (data v) st n)) as [st1 | e |];
        [destruct (day_after (date_stop st1)) as [stop | e |] | |];
        cbn [events]; split;
        try (constructor; [reflexivity | exact W]);
        try (intros r' [Hin | Hin]; [discriminate Hin | exact (I r' Hin)]).
      * constructor; [reflexivity|]. apply Forall_app. split; [exact W|].
        repeat constructor.
      * intros r' [Hin | Hin]; [discriminate Hin|]. apply in_app_or in Hin.
        destruct Hin as [Hin | [Hin | [Hin | []]]];
          [exact (I r' Hin) | discriminate Hin | discriminate Hin].
    + unfold finish. rewrite D, R. cbn [List.length Nat.ltb Nat.leb].
      rewrite bind_lift_raise. cbn [events]. split; [constructor|].
      intros r [].
Qed.

(** On a good network a day that has a next day ends well. *)
Lemma sync_day_ok (cur : option (list string)) (v : vars) (n : nat)
    (d : Date.date) :
  good_network net cur ->
  Date.fromisoformat (date_to_process v) = Some d ->
  Date.toordinal d < Date.MAXORDINAL ->
  exists v', value (sync_day net cur v n) = Ok v'.
Proof.
  intros G P L. rewrite (sync_day_eq net cur v n d P). cbv zeta. cbn [value].
  destruct (make_retry_from_value net (endpoint_of d) N_RETRIES DELAY_SECONDS
              (seq 0 N_RETRIES) n) as [resp E].
  unfold make_retry. rewrite E. cbn [rbind].
  assert (H : exists v1, handle_response cur resp v = Ok v1).
  { destruct resp as [r |]; [| eexists; reflexivity].
    apply make_retry_from_some in E. destruct E as ((m & N) & S200 & T).
    apply handle_response_good. exact (G m _ r N S200 T). }
  destruct H as [v1 H]. rewrite H. cbn [rbind].
  rewrite (handle_response_date _ _ _ _ H), (day_after_ok _ d P L).
  cbn [rbind]. eauto.
Qed.

(** On a good network the rounds end well as long as the days last. *)
Lemma iterate_sync_day_ok (cur : option (list string)) (k : nat) (v : vars)
    (n : nat) (d : Date.date) :
  good_network net cur ->
  Date.fromisoformat (date_to_process v) = Some d ->
  Date.toordinal d + Z.of_nat k <= Date.MAXORDINAL ->
  exists v', value (iterate k (sync_day net cur) v n) = Ok v'.
Proof.
  intros G. revert v n d. induction k as [| k IH]; intros v n d P L.
  - eexists. reflexivity.
  - cbn [iterate]. rewrite bind_eq.
    destruct (sync_day_ok cur v n d G P) as [v1 V1]; [lia|].
    rewrite V1. cbn [value].
    destruct (sync_day_records net cur v v1 n V1) as (d' & P1 & _ & P' & _).
    assert (d' = d) by congruence. subst d'.
    apply (IH v1 _ (Date.tomorrow d) P').
    rewrite DateFacts.toordinal_tomorrow by exact (fromisoformat_valid _ _ P).
    lia.
Qed.

(** An empty list of currencies runs the loop as no list does. *)
Lemma handle_response_empty_filter (resp : option response) (v : vars) :
  handle_response (Some []) resp v = handle_response None resp v.
Proof. reflexivity. Qed.

Lemma sync_day_empty_filter (v : vars) (n : nat) :
  sync_day net (Some []) v n = sync_day net None v n.
Proof.
  destruct (Date.fromisoformat (date_to_process v)) as [d |] eqn:P.
  - now rewrite !(sync_day_eq net _ v n d P).
  - now rewrite !sync_day_unparsed.
Qed.

Lemma sync_loop_empty_filter (fuel : nat) (stop : string) (v : vars)
    (n : nat) :
  sync_loop net fuel stop (Some []) v n = sync_loop net fuel stop None v n.
Proof.
  revert v n. induction fuel as [| fuel IH]; intros v n; [reflexivity|].
  cbn [sync_loop]. unfold parse_date.
  destruct (Date.fromisoformat (date_to_process v)) as [d |];
    [| now rewrite !bind_lift_raise].
  rewrite !bind_lift_ok.
  destruct (Date.fromisoformat stop) as [b |];
    [| now rewrite !bind_lift_raise].
  rewrite !bind_lift_ok.
  destruct (Date.leb d b); [| reflexivity].
  rewrite !bind_eq, sync_day_empty_filter.
  destruct (value (sync_day net None v n)); rewrite ?IH; reflexivity.
Qed.

End Whole.

(** Records that hold their day in [date] are all written, after the schema
    of the last of them and before the state, which ends the output. *)
Lemma do_sync_output (net : network) (start stop : string)
    (currencies : currencies_arg) (n : nat) (recs : list dict) :
  (forall s r, built_on net (checked currencies) s r ->
               dict_get r "date" = Some (PyStr s)) ->
  accumulated net start stop currencies n = Some recs ->
  recs <> [] ->
  exists a b x,
    Date.fromisoformat start = Some a
    /\ Date.fromisoformat stop = Some b
    /\ In x (dates_between a b)
    /\ Date.toordinal b < Date.MAXORDINAL
    /\ dict_get (last recs []) "date" = Some (PyStr (iso x))
    /\ do_sync net start stop currencies n
       = let l := run_loop net start stop currencies n in
         mkoutcome
           (check_event currencies :: events l
            ++ WriteSchema STREAM (make_schema (last recs [])) "date"
            :: map write_record recs
            ++ [WriteState (mkstate (iso (Date.tomorrow x))
                              (iso (Date.tomorrow b)));
                Log Info (MsgCompleted (List.length recs))])
           (requests l) (Ok tt).
Proof.
  intros Hdate Hacc Hne. unfold accumulated in Hacc.
  destruct (value (run_loop net start stop currencies n)) as [v | |] eqn:Vl;
    try discriminate.
  injection Hacc as Hd.
  destruct (run_loop_ok_dates net start stop currencies n v Vl)
    as (a & b & Pa & Pb).
  pose proof (fromisoformat_valid _ _ Pa) as Va.
  pose proof (fromisoformat_valid _ _ Pb) as Vb.
  pose proof (run_loop_spec net start stop currencies a b n Pa Pb) as Sp.
  cbv zeta in Sp. destruct Sp as (_ & _ & _ & Sp).
  destruct (Sp v Vl) as (Bk & R & F). rewrite Hd in R, F.
  (* every record holds a day of the range *)
  assert (Fd : Forall (fun r => exists x, In x (dates_between a b)
                                 /\ dict_get r "date" = Some (PyStr (iso x)))
                 recs).
  { eapply Forall_impl; [| exact F]. intros r (x & Hx & Hb). eauto. }
  assert (Hlast : In (last recs []) recs).
  { destruct (exists_last Hne) as (l' & r' & ->). rewrite last_last.
    apply in_or_app. right. now left. }
  rewrite Forall_forall in Fd.
  destruct (Fd _ Hlast) as (x & Hx & Dx).
  (* the range is not empty, so the day after [stop] exists *)
  assert (Lb : Date.toordinal b < Date.MAXORDINAL).
  { assert (K : (0 < List.length (dates_between a b))%nat).
    { destruct (dates_between a b); [contradiction | cbn; lia]. }
    unfold dates_between in K, Bk. rewrite date_range_length in K, Bk. lia. }
  assert (Hday : forall y, In y (dates_between a b) ->
                           day_after (iso y) = Ok (iso (Date.tomorrow y))).
  { intros y Hy. apply (dates_between_In a b Va Vb) in Hy.
    destruct Hy as (Vy & _ & Ly).
    rewrite DateFacts.leb_toordinal, Z.leb_le in Ly by assumption.
    apply day_after_ok; [| lia].
    now apply DateFacts.fromisoformat_strftime. }
  (* so every record is written *)
  destruct (write_all_ok recs (mkstate start stop) (requests (run_loop net start stop currencies n)))
    as [st1 W].
  { apply Forall_forall. intros r Hr. destruct (Fd r Hr) as (y & Hy & Dy).
    exists (iso y), (iso (Date.tomorrow y)). auto. }
  pose proof (write_all_spec recs (mkstate start stop)
                (requests (run_loop net start stop currencies n))) as Ws.
  cbv zeta in Ws. destruct Ws as (Wr & _ & Ws).
  destruct (Ws st1 W) as (We & Wstop & _ & Wlast).
  destruct (Wlast Hne) as (s & Ds & As). cbn [date_stop] in Wstop.
  assert (s = iso x) by congruence. subst s.
  rewrite (Hday x Hx) in As. injection As as As.
  exists a, b, x. repeat split; auto.
  rewrite do_sync_eq. cbv zeta. rewrite Vl.
  rewrite (finish_nonempty _ v _ (last recs [])).
  - cbv zeta. rewrite Hd, W, Wstop, (day_after_ok stop b Pb Lb).
    cbn [events requests value]. rewrite We, Wr, <- As. reflexivity.
  - congruence.
  - rewrite R. now apply latest_last.
Qed.

Lemma firstn_date_range (d : Date.date) (j k : nat) :
  (j <= k)%nat -> firstn j (date_range d k) = date_range d j.
Proof.
  revert d k. induction j as [| j IH]; intros d k L; [reflexivity|].
  destruct k as [| k]; [lia|]. cbn [date_range firstn]. f_equal. apply IH. lia.
Qed.

Lemma output_events_visited (evs : list event) :
  Forall (fun e => is_write e || is_completion e = true) evs -> visited evs = [].
Proof.
  induction 1 as [| e evs He _ IH]; [reflexivity|].
  destruct e as [| | l [] | | |]; cbn in *; congruence.
Qed.

Lemma check_event_visited (currencies : currencies_arg) :
  visited [check_event currencies] = [].
Proof. destruct currencies; reflexivity. Qed.

(** The days [do_sync] starts on are those its loop starts on. *)
Lemma do_sync_visited (net : network) (start stop : string)
    (currencies : currencies_arg) (n : nat) :
  visited (events (do_sync net start stop currencies n))
  = visited (events (run_loop net start stop currencies n)).
Proof.
  rewrite do_sync_eq. cbv zeta.
  destruct (value (run_loop net start stop currencies n)) as [v | e |];
    cbn [events];
    change (check_event currencies :: ?l) with ([check_event currencies] ++ l);
    rewrite ?visited_app, check_event_visited; cbn [app]; try reflexivity.
  destruct (finish_events (mkstate start stop) v
              (requests (run_loop net start stop currencies n))) as [F _].
  now rewrite (output_events_visited _ F), app_nil_r.
Qed.

(** The loop only sleeps, requests and logs, whatever the dates. *)
Lemma run_loop_events (net : network) (start stop : string)
    (currencies : currencies_arg) (n : nat) :
  Forall (fun e => is_loop_event e = true)
    (events (run_loop net start stop currencies n)).
Proof.
  destruct (Date.fromisoformat start) as [a |] eqn:Pa.
  - destruct (Date.fromisoformat stop) as [b |] eqn:Pb.
    + now destruct (run_loop_spec net start stop currencies a b n Pa Pb).
    + unfold run_loop.
      rewrite (sync_loop_bad_stop net _ stop _ _ n a) by auto. constructor.
  - unfold run_loop. rewrite sync_loop_bad_start by auto. constructor.
Qed.

(** A record the run writes is one the loop accumulated. *)
Lemma written_record_accumulated (net : network) (start stop : string)
    (currencies : currencies_arg) (n : nat) (r : dict) :
  In (write_record r) (events (do_sync net start stop currencies n)) ->
  exists recs,
    accumulated net start stop currencies n = Some recs /\ In r recs.
Proof.
  rewrite do_sync_eq. cbv zeta. unfold accumulated.
  pose proof (run_loop_events net start stop currencies n) as Fl.
  rewrite Forall_forall in Fl.
  assert (Nl : ~ In (write_record r) (events (run_loop net start stop currencies n))).
  { intros H. apply Fl in H. discriminate H. }
  assert (Nc : write_record r <> check_event currencies)
    by (destruct currencies; discriminate).
  destruct (value (run_loop net start stop currencies n)) as [v | e |];
    cbn [events]; intros [H | H]; try congruence; try contradiction.
  apply in_app_or in H. destruct H as [H | H]; [contradiction|].
  apply finish_events in H. eauto.
Qed.

(** ** Termination *)

(** Any fuel above the number of days gives the run of [do_sync]: the loop is
    left by its own test, never for lack of fuel. *)
Lemma do_sync_fuel_enough (net : network) (fuel : nat) (start stop : string)
    (currencies : currencies_arg) (n : nat) :
  (days_to_sync start stop < fuel)%nat ->
  do_sync_fuel net fuel start stop currencies n
  = do_sync net start stop currencies n.
Proof.
  intros F. unfold do_sync, do_sync_fuel.
  rewrite !(bind_eq (check_currencies currencies)), check_currencies_eq.
  cbn [value events requests].
  assert (E : sync_loop net fuel stop (checked currencies)
                (mkvars start [] None) n
              = sync_loop net (S (days_to_sync start stop)) stop
                  (checked currencies) (mkvars start [] None) n).
  { destruct fuel as [| fuel]; [lia|].
    destruct (Date.fromisoformat start) as [a |] eqn:Pa.
    - destruct (Date.fromisoformat stop) as [b |] eqn:Pb.
      + unfold days_to_sync in *. rewrite Pa, Pb in *.
        rewrite !(sync_loop_iterate net (checked currencies) stop b
                    (Z.to_nat (Date.toordinal b - Date.toordinal a + 1))
                    _ _ n a); auto.
      + now rewrite !(sync_loop_bad_stop net _ stop _ _ n a).
    - now rewrite !sync_loop_bad_start. }
  now rewrite !bind_eq, E.
Qed.

(** [do_sync] always ends: well, or by raising. *)
Lemma do_sync_terminates (net : network) (start stop : string)
    (currencies : currencies_arg) (n : nat) :
  value (do_sync net start stop currencies n) <> OutOfFuel.
Proof.
  rewrite do_sync_eq. cbv zeta.
  assert (L : value (run_loop net start stop currencies n) <> OutOfFuel).
  { destruct (Date.fromisoformat start) as [a |] eqn:Pa.
    - destruct (Date.fromisoformat stop) as [b |] eqn:Pb.
      + now destruct (run_loop_spec net start stop currencies a b n Pa Pb)
          as (_ & H & _).
      + unfold run_loop.
        rewrite (sync_loop_bad_stop net _ stop _ _ n a) by auto. discriminate.
    - unfold run_loop. rewrite sync_loop_bad_start by auto. discriminate. }
  destruct (value (run_loop net start stop currencies n)) as [v | e |] eqn:Vl;
    [| discriminate | congruence].
  cbn [value]. destruct (data v) as [| r0 rs] eqn:D.
  - rewrite finish_empty by exact D. discriminate.
  - destruct (record v) as [r |] eqn:R.
    + rewrite (finish_nonempty _ v _ r) by congruence. cbv zeta.
      assert (W : forall recs st m, value (write_all recs st m) <> OutOfFuel).
      { induction recs as [| r' recs IH]; intros st m; [discriminate|].
        rewrite write_all_cons.
        destruct (dict_get r' "date") as [[| | | | s | |] |]; try discriminate.
        pose proof (day_after_not_out_of_fuel s).
        destruct (day_after s); [apply IH | discriminate | congruence]. }
      pose proof (W (data v) (mkstate start stop)
                    (requests (run_loop net start stop currencies n))) as Hw.
      destruct (value (write_all (data v) (mkstate start stop) _))
        as [st1 | e |]; [| discriminate | congruence].
      pose proof (day_after_not_out_of_fuel (date_stop st1)).
      destruct (day_after (date_stop st1)); [discriminate | discriminate | congruence].
    + unfold finish. rewrite D, R. cbn [List.length Nat.ltb Nat.leb].
      rewrite bind_lift_raise. discriminate.
Qed.

(** ** A run *)

(** One day, one currency asked for: the schema, the record and the state of
    the run. *)
Example run_of_2023_10_05 :
  writes (events (do_sync net_rates "2023-10-05" "2023-10-05"
                    (CurrenciesList ["USD"]) 0%nat))
  = [WriteSchema "exchange_rate_cbr"
       (PyDict [("type", PyStr "object");
                ("properties",
                 PyDict [("date", date_property); ("USD", number_property);
                         ("USD_Nominal", number_property)])])
       "date";
     WriteRecords "exchange_rate_cbr"
       [[("date", PyStr "2023-10-05"); ("USD", PyFloat 99.4555);
         ("USD_Nominal", PyInt 1)]];
     WriteState (mkstate "2023-10-06" "2023-10-06")].
Proof. reflexivity. Qed.

(** The text of a day without a rate skips the day, and the run goes on. *)
Example run_over_a_day_without_rate :
  let o := do_sync net_no_rate "2023-10-06" "2023-10-07" CurrenciesNone 0%nat in
  value o = Ok tt
  /\ visited (events o) = ["2023-10-06"; "2023-10-07"]
  /\ List.length (requested (events o)) = 2%nat
  /\ writes (events o) = [].
Proof. vm_compute. repeat split. Qed.

(** Texts that are no date for any version of the library, and two that
    are one from Python 3.11 on. *)
Example plain_texts :
  map Date.plain_text
    ["2023-13-01"; "2023/10/05"; "05.10.2023"; "yesterday"; "";
     "20231005"; "2023-W40-4"]%string
  = [true; true; true; true; true; false; false]
  /\ map Date.fromisoformat
       ["2023-13-01"; "2023/10/05"; "05.10.2023"; "yesterday"; ""]%string
     = [None; None; None; None; None].
Proof. split; reflexivity. Qed.

(** * The claims *)

(** ** The fetcher *)

(** C1.  [make_retry] goes through the attempts that are to be retried, a
    request and a sleep each, and ends on the first response that is not,
    in exactly one of three ways.  With the text of a day without a rate in
    the body, whatever the status, it warns and returns [None] at once, this
    request being its last.  With status 200 and without the text it returns
    the response, the request being its last event.  With another status and
    without the text it logs the response and the delay, sleeps and makes the
    next request; after the last of the [n_retries] attempts it warns and
    returns [None] instead. *)
Theorem make_retry_classifies (net : network) (url : string) (n_retries : nat)
    (delay_seconds : Z) (n i : nat) (r : response) :
  (i < n_retries)%nat ->
  (forall j, (j < i)%nat -> retryable (net (n + j)%nat url) = true) ->
  net (n + i)%nat url = Responded r ->
  let no_rate := str_in NO_RATE_TEXT (Response.text r) in
  let status := Response.status_code r in
  let delay := delay_seconds * 2 ^ Z.of_nat i in
  let o := make_retry net url n_retries delay_seconds n in
  exists pre,
    requested pre = repeat url i
    /\ sleeps pre = map (fun j => delay_seconds * 2 ^ Z.of_nat j) (seq 0 i)
    /\ (no_rate = true ->
        o = mkoutcome
              (pre ++ [Request "get" url;
                       Log Warning (MsgResponseText (Response.text r))])
              (n + i + 1)%nat (Ok None))
    /\ (no_rate = false -> status = 200 ->
        o = mkoutcome (pre ++ [Request "get" url]) (n + i + 1)%nat (Ok (Some r)))
    /\ (no_rate = false -> status <> 200 ->
        exists post,
          events o
          = pre
            ++ [Request "get" url; Log Info (MsgResponseURL (Response.url r));
                Log Info (MsgResponseStatusCode status);
                Log Info (MsgResponseText (Response.text r));
                Log Info (MsgSecondsBeforeNextRetry delay); Sleep delay]
            ++ post
          /\ ((i + 1 < n_retries)%nat ->
              exists rest, post = Request "get" url :: rest)
          /\ ((i + 1 = n_retries)%nat ->
              post = [Log Warning (MsgFailedAfter n_retries)]
              /\ value o = Ok None)).
Proof.
  intros Hi Hre N. cbv zeta. unfold make_retry.
  assert (Sq : seq 0 n_retries
               = seq 0 i ++ i :: seq (S i) (n_retries - S i)).
  { replace n_retries with (i + S (n_retries - S i))%nat at 1 by lia.
    rewrite seq_app. reflexivity. }
  rewrite Sq.
  destruct (make_retry_from_skip net url n_retries delay_seconds i 0%nat n
              (i :: seq (S i) (n_retries - S i)) Hre)
    as (pre & E & V & R & Rq & Sl).
  exists pre. split; [exact Rq|]. split; [exact Sl|].
  set (o := make_retry_from net url n_retries delay_seconds
              (seq 0 i ++ i :: seq (S i) (n_retries - S i)) n) in *.
  assert (Eo : o = mkoutcome (events o) (requests o) (value o))
    by (destruct o; reflexivity).
  rewrite make_retry_from_cons, N in E, V, R. cbv zeta in E, V, R.
  destruct (str_in NO_RATE_TEXT (Response.text r)) eqn:T;
    destruct (Z.eqb_spec (Response.status_code r) 200) as [S200 | S200];
    cbn [negb andb events value requests] in E, V, R;
    (split; [| split]); intros; try congruence;
    try (rewrite Eo, E, V, R; f_equal; lia).
  exists (events (make_retry_from net url n_retries delay_seconds
                    (seq (S i) (n_retries - S i)) (S (n + i)))).
  split; [exact E|]. split.
  - intros L. destruct (n_retries - S i)%nat as [| m] eqn:M; [lia|].
    cbn [seq]. apply make_retry_from_first_request.
  - intros L. replace (n_retries - S i)%nat with 0%nat in * by lia.
    cbn [seq] in *. rewrite make_retry_from_nil in *. cbn [events value] in *.
    split; [reflexivity | exact V].
Qed.

Lemma make_retry_classifies_witness :
  exists pre,
    sleeps pre = [10]
    /\ make_retry net_busy_then_rates "u" N_RETRIES DELAY_SECONDS 0%nat
       = mkoutcome (pre ++ [Request "get" "u"]) 2%nat
           (Ok (Some (rates_response "u"))).
Proof.
  destruct (make_retry_classifies net_busy_then_rates "u" N_RETRIES
              DELAY_SECONDS 0%nat 1%nat (rates_response "u"))
    as (pre & _ & Sl & _ & H & _).
  - unfold N_RETRIES. lia.
  - intros j Hj. assert (j = 0)%nat by lia. subst j. reflexivity.
  - reflexivity.
  - exists pre. split; [exact Sl|]. apply H; reflexivity.
Defined.

(** C2. A fetch makes 10 requests at most.  Its sleeps last
    [DELAY_SECONDS * 2 ^ i] seconds for i = 0, 1, 2, ... in turn: one after
    each attempt that is to be retried, nothing added, nothing capped.  When
    all 10 attempts are to be retried, it has slept 10, 20, ..., 5120 seconds,
    warns last of all and returns [None]; the day then ends with the records
    as they were, and raises nothing on account of the fetch. *)
Theorem make_retry_backoff (net : network) (url : string) (n : nat) :
  let o := make_retry net url N_RETRIES DELAY_SECONDS n in
  (List.length (requested (events o)) <= 10)%nat
  /\ requests o = (n + List.length (requested (events o)))%nat
  /\ (List.length (sleeps (events o)) <= List.length (requested (events o)))%nat
  /\ sleeps (events o)
     = map (fun i => 10 * 2 ^ Z.of_nat i)
         (seq 0 (List.length (sleeps (events o))))
  /\ ((forall i, (i < 10)%nat -> retryable (net (n + i)%nat url) = true) ->
      value o = Ok None
      /\ requested (events o) = repeat url 10
      /\ sleeps (events o) = [10; 20; 40; 80; 160; 320; 640; 1280; 2560; 5120]
      /\ (exists evs, events o = evs ++ [Log Warning (MsgFailedAfter 10)])
      /\ forall currencies v d,
          Date.fromisoformat (date_to_process v) = Some d ->
          url = endpoint_of d ->
          value (sync_day net currencies v n)
          = rbind (day_after (date_to_process v))
              (fun next => Ok (mkvars next (data v) (record v)))).
Proof.
  cbv zeta. unfold make_retry.
  pose proof (make_retry_from_requests net url N_RETRIES DELAY_SECONDS
                (seq 0 N_RETRIES) n) as R.
  cbv zeta in R. destruct R as (R1 & R2 & R3 & _).
  rewrite length_seq in R2.
  split; [exact R2|]. split; [exact R1|]. split; [exact R3|].
  split; [apply (make_retry_from_sleeps net url N_RETRIES DELAY_SECONDS 0%nat
                   N_RETRIES n)|].
  intros H.
  pose proof (make_retry_from_exhausted net url N_RETRIES DELAY_SECONDS 0%nat
                N_RETRIES n H) as E.
  cbv zeta in E. destruct E as (E1 & _ & E3 & E4 & E5).
  split; [exact E1|]. split; [exact E3|]. split; [exact E4|].
  split; [exact E5|].
  intros currencies v d P ->. rewrite (sync_day_eq net currencies v n d P).
  cbv zeta. cbn [value]. unfold make_retry. rewrite E1. reflexivity.
Qed.

Lemma make_retry_backoff_witness :
  value (make_retry net_down "u" N_RETRIES DELAY_SECONDS 0%nat) = Ok None
  /\ sleeps (events (make_retry net_down "u" N_RETRIES DELAY_SECONDS 0%nat))
     = [10; 20; 40; 80; 160; 320; 640; 1280; 2560; 5120].
Proof.
  destruct (make_retry_backoff net_down "u" 0%nat) as (_ & _ & _ & _ & H).
  destruct H as (H1 & _ & H3 & _).
  - intros i Hi. reflexivity.
  - split; [exact H1 | exact H3].
Defined.

(** ** The driver *)

(** C3, amended.  For dates that parse, the days from [start] to [stop] are
    the valid dates between them, each once, each the day after the one
    before.  The driver starts on the first of them, then on the next, and so
    on: on all of them, in this order, when the run ends without raising, and
    on a first part of them when a day raises and ends the run.  When [start]
    is after [stop] the run logs its two lines, requests nothing and writes
    nothing. *)
Theorem do_sync_visits (net : network) (start stop : string)
    (currencies : currencies_arg) (n : nat) (a b : Date.date) :
  Date.fromisoformat start = Some a ->
  Date.fromisoformat stop = Some b ->
  let o := do_sync net start stop currencies n in
  let days := dates_between a b in
  (forall x, In x days
             <-> Date.valid x = true /\ Date.leb a x = true /\ Date.leb x b = true)
  /\ NoDup days
  /\ (forall i x y, nth_error days i = Some x -> nth_error days (S i) = Some y ->
                    y = Date.tomorrow x /\ Date.ltb x y = true)
  /\ (exists j, (j <= List.length days)%nat
                /\ visited (events o) = map iso (firstn j days))
  /\ (value o = Ok tt -> visited (events o) = map iso days)
  /\ (Date.leb a b = false ->
      o = mkoutcome [check_event currencies; Log Info MsgNothingDone] n (Ok tt)).
Proof.
  intros Pa Pb. cbv zeta.
  pose proof (fromisoformat_valid _ _ Pa) as Va.
  pose proof (fromisoformat_valid _ _ Pb) as Vb.
  pose proof (run_loop_spec net start stop currencies a b n Pa Pb) as Sp.
  cbv zeta in Sp. destruct Sp as (_ & _ & (j & Hj & Vj & Cj) & _).
  split; [apply dates_between_In; assumption|].
  split; [apply dates_between_NoDup; assumption|].
  split; [apply dates_between_step; assumption|].
  split; [| split].
  - exists j. split; [exact Hj|]. rewrite do_sync_visited, Vj.
    unfold dates_between in *. rewrite date_range_length in Hj.
    now rewrite firstn_date_range.
  - intros Ho. rewrite do_sync_visited, Vj. f_equal.
    assert (E : j = List.length (dates_between a b)).
    { apply Cj. rewrite do_sync_eq in Ho. cbv zeta in Ho.
      destruct (value (run_loop net start stop currencies n)); [eauto | |];
        discriminate. }
    unfold dates_between in *. rewrite date_range_length in E. now rewrite E.
  - intros L. rewrite DateFacts.leb_toordinal in L by assumption.
    apply Z.leb_gt in L.
    rewrite do_sync_eq. cbv zeta. rewrite (run_loop_iterate _ _ _ _ a b n Pa Pb).
    unfold dates_between. rewrite date_range_length.
    replace (Z.to_nat (Date.toordinal b - Date.toordinal a + 1)) with 0%nat by lia.
    reflexivity.
Qed.

Lemma do_sync_visits_witness :
  visited (events (do_sync net_rates "2023-10-30" "2023-11-01"
                     CurrenciesNone 0%nat))
  = map iso (dates_between (Date.mkdate 2023 10 30) (Date.mkdate 2023 11 1)).
Proof.
  destruct (do_sync_visits net_rates "2023-10-30" "2023-11-01" CurrenciesNone
              0%nat (Date.mkdate 2023 10 30) (Date.mkdate 2023 11 1)
              eq_refl eq_refl) as (_ & _ & _ & _ & H & _).
  apply H. vm_compute. reflexivity.
Defined.

(** C3 as the specification has it fails: a page that is not JSON, served
    with status 200 on the first day, ends the run there, and the second day
    of the range is never started. *)
Lemma do_sync_visit_cut_short :
  let o := do_sync net_html "2023-10-05" "2023-10-06" CurrenciesNone 0%nat in
  Date.fromisoformat "2023-10-05" = Some (Date.mkdate 2023 10 5)
  /\ Date.fromisoformat "2023-10-06" = Some (Date.mkdate 2023 10 6)
  /\ Date.leb (Date.mkdate 2023 10 5) (Date.mkdate 2023 10 6) = true
  /\ value o = Raise (JSONDecodeError "<html>maintenance</html>")
  /\ visited (events o) = ["2023-10-05"]
  /\ requested (events o)
     = ["https://www.cbr-xml-daily.ru//archive//2023//10//05//daily_json.js"].
Proof. vm_compute. repeat split. Qed.

(** C4.  On a day whose answer has status 200 and a [Valute] map that is not
    empty, with currency codes of three letters and an object for every
    entry read, lines 124-136 add one record.  Its [date] is the day's date
    string.  For each code [c], the configured ones or the keys of [Valute]
    when none is configured: when [c] is in [Valute] the record holds the
    [Value] of its entry under [c] and its [Nominal] under [c_Nominal],
    [None] for a field the entry lacks; when [c] is not in [Valute], the
    record holds [None] under both keys, which are present. *)
Theorem record_of_the_day (currencies : option (list string)) (resp : response)
    (v : vars) (body vs : dict) :
  Response.status_code resp = 200 ->
  Response.json resp = Some (PyDict body) ->
  dict_get body "Valute" = Some (PyDict vs) ->
  vs <> [] ->
  let codes := codes_of currencies vs in
  Forall (fun c => currency_code c = true) codes ->
  (forall c, In c codes -> is_dict (entry_of vs c) = true) ->
  exists r,
    handle_response currencies (Some resp) v
    = Ok (mkvars (date_to_process v) (data v ++ [r]) (Some r))
    /\ dict_get r "date" = Some (PyStr (date_to_process v))
    /\ forall c,
        In c codes ->
        match dict_get vs c with
        | Some entry =>
            exists fields,
              entry = PyDict fields
              /\ dict_get r c
                 = Some (match dict_get fields "Value" with
                         | Some x => x
                         | None => PyNone
                         end)
              /\ dict_get r (c ++ "_Nominal")%string
                 = Some (match dict_get fields "Nominal" with
                         | Some x => x
                         | None => PyNone
                         end)
        | None =>
            dict_get r c = Some PyNone
            /\ dict_get r (c ++ "_Nominal")%string = Some PyNone
        end.
Proof.
  intros S200 J V Ne. cbv zeta. intros Hc Hd.
  rewrite Forall_forall in Hc.
  assert (T : truthy (PyDict vs) = true) by (destruct vs; [contradiction | reflexivity]).
  destruct (fill_ok vs (codes_of currencies vs)
              [("date", PyStr (date_to_process v))] Hd) as [rec B].
  exists rec. split; [| split].
  - unfold handle_response, Response.ok. rewrite S200, J, V, T.
    cbn [Z.leb Z.ltb Z.compare Pos.compare Pos.compare_cont andb negb].
    rewrite build_record_dict, B. reflexivity.
  - rewrite <- build_record_dict in B.
    apply (record_date currencies _ vs rec B).
    intros I. exact (currency_code_not_date _ (Hc _ I) eq_refl).
  - intros c I.
    assert (NC : forall d, In d (codes_of currencies vs) ->
                           (d ++ "_Nominal")%string <> c
                           /\ d <> (c ++ "_Nominal")%string).
    { intros d Id. apply currency_code_keys; auto. }
    destruct (fill_code vs _ _ _ c B I NC) as [Fv Fn].
    pose proof (Hd c I) as D.
    unfold entry_of in *. destruct (dict_get vs c) as [entry |].
    + destruct entry as [| | | | | | fields]; try discriminate.
      exists fields. auto.
    + auto.
Qed.

Lemma record_of_the_day_witness :
  exists r,
    handle_response (Some ["USD"; "GBP"]) (Some (rates_response "u"))
      (mkvars "2023-10-05" [] None)
    = Ok (mkvars "2023-10-05" [r] (Some r))
    /\ dict_get r "date" = Some (PyStr "2023-10-05")
    /\ dict_get r "USD" = Some (PyFloat 99.4555)
    /\ dict_get r "USD_Nominal" = Some (PyInt 1)
    /\ dict_get r "GBP" = Some PyNone
    /\ dict_get r "GBP_Nominal" = Some PyNone.
Proof.
  destruct (record_of_the_day (Some ["USD"; "GBP"]) (rates_response "u")
              (mkvars "2023-10-05" [] None)
              [("Date", PyStr "2023-10-05T11:30:00+03:00");
               ("Valute",
                PyDict
                  [("USD", PyDict [("CharCode", PyStr "USD"); ("Nominal", PyInt 1);
                                   ("Value", PyFloat 99.4555)]);
                   ("EUR", PyDict [("CharCode", PyStr "EUR"); ("Nominal", PyInt 1);
                                   ("Value", PyFloat 104.3024)])])]
              [("USD", PyDict [("CharCode", PyStr "USD"); ("Nominal", PyInt 1);
                               ("Value", PyFloat 99.4555)]);
               ("EUR", PyDict [("CharCode", PyStr "EUR"); ("Nominal", PyInt 1);
                               ("Value", PyFloat 104.3024)])]
              eq_refl eq_refl eq_refl ltac:(discriminate))
    as (r & H & Hdate & Hc).
  - repeat constructor.
  - intros c [<- | [<- | []]]; reflexivity.
  - exists r.
    pose proof (Hc "USD" (or_introl eq_refl)) as U.
    pose proof (Hc "GBP" (or_intror (or_introl eq_refl))) as G.
    cbn in U, G. destruct U as (fields & Ef & U1 & U2). injection Ef as <-.
    destruct G as (G1 & G2).
    repeat split; auto.
Defined.

(** Outside this data model, a code that is the string [date] takes the
    place of the day in the record: with [currencies = ["date"]] the record
    of 2023-10-05 has [None] under [date]. *)
Example record_date_overwritten :
  handle_response (Some ["date"]) (Some (rates_response "u"))
    (mkvars "2023-10-05" [] None)
  = Ok (mkvars "2023-10-05"
          [[("date", PyNone); ("date_Nominal", PyNone)]]
          (Some [("date", PyNone); ("date_Nominal", PyNone)]))
  /\ In (WriteRecords STREAM [[("date", PyNone); ("date_Nominal", PyNone)]])
       (events (do_sync net_rates "2023-10-05" "2023-10-05"
                  (CurrenciesList ["date"]) 0%nat)).
Proof. split; [reflexivity|]. vm_compute. auto 10. Qed.

(** C5.  When the loop ends with at least one record, the currency codes
    having three letters, the run ends well and its output is: the schema,
    the records in order, then the state, once and last of the Singer
    messages.  The state has [date_start] one day after the [date] of the
    last record, which need not be the day after [stop], and [date_stop] one
    day after [stop], however many records there are. *)
Theorem state_after_records (net : network) (start stop : string)
    (currencies : currencies_arg) (n : nat) (recs : list dict) :
  accumulated net start stop currencies n = Some recs ->
  recs <> [] ->
  currency_codes net (checked currencies) ->
  let o := do_sync net start stop currencies n in
  let l := run_loop net start stop currencies n in
  exists s last_date,
    events o
    = check_event currencies :: events l
      ++ WriteSchema STREAM (make_schema (last recs [])) "date"
      :: map write_record recs
      ++ [WriteState s; Log Info (MsgCompleted (List.length recs))]
    /\ writes (events l) = []
    /\ value o = Ok tt
    /\ dict_get (last recs []) "date" = Some (PyStr last_date)
    /\ day_after last_date = Ok (date_start s)
    /\ day_after stop = Ok (date_stop s).
Proof.
  intros Hacc Hne Hmodel. cbv zeta.
  pose proof (currency_codes_not_date _ _ Hmodel) as Hcode.
  destruct (do_sync_output net start stop currencies n recs
              (fun s r => built_on_date net (checked currencies) s r Hcode)
              Hacc Hne)
    as (a & b & x & Pa & Pb & Hx & Lb & Dx & E).
  cbv zeta in E. rewrite E. cbn [events value].
  pose proof (fromisoformat_valid _ _ Pa) as Va.
  pose proof (fromisoformat_valid _ _ Pb) as Vb.
  exists (mkstate (iso (Date.tomorrow x)) (iso (Date.tomorrow b))), (iso x).
  cbn [date_start date_stop]. repeat split; auto.
  - apply loop_events_writes.
    now destruct (run_loop_spec net start stop currencies a b n Pa Pb) as (F & _).
  - apply (dates_between_In a b Va Vb) in Hx. destruct Hx as (Vx & _ & Lx).
    rewrite DateFacts.leb_toordinal, Z.leb_le in Lx by assumption.
    apply day_after_ok; [now apply DateFacts.fromisoformat_strftime | lia].
  - now apply day_after_ok.
Qed.

Lemma state_after_records_witness :
  exists s,
    In (WriteState s)
      (events (do_sync net_rates "2023-10-05" "2023-10-05"
                 (CurrenciesList ["USD"]) 0%nat))
    /\ date_start s = "2023-10-06"
    /\ date_stop s = "2023-10-06".
Proof.
  destruct (state_after_records net_rates "2023-10-05" "2023-10-05"
              (CurrenciesList ["USD"]) 0%nat
              [[("date", PyStr "2023-10-05"); ("USD", PyFloat 99.4555);
                ("USD_Nominal", PyInt 1)]])
    as (s & last_date & E & _ & _ & D & A & B).
  - reflexivity.
  - discriminate.
  - repeat constructor.
  - exists s. cbn in D. injection D as <-.
    vm_compute in A, B. injection A as A. injection B as B.
    split; [| split; [now symmetry | now symmetry]].
    rewrite E. right. apply in_or_app. right. right. apply in_or_app. right.
    now left.
Defined.

(** Outside this data model, with a code that is the string [date], a
    record is accumulated and written and the state never is, because the
    [None] under [date] is no date. *)
Example state_not_written_on_date_code :
  let o := do_sync net_rates "2023-10-05" "2023-10-05"
             (CurrenciesList ["date"]) 0%nat in
  accumulated net_rates "2023-10-05" "2023-10-05" (CurrenciesList ["date"]) 0%nat
  = Some [[("date", PyNone); ("date_Nominal", PyNone)]]
  /\ value o = Raise (TypeError PyNone)
  /\ filter (fun e => match e with WriteState _ => true | _ => false end)
       (events o) = [].
Proof. vm_compute. repeat split. Qed.

(** C6.  When the loop ends with at least one record, the run writes one
    schema, before any record and before anything else it writes: the schema
    of the last record accumulated, whatever the keys of the records before
    it.  The schema has [date] as a string in date format and every other
    key of that record as a nullable number, and no other property. *)
Theorem schema_of_last_record (net : network) (start stop : string)
    (currencies : currencies_arg) (n : nat) (recs : list dict) :
  accumulated net start stop currencies n = Some recs ->
  recs <> [] ->
  let o := do_sync net start stop currencies n in
  let l := run_loop net start stop currencies n in
  (exists rest,
      events o
      = check_event currencies :: events l
        ++ WriteSchema STREAM (make_schema (last recs [])) "date" :: rest
      /\ writes [check_event currencies] = []
      /\ writes (events l) = []
      /\ filter is_schema rest = [])
  /\ exists props,
      make_schema (last recs [])
      = PyDict [("type", PyStr "object"); ("properties", PyDict props)]
      /\ dict_get props "date" = Some date_property
      /\ forall k, k <> "date" ->
                   (In k (keys (last recs [])) ->
                    dict_get props k = Some number_property)
                   /\ (~ In k (keys (last recs [])) -> dict_get props k = None).
Proof.
  intros Hacc Hne. cbv zeta. split; [| apply make_schema_spec].
  unfold accumulated in Hacc.
  destruct (value (run_loop net start stop currencies n)) as [v | |] eqn:Vl;
    try discriminate.
  injection Hacc as Hd.
  destruct (run_loop_ok_dates net start stop currencies n v Vl)
    as (a & b & Pa & Pb).
  pose proof (run_loop_spec net start stop currencies a b n Pa Pb) as Sp.
  cbv zeta in Sp. destruct Sp as (Fl & _ & _ & Sp).
  destruct (Sp v Vl) as (_ & R & _). rewrite Hd in R.
  rewrite latest_last in R by assumption.
  rewrite do_sync_eq. cbv zeta. rewrite Vl.
  rewrite (finish_nonempty _ v _ (last recs [])) by congruence. cbv zeta.
  set (m := requests (run_loop net start stop currencies n)).
  destruct (write_all_spec (data v) (mkstate start stop) m) as (_ & (j & E) & _).
  assert (Ws : filter is_schema (events (write_all (data v) (mkstate start stop) m))
               = []).
  { rewrite E. clear. induction (firstn j (data v)) as [| r rs IH];
      [reflexivity | exact IH]. }
  assert (Wc : writes [check_event currencies] = [])
    by (destruct currencies; reflexivity).
  destruct (value (write_all (data v) (mkstate start stop) m)) as [st1 | e |];
    [destruct (day_after (date_stop st1)) as [stop' | e |] | |];
    cbn [events]; eexists; (split; [reflexivity|]);
    (split; [exact Wc|]); (split; [now apply loop_events_writes|]);
    try exact Ws.
  rewrite filter_app, Ws. reflexivity.
Qed.

Lemma schema_of_last_record_witness :
  exists rest,
    events (do_sync net_then_usd_only "2023-10-05" "2023-10-06"
              CurrenciesNone 0%nat)
    = Log Warning MsgCurrenciesNotAList
      :: events (run_loop net_then_usd_only "2023-10-05" "2023-10-06"
                   CurrenciesNone 0%nat)
      ++ WriteSchema STREAM
           (make_schema [("date", PyStr "2023-10-06"); ("USD", PyFloat 100.5);
                         ("USD_Nominal", PyInt 1)]) "date"
      :: rest.
Proof.
  destruct (schema_of_last_record net_then_usd_only "2023-10-05" "2023-10-06"
              CurrenciesNone 0%nat
              [[("date", PyStr "2023-10-05"); ("USD", PyFloat 99.4555);
                ("USD_Nominal", PyInt 1); ("EUR", PyFloat 104.3024);
                ("EUR_Nominal", PyInt 1)];
               [("date", PyStr "2023-10-06"); ("USD", PyFloat 100.5);
                ("USD_Nominal", PyInt 1)]])
    as ((rest & E & _) & _).
  - reflexivity.
  - discriminate.
  - exists rest. exact E.
Defined.

(** The schema of that run has no property for EUR, a key of the first
    record only. *)
Example schema_is_not_the_union :
  make_schema [("date", PyStr "2023-10-06"); ("USD", PyFloat 100.5);
               ("USD_Nominal", PyInt 1)]
  = PyDict [("type", PyStr "object");
            ("properties",
             PyDict [("date", date_property); ("USD", number_property);
                     ("USD_Nominal", number_property)])].
Proof. reflexivity. Qed.

(** C7.  When the loop ends without a record, the run ends well having
    written no schema, no record and no state; its only completion line is
    the one that says nothing was done, and it is its last line.  This is so
    when no request of the run is answered with status 200 and a body
    without the text of a day without a rate, for dates that parse, from
    the year 1000 on, and a [stop] before 9999-12-31. *)
Theorem nothing_done (net : network) (start stop : string)
    (currencies : currencies_arg) (n : nat) :
  let o := do_sync net start stop currencies n in
  let l := run_loop net start stop currencies n in
  (accumulated net start stop currencies n = Some [] ->
   events o = check_event currencies :: events l ++ [Log Info MsgNothingDone]
   /\ value o = Ok tt
   /\ writes (events o) = []
   /\ filter is_completion (events o) = [Log Info MsgNothingDone])
  /\ (forall a b,
         Date.fromisoformat start = Some a ->
         Date.fromisoformat stop = Some b ->
         1000 <= Date.year a ->
         Date.toordinal b < Date.MAXORDINAL ->
         (forall m u r, net m u = Responded r ->
                        Response.status_code r = 200 ->
                        str_in NO_RATE_TEXT (Response.text r) = true) ->
         accumulated net start stop currencies n = Some []).
Proof.
  cbv zeta. split.
  - intros Hacc. unfold accumulated in Hacc.
    destruct (value (run_loop net start stop currencies n)) as [v | |] eqn:Vl;
      try discriminate.
    injection Hacc as Hd.
    destruct (run_loop_ok_dates net start stop currencies n v Vl)
      as (a & b & Pa & Pb).
    pose proof (run_loop_spec net start stop currencies a b n Pa Pb) as Sp.
    cbv zeta in Sp. destruct Sp as (Fl & _).
    assert (Wc : writes [check_event currencies] = [])
      by (destruct currencies; reflexivity).
    assert (Cc : filter is_completion [check_event currencies] = [])
      by (destruct currencies; reflexivity).
    rewrite do_sync_eq. cbv zeta. rewrite Vl, (finish_empty _ v _ Hd).
    cbn [events value app]. repeat split.
    + change (check_event currencies :: ?x) with ([check_event currencies] ++ x).
      rewrite !writes_app, Wc, (loop_events_writes _ Fl). reflexivity.
    + change (check_event currencies :: ?x) with ([check_event currencies] ++ x).
      rewrite !filter_app, Cc, (loop_events_no_completion _ Fl). reflexivity.
  - intros a b Pa Pb _ Lb Hnet.
    assert (G : good_network net (checked currencies)).
    { intros m u r N S200 T. rewrite (Hnet m u r N S200) in T. discriminate. }
    pose proof (fromisoformat_valid _ _ Pa) as Va.
    pose proof (DateFacts.toordinal_bounds a Va) as Ba.
    destruct (iterate_sync_day_ok net (checked currencies)
                (List.length (dates_between a b)) (mkvars start [] None) n a G Pa)
      as [v Hv].
    { unfold dates_between. rewrite date_range_length. lia. }
    rewrite <- (run_loop_iterate net start stop currencies a b n Pa Pb) in Hv.
    unfold accumulated. rewrite Hv. f_equal.
    pose proof (run_loop_spec net start stop currencies a b n Pa Pb) as Sp.
    cbv zeta in Sp. destruct Sp as (_ & _ & _ & Sp).
    destruct (Sp v Hv) as (_ & _ & F).
    destruct (data v) as [| r rs]; [reflexivity|].
    exfalso. inversion F as [| r' rs' (x & _ & Hb) _]. subst.
    destruct Hb as (m & u & resp & body & valutes & N & S200 & T & _).
    rewrite (Hnet m u resp N S200) in T. discriminate.
Qed.

Lemma nothing_done_witness :
  filter is_completion
    (events (do_sync net_down "2023-10-05" "2023-10-06" CurrenciesNone 0%nat))
  = [Log Info MsgNothingDone]
  /\ writes
       (events (do_sync net_down "2023-10-05" "2023-10-06" CurrenciesNone 0%nat))
     = [].
Proof.
  destruct (nothing_done net_down "2023-10-05" "2023-10-06" CurrenciesNone 0%nat)
    as (H & H').
  assert (A : accumulated net_down "2023-10-05" "2023-10-06" CurrenciesNone 0%nat
              = Some []).
  { apply (H' (Date.mkdate 2023 10 5) (Date.mkdate 2023 10 6)).
    - reflexivity.
    - reflexivity.
    - cbn [Date.year]. lia.
    - reflexivity.
    - intros m u r N. discriminate N. }
  destruct (H A) as (_ & _ & W & C). split; assumption.
Defined.




(** C9.  An empty list of currencies is a list: lines 98-102 log it as the
    currencies specified, without the warning, and leave it the empty list
    that it is, where they turn what is no list into [None].  Being falsy,
    it builds every record from all the keys of the day's [Valute], as no
    list does: the two runs differ in their first log line only.  No record
    written has [date] as its only key. *)
Theorem empty_list_is_no_filter (net : network) (start stop : string) (n : nat) :
  let oe := do_sync net start stop (CurrenciesList []) n in
  let on := do_sync net start stop CurrenciesNone n in
  check_currencies (CurrenciesList []) n
  = mkoutcome [Log Info (MsgCurrenciesSpecified [])] n (Ok (Some []))
  /\ check_currencies CurrenciesNone n
     = mkoutcome [Log Warning MsgCurrenciesNotAList] n (Ok None)
  /\ (exists rest,
         events oe = Log Info (MsgCurrenciesSpecified []) :: rest
         /\ events on = Log Warning MsgCurrenciesNotAList :: rest)
  /\ value oe = value on
  /\ requests oe = requests on
  /\ (forall s valutes,
         build_record (Some []) s valutes = build_record None s valutes)
  /\ (forall r, In (write_record r) (events oe) ->
                exists k, In k (keys r) /\ k <> "date").
Proof.
  cbv zeta.
  assert (L : run_loop net start stop (CurrenciesList []) n
              = run_loop net start stop CurrenciesNone n).
  { unfold run_loop. apply sync_loop_empty_filter. }
  split; [reflexivity|]. split; [reflexivity|].
  split; [| split; [| split; [| split]]].
  - rewrite !do_sync_eq. cbv zeta. rewrite L.
    destruct (value (run_loop net start stop CurrenciesNone n));
      cbn [events check_event]; eauto.
  - rewrite !do_sync_eq. cbv zeta. rewrite L.
    destruct (value (run_loop net start stop CurrenciesNone n)); reflexivity.
  - rewrite !do_sync_eq. cbv zeta. rewrite L.
    destruct (value (run_loop net start stop CurrenciesNone n)); reflexivity.
  - reflexivity.
  - intros r H. apply written_record_accumulated in H.
    destruct H as (recs & Hacc & Hr). unfold accumulated in Hacc.
    destruct (value (run_loop net start stop (CurrenciesList []) n))
      as [v | |] eqn:Vl; try discriminate.
    injection Hacc as <-.
    destruct (run_loop_ok_dates net start stop _ n v Vl) as (a & b & Pa & Pb).
    pose proof (run_loop_spec net start stop (CurrenciesList []) a b n Pa Pb) as Sp.
    cbv zeta in Sp. destruct Sp as (_ & _ & _ & Sp).
    destruct (Sp v Vl) as (_ & _ & F). rewrite Forall_forall in F.
    destruct (F r Hr) as (x & _ & m & u & resp & body & valutes & _ & _ & _ & _ & _ & T & B).
    destruct (build_record_ok_dict _ _ _ _ T B) as (vs & -> & Ne).
    rewrite build_record_dict in B.
    destruct vs as [| [k0 e0] vs]; [contradiction|].
    exists (k0 ++ "_Nominal")%string. split; [| apply nominal_key_not_date].
    apply (fill_keys _ _ _ _ _ B). right. cbn. auto.
Qed.

Lemma empty_list_is_no_filter_witness :
  exists k,
    In k (keys [("date", PyStr "2023-10-05"); ("USD", PyFloat 99.4555);
                ("USD_Nominal", PyInt 1); ("EUR", PyFloat 104.3024);
                ("EUR_Nominal", PyInt 1)])
    /\ k <> "date".
Proof.
  destruct (empty_list_is_no_filter net_rates "2023-10-05" "2023-10-05" 0%nat)
    as (_ & _ & _ & _ & _ & _ & H).
  apply H. vm_compute. auto 10.
Defined.

(** C10.  With currency codes of three letters, every state that the run
    writes has its [date_start] on or before its [date_stop]: [date_start]
    is the day after the [date] of the last record accumulated, that date is
    on or before [stop], and [date_stop] is the day after [stop]. *)
Theorem state_dates_ordered (net : network) (start stop : string)
    (currencies : currencies_arg) (n : nat) (s : state) :
  currency_codes net (checked currencies) ->
  In (WriteState s) (events (do_sync net start stop currencies n)) ->
  exists a' b',
    Date.fromisoformat (date_start s) = Some a'
    /\ Date.fromisoformat (date_stop s) = Some b'
    /\ Date.leb a' b' = true
    /\ exists recs last_date x b,
        accumulated net start stop currencies n = Some recs
        /\ dict_get (last recs []) "date" = Some (PyStr last_date)
        /\ Date.fromisoformat last_date = Some x
        /\ Date.fromisoformat stop = Some b
        /\ Date.leb x b = true
        /\ a' = Date.tomorrow x
        /\ b' = Date.tomorrow b.
Proof.
  intros Hmodel Hin.
  pose proof (currency_codes_not_date _ _ Hmodel) as Hcode.
  pose proof (run_loop_events net start stop currencies n) as Fl.
  rewrite Forall_forall in Fl.
  assert (Nl : ~ In (WriteState s) (events (run_loop net start stop currencies n))).
  { intros H. apply Fl in H. discriminate H. }
  assert (Nc : WriteState s <> check_event currencies)
    by (destruct currencies; discriminate).
  destruct (accumulated net start stop currencies n) as [recs |] eqn:Hacc.
  - destruct recs as [| r0 rs].
    + exfalso. unfold accumulated in Hacc. rewrite do_sync_eq in Hin.
      cbv zeta in Hin.
      destruct (value (run_loop net start stop currencies n)) as [v | |];
        try discriminate.
      injection Hacc as Hd. rewrite finish_empty in Hin by exact Hd.
      cbn [events] in Hin. destruct Hin as [H | H]; [congruence|].
      apply in_app_or in H. destruct H as [H | [H | []]];
        [contradiction | discriminate H].
    + destruct (do_sync_output net start stop currencies n (r0 :: rs)
                  (fun s r => built_on_date net (checked currencies) s r Hcode)
                  Hacc ltac:(discriminate))
        as (a & b & x & Pa & Pb & Hx & Lb & Dx & E).
      cbv zeta in E. rewrite E in Hin. cbn [events] in Hin.
      pose proof (fromisoformat_valid _ _ Pa) as Va.
      pose proof (fromisoformat_valid _ _ Pb) as Vb.
      apply (dates_between_In a b Va Vb) in Hx. destruct Hx as (Vx & _ & Lx).
      pose proof Lx as Lx'.
      rewrite DateFacts.leb_toordinal, Z.leb_le in Lx' by assumption.
      assert (Vx' : Date.valid (Date.tomorrow x) = true)
        by (apply DateFacts.valid_tomorrow; [assumption | lia]).
      assert (Vb' : Date.valid (Date.tomorrow b) = true)
        by (apply DateFacts.valid_tomorrow; [assumption | lia]).
      assert (Es : s = mkstate (iso (Date.tomorrow x)) (iso (Date.tomorrow b))).
      { destruct Hin as [H | H]; [congruence|].
        apply in_app_or in H. destruct H as [H | H]; [contradiction|].
        destruct H as [H | H]; [discriminate H|].
        apply in_app_or in H. destruct H as [H | H].
        - apply in_map_iff in H. destruct H as (r & Q & _). discriminate Q.
        - destruct H as [H | [H | []]]; [congruence | discriminate H]. }
      subst s. cbn [date_start date_stop].
      exists (Date.tomorrow x), (Date.tomorrow b).
      split; [now apply DateFacts.fromisoformat_strftime|].
      split; [now apply DateFacts.fromisoformat_strftime|].
      split.
      * rewrite DateFacts.leb_toordinal by assumption.
        rewrite !DateFacts.toordinal_tomorrow by assumption.
        apply Z.leb_le. lia.
      * exists (r0 :: rs), (iso x), x, b. repeat split; auto.
        now apply DateFacts.fromisoformat_strftime.
  - exfalso. unfold accumulated in Hacc. rewrite do_sync_eq in Hin.
    cbv zeta in Hin.
    destruct (value (run_loop net start stop currencies n)) as [v | |];
      try discriminate; cbn [events] in Hin;
      destruct Hin as [H | H]; congruence || contradiction.
Qed.

Lemma state_dates_ordered_witness :
  exists a' b',
    Date.fromisoformat "2023-10-06" = Some a'
    /\ Date.fromisoformat "2023-10-07" = Some b'
    /\ Date.leb a' b' = true.
Proof.
  destruct (state_dates_ordered net_then_no_rate "2023-10-05" "2023-10-06"
              (CurrenciesList ["USD"; "EUR"]) 0%nat
              (mkstate "2023-10-06" "2023-10-07"))
    as (a' & b' & A & B & L & _).
  - repeat constructor.
  - vm_compute. auto 20.
  - exists a', b'. auto.
Defined.

(** Outside this data model, when an answer has an entry named [date] with
    the text of a day as its [Value], that text takes the place of the day
    in the record, and the state written starts after it stops. *)
Example state_dates_out_of_order :
  let o := do_sync net_date_code "2023-10-05" "2023-10-05" CurrenciesNone 0%nat in
  In (WriteState (mkstate "2030-01-02" "2023-10-06")) (events o)
  /\ value o = Ok tt
  /\ Date.fromisoformat "2030-01-02" = Some (Date.mkdate 2030 1 2)
  /\ Date.fromisoformat "2023-10-06" = Some (Date.mkdate 2023 10 6)
  /\ Date.leb (Date.mkdate 2030 1 2) (Date.mkdate 2023 10 6) = false.
Proof. vm_compute. repeat split. auto 20. Qed.

(** * Beyond the claims *)

(** ** More on the fetcher *)

Lemma make_retry_from_last_request (net : network) (url : string)
    (n_retries : nat) (delay_seconds : Z) (retries : list nat) (n : nat)
    (r : response) :
  let o := make_retry_from net url n_retries delay_seconds retries n in
  value o = Ok (Some r) ->
  (n < requests o)%nat
  /\ net (requests o - 1)%nat url = Responded r
  /\ exists evs, events o = evs ++ [Request "get" url].
Proof.
  revert n. induction retries as [| retry retries IH]; intros n.
  - discriminate.
  - cbv zeta. rewrite make_retry_from_cons. cbv zeta.
    assert (Step : forall pre,
               value (make_retry_from net url n_retries delay_seconds retries (S n))
               = Ok (Some r) ->
               (n < requests (make_retry_from net url n_retries delay_seconds
                                retries (S n)))%nat
               /\ net (requests (make_retry_from net url n_retries delay_seconds
                                   retries (S n)) - 1)%nat url = Responded r
               /\ exists evs,
                   pre ++ events (make_retry_from net url n_retries delay_seconds
                                    retries (S n))
                   = evs ++ [Request "get" url]).
    { intros pre H. destruct (IH (S n) H) as (L & N & evs & E).
      split; [lia|]. split; [exact N|].
      exists (pre ++ evs). now rewrite E, app_assoc. }
    destruct (net n url) as [e | r'] eqn:N.
    + cbn [value requests events]. intros H.
      apply (Step [Request "get" url; Log Info (MsgException e);
                   Log Info (MsgSecondsBeforeNextRetry
                               (delay_seconds * 2 ^ Z.of_nat retry));
                   Sleep (delay_seconds * 2 ^ Z.of_nat retry)] H).
    + destruct (negb (Response.status_code r' =? 200)
                && negb (str_in NO_RATE_TEXT (Response.text r'))).
      * cbn [value requests events]. intros H.
        apply (Step [Request "get" url;
                     Log Info (MsgResponseURL (Response.url r'));
                     Log Info (MsgResponseStatusCode (Response.status_code r'));
                     Log Info (MsgResponseText (Response.text r'));
                     Log Info (MsgSecondsBeforeNextRetry
                                 (delay_seconds * 2 ^ Z.of_nat retry));
                     Sleep (delay_seconds * 2 ^ Z.of_nat retry)] H).
      * destruct (str_in NO_RATE_TEXT (Response.text r')); [discriminate|].
        cbn [value requests events]. intros H. injection H as <-.
        split; [lia|]. split.
        -- now replace (S n - 1)%nat with n by lia.
        -- exists []. reflexivity.
Qed.

(** X1.  A response that [make_retry] returns is the answer to its last
    request, which is its last event: nothing is logged or slept after it.  It
    has status 200, it lacks the text of a day without a rate, and it is
    truthy, so that line 124 takes it. *)
Theorem make_retry_returns_success (net : network) (url : string)
    (n_retries : nat) (delay_seconds : Z) (n : nat) (r : response) :
  let o := make_retry net url n_retries delay_seconds n in
  value o = Ok (Some r) ->
  Response.status_code r = 200
  /\ str_in NO_RATE_TEXT (Response.text r) = false
  /\ Response.ok r = true
  /\ (n < requests o <= n + n_retries)%nat
  /\ net (requests o - 1)%nat url = Responded r
  /\ exists evs, events o = evs ++ [Request "get" url].
Proof.
  cbv zeta. unfold make_retry. intros H.
  destruct (make_retry_from_some net url n_retries delay_seconds _ n r H)
    as (_ & S200 & T).
  destruct (make_retry_from_last_request net url n_retries delay_seconds _ n r H)
    as (L & N & E).
  pose proof (make_retry_from_requests net url n_retries delay_seconds
                (seq 0 n_retries) n) as R.
  cbv zeta in R. destruct R as (R1 & R2 & _). rewrite length_seq in R2.
  repeat split; auto; try lia.
  unfold Response.ok. rewrite S200. reflexivity.
Qed.

Lemma make_retry_returns_success_witness :
  Response.status_code (rates_response "u") = 200
  /\ exists evs,
      events (make_retry net_rates "u" N_RETRIES DELAY_SECONDS 0%nat)
      = evs ++ [Request "get" "u"].
Proof.
  destruct (make_retry_returns_success net_rates "u" N_RETRIES DELAY_SECONDS
              0%nat (rates_response "u") eq_refl)
    as (S200 & _ & _ & _ & _ & E).
  split; [exact S200 | exact E].
Defined.

Lemma total_app (xs ys : list Z) : total (xs ++ ys) = total xs + total ys.
Proof.
  unfold total. induction xs as [| x xs IH]; cbn [app fold_right]; [reflexivity|].
  rewrite IH. lia.
Qed.

(** The sum of the first [k] delays. *)
Lemma total_backoff (delay_seconds : Z) (k : nat) :
  total (map (fun i => delay_seconds * 2 ^ Z.of_nat i) (seq 0 k))
  = delay_seconds * (2 ^ Z.of_nat k - 1).
Proof.
  induction k as [| k IH].
  - cbn [seq map]. unfold total. cbn [fold_right Z.of_nat].
    rewrite Z.pow_0_r. lia.
  - rewrite seq_S, map_app, total_app, IH. cbn [Nat.add map].
    unfold total at 1. cbn [fold_right].
    rewrite Nat2Z.inj_succ, Z.pow_succ_r by lia. lia.
Qed.

Lemma make_retry_sleeps_total (net : network) (url : string)
    (n_retries : nat) (delay_seconds : Z) (n : nat) :
  let o := make_retry net url n_retries delay_seconds n in
  let k := List.length (sleeps (events o)) in
  (k <= n_retries)%nat
  /\ sleeps (events o)
     = map (fun i => delay_seconds * 2 ^ Z.of_nat i) (seq 0 k)
  /\ total (sleeps (events o)) = delay_seconds * (2 ^ Z.of_nat k - 1).
Proof.
  cbv zeta. unfold make_retry.
  pose proof (make_retry_from_requests net url n_retries delay_seconds
                (seq 0 n_retries) n) as R.
  cbv zeta in R. destruct R as (_ & R2 & R3 & _). rewrite length_seq in R2.
  pose proof (make_retry_from_sleeps net url n_retries delay_seconds 0%nat
                n_retries n) as S.
  cbv zeta in S.
  set (k := List.length
              (sleeps (events (make_retry_from net url n_retries delay_seconds
                                 (seq 0 n_retries) n)))) in *.
  split; [lia|]. split; [exact S|]. now rewrite S, total_backoff.
Qed.

(** X2.  The time a fetch sleeps is [delay_seconds * (2 ^ k - 1)] for its [k]
    sleeps, hence at most [delay_seconds * (2 ^ n_retries - 1)] whatever the
    network does: 10230 seconds with the constants of the program. *)
Theorem make_retry_sleeps_at_most (net : network) (url : string)
    (n_retries : nat) (delay_seconds : Z) (n : nat) :
  0 <= delay_seconds ->
  let o := make_retry net url n_retries delay_seconds n in
  let k := List.length (sleeps (events o)) in
  (k <= n_retries)%nat
  /\ total (sleeps (events o)) = delay_seconds * (2 ^ Z.of_nat k - 1)
  /\ total (sleeps (events o))
     <= delay_seconds * (2 ^ Z.of_nat n_retries - 1).
Proof.
  intros D. cbv zeta.
  pose proof (make_retry_sleeps_total net url n_retries delay_seconds n) as T.
  cbv zeta in T. destruct T as (K & _ & T).
  split; [exact K|]. split; [exact T|]. rewrite T.
  apply Z.mul_le_mono_nonneg_l; [exact D|].
  assert (2 ^ Z.of_nat (List.length
                          (sleeps (events (make_retry net url n_retries
                                             delay_seconds n))))
          <= 2 ^ Z.of_nat n_retries)
    by (apply Z.pow_le_mono_r; lia).
  lia.
Qed.

Lemma make_retry_sleeps_at_most_witness :
  total (sleeps (events (make_retry net_down "u" N_RETRIES DELAY_SECONDS 0%nat)))
  <= 10230.
Proof.
  destruct (make_retry_sleeps_at_most net_down "u" N_RETRIES DELAY_SECONDS 0%nat)
    as (_ & _ & H).
  - unfold DELAY_SECONDS. lia.
  - exact H.
Defined.

(** ** The events of a run, day by day *)

(** The URL of a day: the archive path with the year, the month and the day
    in four, two and two digits. *)
Lemma endpoint_of_eq (d : Date.date) :
  endpoint_of d
  = ("https://www.cbr-xml-daily.ru//archive//"
     ++ Date.four_digits (Date.year d) ++ "//"
     ++ Date.two_digits (Date.month d) ++ "//"
     ++ Date.two_digits (Date.day d) ++ "//daily_json.js")%string.
Proof. reflexivity. Qed.

Lemma sync_day_events_eq (net : network) (currencies : option (list string))
    (v : vars) (n : nat) (d : Date.date) :
  Date.fromisoformat (date_to_process v) = Some d ->
  events (sync_day net currencies v n) = day_events net d n.
Proof.
  intros P. rewrite (sync_day_eq net currencies v n d P). cbv zeta.
  cbn [events]. unfold day_events. now rewrite (fromisoformat_iso _ _ P).
Qed.

Lemma iterate_days_trace (net : network) (currencies : option (list string))
    (k : nat) (v : vars) (n : nat) (d : Date.date) :
  Date.fromisoformat (date_to_process v) = Some d ->
  exists j, (j <= k)%nat
            /\ days_trace net d j
                 (events (iterate k (sync_day net currencies) v n)).
Proof.
  revert v n d. induction k as [| k IH]; intros v n d P.
  - exists 0%nat. split; [lia | constructor].
  - cbn [iterate]. rewrite bind_eq.
    pose proof (sync_day_events_eq net currencies v n d P) as E.
    destruct (value (sync_day net currencies v n)) as [v1 | e |] eqn:Vd;
      cbn [events]; rewrite E.
    + destruct (sync_day_records net currencies v v1 n Vd)
        as (d' & P1 & _ & P' & _).
      assert (d' = d) by congruence. subst d'.
      destruct (IH v1 (requests (sync_day net currencies v n)) _ P')
        as (j & Hj & T).
      exists (S j). split; [lia|]. now constructor.
    + exists 1%nat. split; [lia|].
      rewrite <- (app_nil_r (day_events net d n)). repeat constructor.
    + exists 1%nat. split; [lia|].
      rewrite <- (app_nil_r (day_events net d n)). repeat constructor.
Qed.

(** The events of the loop of [do_sync] are those of the first days of the
    range. *)
Lemma run_loop_days_trace (net : network) (start stop : string)
    (currencies : currencies_arg) (n : nat) (a b : Date.date) :
  Date.fromisoformat start = Some a ->
  Date.fromisoformat stop = Some b ->
  exists j, (j <= List.length (dates_between a b))%nat
            /\ days_trace net a j
                 (events (run_loop net start stop currencies n)).
Proof.
  intros Pa Pb. rewrite (run_loop_iterate net start stop currencies a b n Pa Pb).
  now apply iterate_days_trace.
Qed.

Lemma run_loop_days_trace_any (net : network) (start stop : string)
    (currencies : currencies_arg) (n : nat) :
  exists d j, days_trace net d j (events (run_loop net start stop currencies n)).
Proof.
  destruct (Date.fromisoformat start) as [a |] eqn:Pa.
  - destruct (Date.fromisoformat stop) as [b |] eqn:Pb.
    + destruct (run_loop_days_trace net start stop currencies n a b Pa Pb)
        as (j & _ & T). eauto.
    + unfold run_loop.
      rewrite (sync_loop_bad_stop net _ stop _ _ n a) by auto.
      exists a, 0%nat. constructor.
  - unfold run_loop. rewrite sync_loop_bad_start by auto.
    exists (Date.mkdate 1 1 1), 0%nat. constructor.
Qed.

(** What [do_sync] does after its loop neither requests nor sleeps. *)
Lemma do_sync_events (net : network) (start stop : string)
    (currencies : currencies_arg) (n : nat) :
  exists out,
    events (do_sync net start stop currencies n)
    = check_event currencies
      :: events (run_loop net start stop currencies n) ++ out
    /\ Forall (fun e => is_write e || is_completion e = true) out.
Proof.
  rewrite do_sync_eq. cbv zeta.
  destruct (value (run_loop net start stop currencies n)) as [v | e |];
    cbn [events].
  - eexists. split; [reflexivity|]. apply finish_events.
  - exists []. now rewrite app_nil_r.
  - exists []. now rewrite app_nil_r.
Qed.

Lemma output_events_quiet (evs : list event) :
  Forall (fun e => is_write e || is_completion e = true) evs ->
  requested evs = [] /\ sleeps evs = [] /\ forall b, pace b evs = Some b.
Proof.
  induction 1 as [| e evs He _ (I1 & I2 & I3)]; [auto|].
  destruct e as [| | l [] | | |]; cbn in *; try discriminate; auto.
Qed.

Lemma check_event_quiet (currencies : currencies_arg) :
  requested [check_event currencies] = []
  /\ sleeps [check_event currencies] = []
  /\ forall b, pace b [check_event currencies] = Some b.
Proof. destruct currencies; auto. Qed.

Lemma pace_app (xs ys : list event) (b : bool) :
  pace b (xs ++ ys)
  = match pace b xs with
    | Some b' => pace b' ys
    | None => None
    end.
Proof.
  revert b. induction xs as [| [| | l [] | | |] xs IH]; intros b;
    cbn [app pace]; try apply IH; try reflexivity.
  destruct b; [apply IH | reflexivity].
Qed.

(** The requests, the sleeps and the pace of [do_sync] are those of its
    loop. *)
Lemma do_sync_quiet_ends (net : network) (start stop : string)
    (currencies : currencies_arg) (n : nat) :
  let o := do_sync net start stop currencies n in
  let l := run_loop net start stop currencies n in
  requested (events o) = requested (events l)
  /\ sleeps (events o) = sleeps (events l)
  /\ forall b, pace b (events o) = pace b (events l).
Proof.
  cbv zeta. destruct (do_sync_events net start stop currencies n) as (out & E & F).
  destruct (output_events_quiet out F) as (O1 & O2 & O3).
  destruct (check_event_quiet currencies) as (C1 & C2 & C3).
  rewrite E.
  change (check_event currencies :: ?x) with ([check_event currencies] ++ x).
  rewrite !requested_app, !sleeps_app, C1, C2, O1, O2, !app_nil_r.
  repeat split; try reflexivity.
  intros b0. cbn [app].
  change (check_event currencies :: ?x) with ([check_event currencies] ++ x).
  rewrite pace_app, C3, pace_app.
  destruct (pace b0 (events (run_loop net start stop currencies n)));
    [apply O3 | reflexivity].
Qed.

(** A fetch that starts after a sleep never requests twice in a row. *)
Lemma make_retry_from_pace (net : network) (url : string) (n_retries : nat)
    (delay_seconds : Z) (retries : list nat) (n : nat) :
  exists b,
    pace true (events (make_retry_from net url n_retries delay_seconds retries n))
    = Some b.
Proof.
  revert n. induction retries as [| retry retries IH]; intros n.
  - eexists. reflexivity.
  - rewrite make_retry_from_cons. cbv zeta.
    destruct (net n url) as [e | r]; [cbn [events pace]; apply IH|].
    destruct (negb _ && negb _); [cbn [events pace]; apply IH|].
    destruct (str_in _ _); eexists; reflexivity.
Qed.

Section DayByDay.

Variable net : network.

Lemma day_events_requests (d : Date.date) (n : nat) :
  (List.length (requested (day_events net d n)) <= 10)%nat
  /\ Forall (eq (endpoint_of d)) (requested (day_events net d n)).
Proof.
  unfold day_events. cbn [requested].
  pose proof (make_retry_from_requests net (endpoint_of d) N_RETRIES
                DELAY_SECONDS (seq 0 N_RETRIES) n) as R.
  cbv zeta in R. destruct R as (_ & R2 & _ & R4). rewrite length_seq in R2.
  split; [exact R2 | exact R4].
Qed.

Lemma day_events_sleeps (d : Date.date) (n : nat) :
  total (sleeps (day_events net d n)) <= 10232
  /\ Forall (fun s => 2 <= s) (sleeps (day_events net d n)).
Proof.
  unfold day_events. cbn [sleeps].
  pose proof (make_retry_sleeps_total net (endpoint_of d) N_RETRIES
                DELAY_SECONDS n) as T.
  cbv zeta in T. destruct T as (K & S & T).
  set (sl := sleeps (events (make_retry net (endpoint_of d) N_RETRIES
                               DELAY_SECONDS n))) in *.
  split.
  - change (total (2 :: sl)) with (2 + total sl).
    rewrite T. unfold DELAY_SECONDS, N_RETRIES in *.
    assert (2 ^ Z.of_nat (List.length sl) <= 2 ^ Z.of_nat 10)
      by (apply Z.pow_le_mono_r; lia).
    change (2 ^ Z.of_nat 10) with 1024 in *. lia.
  - constructor; [lia|]. rewrite S. apply Forall_forall.
    intros s Hs. apply in_map_iff in Hs. destruct Hs as (i & <- & _).
    unfold DELAY_SECONDS.
    assert (0 < 2 ^ Z.of_nat i) by (apply Z.pow_pos_nonneg; lia). lia.
Qed.

Lemma day_events_pace (d : Date.date) (n : nat) (b : bool) :
  exists b', pace b (day_events net d n) = Some b'.
Proof. unfold day_events. cbn [pace]. apply make_retry_from_pace. Qed.

Lemma days_trace_requests (d : Date.date) (j : nat) (evs : list event) :
  days_trace net d j evs ->
  (List.length (requested evs) <= 10 * j)%nat
  /\ Forall (fun u => exists x, In x (date_range d j) /\ u = endpoint_of x)
       (requested evs).
Proof.
  induction 1 as [d | d j n evs _ (I1 & I2)]; [split; [cbn; lia | constructor]|].
  destruct (day_events_requests d n) as (D1 & D2).
  rewrite requested_app, length_app. split; [lia|].
  apply Forall_app. split.
  - eapply Forall_impl; [| exact D2]. intros u <-.
    exists d. split; [now left | reflexivity].
  - eapply Forall_impl; [| exact I2]. intros u (x & Hx & ->).
    exists x. split; [now right | reflexivity].
Qed.

Lemma days_trace_sleeps (d : Date.date) (j : nat) (evs : list event) :
  days_trace net d j evs ->
  total (sleeps evs) <= 10232 * Z.of_nat j
  /\ Forall (fun s => 2 <= s) (sleeps evs).
Proof.
  induction 1 as [d | d j n evs _ (I1 & I2)];
    [split; [reflexivity | constructor]|].
  destruct (day_events_sleeps d n) as (D1 & D2).
  rewrite sleeps_app, total_app. split; [lia|].
  apply Forall_app. split; assumption.
Qed.

Lemma days_trace_pace (d : Date.date) (j : nat) (evs : list event) (b : bool) :
  days_trace net d j evs -> exists b', pace b evs = Some b'.
Proof.
  intros T. revert b. induction T as [d | d j n evs _ IH]; intros b.
  - eexists. reflexivity.
  - rewrite pace_app. destruct (day_events_pace d n b) as [b1 ->]. apply IH.
Qed.

(** The requests of a day: between 1 and 10, all to the URL of the day. *)
Lemma day_events_requests_eq (d : Date.date) (n : nat) :
  exists k, (1 <= k <= 10)%nat
            /\ requested (day_events net d n) = repeat (endpoint_of d) k.
Proof.
  destruct (day_events_requests d n) as (L & F).
  exists (List.length (requested (day_events net d n))).
  split; [| exact (Forall_eq_repeat F)].
  split; [| exact L].
  unfold day_events, make_retry. cbn [requested].
  change (seq 0 N_RETRIES) with (0%nat :: seq 1 9).
  destruct (make_retry_from_first_request net (endpoint_of d) N_RETRIES
              DELAY_SECONDS 0%nat (seq 1 9) n) as (rest & ->).
  cbn [requested List.length]. lia.
Qed.

(** The sleeps of a day: 2 seconds, then the delays of its fetch. *)
Lemma day_events_sleeps_eq (d : Date.date) (n : nat) :
  exists k, (k <= 10)%nat
            /\ sleeps (day_events net d n)
               = 2 :: map (fun i => 10 * 2 ^ Z.of_nat i) (seq 0 k).
Proof.
  pose proof (make_retry_sleeps_total net (endpoint_of d) N_RETRIES
                DELAY_SECONDS n) as T.
  cbv zeta in T. destruct T as (K & S & _).
  exists (List.length
            (sleeps (events (make_retry net (endpoint_of d) N_RETRIES
                               DELAY_SECONDS n)))).
  split; [exact K|]. unfold day_events. cbn [sleeps]. f_equal. exact S.
Qed.

Lemma day_events_visited (d : Date.date) (n : nat) :
  visited (day_events net d n) = [iso d].
Proof.
  unfold day_events. cbn [visited]. f_equal.
  apply fetch_events_visited, make_retry_from_events.
Qed.

Lemma days_trace_visited (d : Date.date) (j : nat) (evs : list event) :
  days_trace net d j evs -> visited evs = map iso (date_range d j).
Proof.
  induction 1 as [d | d j n evs _ IH]; [reflexivity|].
  rewrite visited_app, day_events_visited, IH. reflexivity.
Qed.

Lemma days_trace_requests_by_day (d : Date.date) (j : nat) (evs : list event) :
  days_trace net d j evs ->
  exists ks,
    List.length ks = j
    /\ Forall (fun k => (1 <= k <= 10)%nat) ks
    /\ requested evs
       = flat_map (fun xk => repeat (endpoint_of (fst xk)) (snd xk))
           (combine (date_range d j) ks).
Proof.
  induction 1 as [d | d j n evs _ (ks & L & F & R)].
  - exists []. repeat split; auto.
  - destruct (day_events_requests_eq d n) as (k & Hk & E).
    exists (k :: ks). cbn [List.length date_range combine flat_map fst snd].
    rewrite requested_app, E, R, L. repeat split; auto.
Qed.

Lemma days_trace_sleeps_by_day (d : Date.date) (j : nat) (evs : list event) :
  days_trace net d j evs ->
  exists ks,
    List.length ks = j
    /\ Forall (fun k => (k <= 10)%nat) ks
    /\ sleeps evs
       = flat_map (fun k => 2 :: map (fun i => 10 * 2 ^ Z.of_nat i) (seq 0 k))
           ks.
Proof.
  induction 1 as [d | d j n evs _ (ks & L & F & R)].
  - exists []. repeat split; auto.
  - destruct (day_events_sleeps_eq d n) as (k & Hk & E).
    exists (k :: ks). cbn [List.length flat_map].
    rewrite sleeps_app, E, R, L. repeat split; auto.
Qed.

End DayByDay.

(** ** The cost of a run *)

(** The loop of a run that ends well has gone through all the days. *)
Lemma run_loop_all_days (net : network) (start stop : string)
    (currencies : currencies_arg) (n : nat) (a b : Date.date) (j : nat) :
  Date.fromisoformat start = Some a ->
  Date.fromisoformat stop = Some b ->
  days_trace net a j (events (run_loop net start stop currencies n)) ->
  value (do_sync net start stop currencies n) = Ok tt ->
  j = List.length (dates_between a b).
Proof.
  intros Pa Pb T Ho.
  pose proof (run_loop_spec net start stop currencies a b n Pa Pb) as Sp.
  cbv zeta in Sp. destruct Sp as (_ & _ & (j' & _ & Vj & Cj) & _).
  rewrite (days_trace_visited net a j _ T) in Vj.
  apply (f_equal (@List.length string)) in Vj.
  rewrite !length_map, !date_range_length in Vj. rewrite Vj. apply Cj.
  rewrite do_sync_eq in Ho. cbv zeta in Ho.
  destruct (value (run_loop net start stop currencies n)); [eauto | |];
    discriminate.
Qed.

(** X3.  The requests of a run are those of its days in turn: for each day
    from [start] on, between 1 and 10 requests, all to the archive file of
    that day, and nothing else.  The days are those from [start] to [stop],
    all of them when the run ends well and the first of them when it
    raises; [start] is in the year 1000 or later. *)
Theorem run_requests_by_day (net : network) (start stop : string)
    (currencies : currencies_arg) (n : nat) (a b : Date.date) :
  Date.fromisoformat start = Some a ->
  Date.fromisoformat stop = Some b ->
  1000 <= Date.year a ->
  let o := do_sync net start stop currencies n in
  let days := dates_between a b in
  let url x :=
    ("https://www.cbr-xml-daily.ru//archive//"
     ++ Date.four_digits (Date.year x) ++ "//"
     ++ Date.two_digits (Date.month x) ++ "//"
     ++ Date.two_digits (Date.day x) ++ "//daily_json.js")%string in
  exists ks,
    (List.length ks <= List.length days)%nat
    /\ Forall (fun k => (1 <= k <= 10)%nat) ks
    /\ requested (events o)
       = flat_map (fun xk => repeat (url (fst xk)) (snd xk)) (combine days ks)
    /\ (value o = Ok tt -> List.length ks = List.length days)
    /\ (List.length (requested (events o)) <= 10 * List.length days)%nat.
Proof.
  intros Pa Pb _. cbv zeta.
  destruct (do_sync_quiet_ends net start stop currencies n) as (-> & _ & _).
  destruct (run_loop_days_trace net start stop currencies n a b Pa Pb)
    as (j & Hj & T).
  destruct (days_trace_requests_by_day net a j _ T) as (ks & L & F & R).
  destruct (days_trace_requests net a j _ T) as (R1 & _).
  exists ks. split; [lia|]. split; [exact F|]. split; [| split; [| lia]].
  - rewrite R, (combine_firstn_r (dates_between a b) ks), L.
    unfold dates_between in *. rewrite date_range_length in Hj.
    rewrite (firstn_date_range a j _ Hj).
    apply flat_map_ext. intros [x k]. cbn [fst snd].
    now rewrite endpoint_of_eq.
  - intros Ho. rewrite L.
    exact (run_loop_all_days net start stop currencies n a b j Pa Pb T Ho).
Qed.

Lemma run_requests_by_day_witness :
  exists ks,
    requested (events (do_sync net_busy_then_rates "2023-10-05" "2023-10-06"
                         CurrenciesNone 0%nat))
    = flat_map
        (fun xk =>
           repeat
             ("https://www.cbr-xml-daily.ru//archive//"
              ++ Date.four_digits (Date.year (fst xk)) ++ "//"
              ++ Date.two_digits (Date.month (fst xk)) ++ "//"
              ++ Date.two_digits (Date.day (fst xk)) ++ "//daily_json.js")%string
             (snd xk))
        (combine [Date.mkdate 2023 10 5; Date.mkdate 2023 10 6] ks)
    /\ List.length ks = 2%nat.
Proof.
  destruct (run_requests_by_day net_busy_then_rates "2023-10-05" "2023-10-06"
              CurrenciesNone 0%nat (Date.mkdate 2023 10 5)
              (Date.mkdate 2023 10 6) eq_refl eq_refl)
    as (ks & _ & _ & R & L & _).
  - cbn [Date.year]. lia.
  - exists ks. split; [exact R|]. apply L. vm_compute. reflexivity.
Defined.

(** X4.  The sleeps of a run are those of its days in turn: for each day,
    the 2 seconds before it, then the delays of its fetch, 10, 20, 40 and so
    on, ten of them at most; hence 10232 seconds a day at most. *)
Theorem run_sleeps_by_day (net : network) (start stop : string)
    (currencies : currencies_arg) (n : nat) (a b : Date.date) :
  Date.fromisoformat start = Some a ->
  Date.fromisoformat stop = Some b ->
  let o := do_sync net start stop currencies n in
  let days := dates_between a b in
  exists ks,
    (List.length ks <= List.length days)%nat
    /\ Forall (fun k => (k <= 10)%nat) ks
    /\ sleeps (events o)
       = flat_map (fun k => 2 :: map (fun i => 10 * 2 ^ Z.of_nat i) (seq 0 k))
           ks
    /\ (value o = Ok tt -> List.length ks = List.length days)
    /\ total (sleeps (events o)) <= 10232 * Z.of_nat (List.length days).
Proof.
  intros Pa Pb. cbv zeta.
  destruct (do_sync_quiet_ends net start stop currencies n) as (_ & -> & _).
  destruct (run_loop_days_trace net start stop currencies n a b Pa Pb)
    as (j & Hj & T).
  destruct (days_trace_sleeps_by_day net a j _ T) as (ks & L & F & R).
  destruct (days_trace_sleeps net a j _ T) as (S1 & _).
  exists ks. split; [lia|]. split; [exact F|]. split; [exact R|].
  split; [| lia].
  intros Ho. rewrite L.
  exact (run_loop_all_days net start stop currencies n a b j Pa Pb T Ho).
Qed.

Lemma run_sleeps_by_day_witness :
  exists ks,
    sleeps (events (do_sync net_busy_then_rates "2023-10-05" "2023-10-06"
                      CurrenciesNone 0%nat))
    = flat_map (fun k => 2 :: map (fun i => 10 * 2 ^ Z.of_nat i) (seq 0 k)) ks
    /\ List.length ks = 2%nat.
Proof.
  destruct (run_sleeps_by_day net_busy_then_rates "2023-10-05" "2023-10-06"
              CurrenciesNone 0%nat (Date.mkdate 2023 10 5)
              (Date.mkdate 2023 10 6) eq_refl eq_refl)
    as (ks & _ & _ & R & L & _).
  exists ks. split; [exact R|]. apply L. vm_compute. reflexivity.
Defined.

(** X5.  Whatever its arguments and the network, [do_sync] sleeps before its
    first request and between any two requests, and never less than 2 seconds
    at a time. *)
Theorem requests_are_paced (net : network) (start stop : string)
    (currencies : currencies_arg) (n : nat) :
  let o := do_sync net start stop currencies n in
  (exists b, pace false (events o) = Some b)
  /\ Forall (fun s => 2 <= s) (sleeps (events o)).
Proof.
  cbv zeta.
  destruct (do_sync_quiet_ends net start stop currencies n) as (_ & -> & P).
  rewrite P.
  destruct (run_loop_days_trace_any net start stop currencies n) as (d & j & T).
  split; [now apply (days_trace_pace net d j)
         | now apply (days_trace_sleeps net d j)].
Qed.

(** ** What a run can raise *)

Lemma fill_from_currencies_raises (valutes : pyvalue) (codes : list string)
    (record : dict) (e : exn) :
  fill_from_currencies valutes codes record = Raise e ->
  exists v, e = AttributeError v.
Proof.
  revert record. induction codes as [| c codes IH]; intros record.
  - discriminate.
  - cbn [fill_from_currencies].
    destruct valutes as [| | | | | | vs];
      try (intros E; injection E as <-; eauto).
    set (entry := match dict_get vs c with Some x => x | None => PyDict [] end).
    destruct entry as [| | | | | | d]; cbn [get_field rbind];
      try (intros E; injection E as <-; eauto).
    apply IH.
Qed.

Lemma build_record_raises (currencies : option (list string)) (s : string)
    (valutes : pyvalue) (e : exn) :
  build_record currencies s valutes = Raise e -> is_body_error e = true.
Proof.
  unfold build_record. destruct (currencies_truthy currencies).
  - intros E. apply fill_from_currencies_raises in E. now destruct E as [v ->].
  - destruct valutes as [| | | | | | vs];
      try (intros E; injection E as <-; reflexivity).
    rewrite fill_from_keys_currencies by auto.
    intros E. apply fill_from_currencies_raises in E. now destruct E as [v ->].
Qed.

(** Lines 124-136 raise on a body that is not what they expect, and on
    nothing else. *)
Lemma handle_response_raises (currencies : option (list string))
    (resp : option response) (v : vars) (e : exn) :
  handle_response currencies resp v = Raise e -> is_body_error e = true.
Proof.
  unfold handle_response. destruct resp as [r |]; [| discriminate].
  destruct (Response.ok r); [| discriminate].
  destruct (Response.json r) as [[| | | | | | body] |];
    try (intros E; injection E as <-; reflexivity).
  destruct (dict_get body "Valute") as [valutes |]; [| discriminate].
  destruct (truthy valutes); [| discriminate].
  destruct (build_record currencies (date_to_process v) valutes) eqn:B;
    cbn [rbind]; try discriminate.
  intros E. injection E as <-. now apply build_record_raises in B.
Qed.

(** The next day of a date that parses is missing for 9999-12-31 only. *)
Lemma day_after_raises (s : string) (d : Date.date) (e : exn) :
  Date.fromisoformat s = Some d ->
  day_after s = Raise e ->
  e = OverflowError /\ Date.toordinal d = Date.MAXORDINAL.
Proof.
  intros P. unfold day_after, parse_date, next_day, Date.add_one_day.
  rewrite P. cbn [rbind].
  pose proof (DateFacts.toordinal_bounds d (fromisoformat_valid _ _ P)).
  destruct (Z.leb_spec (Date.toordinal d + 1) Date.MAXORDINAL);
    cbn [rbind]; [discriminate|].
  intros E. injection E as <-. split; [reflexivity | lia].
Qed.

Lemma day_after_raises_any (s : string) (e : exn) :
  day_after s = Raise e -> e = ValueError s \/ e = OverflowError.
Proof.
  destruct (Date.fromisoformat s) as [d |] eqn:P.
  - intros E. right. now destruct (day_after_raises s d e P E).
  - unfold day_after, parse_date. rewrite P. cbn [rbind].
    intros E. injection E as <-. now left.
Qed.

Section Raising.

Variable net : network.

Lemma sync_day_raises (cur : option (list string)) (v : vars) (n : nat)
    (d : Date.date) (e : exn) :
  Date.fromisoformat (date_to_process v) = Some d ->
  value (sync_day net cur v n) = Raise e ->
  is_body_error e = true
  \/ (e = OverflowError /\ Date.toordinal d = Date.MAXORDINAL).
Proof.
  intros P. rewrite (sync_day_eq net cur v n d P). cbv zeta. cbn [value].
  destruct (make_retry_from_value net (endpoint_of d) N_RETRIES DELAY_SECONDS
              (seq 0 N_RETRIES) n) as [resp E].
  unfold make_retry. rewrite E. cbn [rbind].
  destruct (handle_response cur resp v) as [v1 | e1 |] eqn:Hr; cbn [rbind];
    [| | discriminate].
  - rewrite (handle_response_date _ _ _ _ Hr).
    destruct (day_after (date_to_process v)) as [next | e1 |] eqn:Da;
      cbn [rbind]; try discriminate.
    intros Q. injection Q as <-. right. exact (day_after_raises _ d e1 P Da).
  - intros Q. injection Q as <-. left. exact (handle_response_raises _ _ _ _ Hr).
Qed.

Lemma iterate_sync_day_raises (cur : option (list string)) (k : nat) (v : vars)
    (n : nat) (d : Date.date) (e : exn) :
  Date.fromisoformat (date_to_process v) = Some d ->
  value (iterate k (sync_day net cur) v n) = Raise e ->
  is_body_error e = true
  \/ (e = OverflowError
      /\ Date.MAXORDINAL < Date.toordinal d + Z.of_nat k).
Proof.
  revert v n d. induction k as [| k IH]; intros v n d P.
  - discriminate.
  - cbn [iterate]. rewrite bind_eq.
    destruct (value (sync_day net cur v n)) as [v1 | e1 |] eqn:Vd;
      cbn [value]; [| | discriminate].
    + destruct (sync_day_records net cur v v1 n Vd) as (d' & P1 & _ & P' & _).
      assert (d' = d) by congruence. subst d'.
      intros H. apply (IH v1 _ _ P') in H.
      rewrite DateFacts.toordinal_tomorrow in H
        by exact (fromisoformat_valid _ _ P).
      destruct H as [H | [H1 H2]]; [now left | right; split; [assumption | lia]].
    + intros Q. injection Q as <-.
      destruct (sync_day_raises cur v n d e1 P Vd) as [H | [H1 H2]];
        [now left | right; split; [assumption | lia]].
Qed.

(** The loop of [do_sync] raises on a date that does not parse, on a bad
    body, and on the day 9999-12-31, which has no next day. *)
Lemma run_loop_raises (start stop : string) (currencies : currencies_arg)
    (n : nat) (e : exn) :
  value (run_loop net start stop currencies n) = Raise e ->
  (Date.fromisoformat start = None /\ e = ValueError start)
  \/ (Date.fromisoformat stop = None /\ e = ValueError stop)
  \/ exists a b,
      Date.fromisoformat start = Some a
      /\ Date.fromisoformat stop = Some b
      /\ (is_body_error e = true
          \/ (e = OverflowError /\ Date.toordinal b = Date.MAXORDINAL)).
Proof.
  destruct (Date.fromisoformat start) as [a |] eqn:Pa.
  - destruct (Date.fromisoformat stop) as [b |] eqn:Pb.
    + rewrite (run_loop_iterate net start stop currencies a b n Pa Pb).
      intros H. right. right. exists a, b. split; [reflexivity|].
      split; [reflexivity|].
      apply (iterate_sync_day_raises _ _ (mkvars start [] None) _ a e Pa) in H.
      destruct H as [H | [H1 H2]]; [now left | right].
      split; [assumption|].
      unfold dates_between in H2. rewrite date_range_length in H2.
      pose proof (DateFacts.toordinal_bounds a (fromisoformat_valid _ _ Pa)).
      pose proof (DateFacts.toordinal_bounds b (fromisoformat_valid _ _ Pb)).
      lia.
    + unfold run_loop.
      rewrite (sync_loop_bad_stop net _ stop _ _ n a) by auto.
      intros E. injection E as <-. right. left. auto.
  - unfold run_loop. rewrite sync_loop_bad_start by auto.
    intros E. injection E as <-. left. auto.
Qed.

End Raising.

(** A record built by lines 127-135 has a [date]. *)
Lemma built_on_has_date (net : network) (currencies : option (list string))
    (s : string) (r : dict) :
  built_on net currencies s r -> exists x, dict_get r "date" = Some x.
Proof.
  intros (m & u & resp & body & valutes & _ & _ & _ & _ & _ & T & B).
  destruct (build_record_ok_dict _ _ _ _ T B) as (vs & -> & _).
  rewrite build_record_dict in B.
  assert (I : In "date" (keys r)).
  { apply (fill_keys vs _ _ _ "date" B). left. now left. }
  apply dict_get_keys in I. destruct (dict_get r "date"); [eauto | congruence].
Qed.

(** Lines 142-144 raise on a record whose [date] is not the text of a day
    that has a next day. *)
Lemma write_all_raises (recs : list dict) (st : state) (n : nat) (e : exn) :
  value (write_all recs st n) = Raise e ->
  exists r,
    In r recs
    /\ match dict_get r "date" with
       | None => e = KeyError "date"
       | Some (PyStr s) => day_after s = Raise e
       | Some other => e = TypeError other
       end.
Proof.
  revert st. induction recs as [| r rest IH]; intros st.
  - discriminate.
  - rewrite write_all_cons.
    destruct (dict_get r "date") as [[| | | | s | |] |] eqn:D;
      try (cbn [value]; intros E; injection E as <-; exists r;
           split; [now left | now rewrite D]).
    destruct (day_after s) as [next | e1 |] eqn:A; cbv zeta; cbn [value].
    + intros H. destruct (IH _ H) as (r' & Hr' & M). exists r'.
      split; [now right | exact M].
    + intros E. injection E as <-. exists r. split; [now left|].
      now rewrite D.
    + discriminate.
Qed.

(** How [do_sync] raises: in its loop, or while it writes the records. *)
Lemma do_sync_raise_inv (net : network) (start stop : string)
    (currencies : currencies_arg) (n : nat) (e : exn) :
  value (do_sync net start stop currencies n) = Raise e ->
  (value (run_loop net start stop currencies n) = Raise e
   /\ events (do_sync net start stop currencies n)
      = check_event currencies :: events (run_loop net start stop currencies n))
  \/ exists recs r,
      accumulated net start stop currencies n = Some recs
      /\ In r recs
      /\ match dict_get r "date" with
         | None => False
         | Some (PyStr s) => day_after s = Raise e
         | Some other => e = TypeError other
         end.
Proof.
  rewrite do_sync_eq. cbv zeta. unfold accumulated.
  destruct (value (run_loop net start stop currencies n)) as [v | e1 |] eqn:Vl;
    cbn [value events]; [| intros E; injection E as <-; now left | discriminate].
  intros H. right.
  destruct (run_loop_ok_dates net start stop currencies n v Vl)
    as (a & b & Pa & Pb).
  pose proof (run_loop_spec net start stop currencies a b n Pa Pb) as Sp.
  cbv zeta in Sp. destruct Sp as (_ & _ & _ & Sp).
  destruct (Sp v Vl) as (Bk & R & F).
  destruct (data v) as [| r0 rs] eqn:D.
  { rewrite finish_empty in H by exact D. discriminate. }
  rewrite <- D in *.
  assert (Hne : data v <> []) by congruence.
  rewrite (finish_nonempty _ v _ (last (data v) [])) in H;
    [| exact Hne | rewrite R; now apply latest_last].
  cbv zeta in H.
  destruct (value (write_all (data v) (mkstate start stop)
                     (requests (run_loop net start stop currencies n))))
    as [st1 | e1 |] eqn:W; cbn [value] in H.
  - exfalso.
    pose proof (write_all_spec (data v) (mkstate start stop)
                  (requests (run_loop net start stop currencies n))) as Ws.
    cbv zeta in Ws. destruct Ws as (_ & _ & Ws).
    destruct (Ws st1 W) as (_ & Wstop & _). cbn [date_stop] in Wstop.
    rewrite Wstop in H.
    assert (K : (0 < List.length (dates_between a b))%nat).
    { rewrite Forall_forall in F.
      destruct (F r0) as (x & Hx & _); [rewrite D; now left|].
      destruct (dates_between a b); [contradiction | cbn; lia]. }
    unfold dates_between in K, Bk. rewrite date_range_length in K, Bk.
    rewrite (day_after_ok stop b Pb) in H by lia. discriminate.
  - injection H as <-. apply write_all_raises in W.
    destruct W as (r & Hr & M). exists (data v), r.
    split; [reflexivity|]. split; [exact Hr|].
    rewrite Forall_forall in F. destruct (F r Hr) as (x & _ & Hb).
    destruct (built_on_has_date _ _ _ _ Hb) as [y Dy].
    rewrite Dy in *. exact M.
  - discriminate.
Qed.

(** X6.  Whatever the dates and the network, for [currencies] that is
    [None], a list of strings or no list, [do_sync] never raises
    [UnboundLocalError] and never [KeyError].  Line 141 reads [record],
    which only the loop assigns, and line 144 reads [record['date']]:
    [record] is bound when [data] is not empty, and every record has a
    [date].  Lines 134-135 index [valutes] by its own keys.  An exception
    that leaves [do_sync] is a [ValueError] or [TypeError] of
    [date.fromisoformat], the [OverflowError] of the day after 9999-12-31, or
    the error of a body that is not as expected. *)
Theorem do_sync_exceptions (net : network) (start stop : string)
    (currencies : currencies_arg) (n : nat) (e : exn) :
  value (do_sync net start stop currencies n) = Raise e ->
  ((exists s, e = ValueError s)
   \/ (exists v, e = TypeError v)
   \/ e = OverflowError
   \/ is_body_error e = true)
  /\ (forall name, e <> UnboundLocalError name)
  /\ (forall k, e <> KeyError k).
Proof.
  intros H.
  assert (C : (exists s, e = ValueError s)
              \/ (exists v, e = TypeError v)
              \/ e = OverflowError
              \/ is_body_error e = true).
  { apply do_sync_raise_inv in H.
    destruct H as [[H _] | (recs & r & _ & _ & M)].
    - apply run_loop_raises in H.
      destruct H as [[_ ->] | [[_ ->] | (a & b & _ & _ & [B | [-> _]])]];
        eauto.
    - destruct (dict_get r "date") as [[| | | | s | |] |];
        try contradiction; try (subst e; eauto).
      apply day_after_raises_any in M. destruct M as [-> | ->]; eauto. }
  split; [exact C|].
  split; intros x ->;
    destruct C as [[s C] | [[v C] | [C | C]]]; discriminate.
Qed.

Lemma do_sync_exceptions_witness :
  is_body_error (JSONDecodeError "<html>maintenance</html>") = true
  /\ forall name,
      JSONDecodeError "<html>maintenance</html>" <> UnboundLocalError name.
Proof.
  destruct (do_sync_exceptions net_html "2023-10-05" "2023-10-05" CurrenciesNone
              0%nat (JSONDecodeError "<html>maintenance</html>"))
    as (_ & U & _).
  - vm_compute. reflexivity.
  - split; [reflexivity | exact U].
Defined.

Lemma last_day_text (stop : string) (b : Date.date) :
  Date.fromisoformat stop = Some b ->
  Date.toordinal b = Date.MAXORDINAL ->
  stop = "9999-12-31"%string.
Proof.
  intros Pb O. rewrite <- (fromisoformat_iso _ _ Pb).
  assert (E : b = Date.mkdate 9999 12 31).
  { apply DateFacts.toordinal_inj;
      [exact (fromisoformat_valid _ _ Pb) | reflexivity | rewrite O; reflexivity]. }
  rewrite E. reflexivity.
Qed.

Lemma check_event_writes (currencies : currencies_arg) :
  writes [check_event currencies] = [].
Proof. destruct currencies; reflexivity. Qed.

(** X7.  With dates that parse, [start] in the year 1000 or later, no code
    named [date] and [currencies] that is [None], a list of strings or no
    list, [do_sync] raises only on a body that is not as expected or, when
    [stop] is 9999-12-31, on the day after it; and a run that raises has
    written nothing: no schema, no record and no state, even when the days
    before gave records. *)
Theorem raise_writes_nothing (net : network) (start stop : string)
    (currencies : currencies_arg) (n : nat) (a b : Date.date) (e : exn) :
  Date.fromisoformat start = Some a ->
  Date.fromisoformat stop = Some b ->
  1000 <= Date.year a ->
  date_is_not_a_code net (checked currencies) ->
  value (do_sync net start stop currencies n) = Raise e ->
  (is_body_error e = true
   \/ (e = OverflowError /\ stop = "9999-12-31"%string))
  /\ writes (events (do_sync net start stop currencies n)) = [].
Proof.
  intros Pa Pb _ Hcode H.
  pose proof (fromisoformat_valid _ _ Pa) as Va.
  pose proof (fromisoformat_valid _ _ Pb) as Vb.
  apply do_sync_raise_inv in H.
  destruct H as [[H E] | (recs & r & Hacc & Hr & M)].
  - split.
    + apply run_loop_raises in H.
      destruct H as [[N _] | [[N _] | (a' & b' & Pa' & Pb' & C)]];
        try congruence.
      assert (b' = b) by congruence. subst b'.
      destruct C as [C | [C O]]; [now left | right].
      split; [exact C | exact (last_day_text stop b Pb O)].
    + rewrite E.
      change (check_event currencies :: ?l) with ([check_event currencies] ++ l).
      rewrite writes_app, check_event_writes. cbn [app].
      apply loop_events_writes, run_loop_events.
  - exfalso. unfold accumulated in Hacc.
    destruct (value (run_loop net start stop currencies n)) as [v | |] eqn:Vl;
      try discriminate.
    injection Hacc as Hd.
    pose proof (run_loop_spec net start stop currencies a b n Pa Pb) as Sp.
    cbv zeta in Sp. destruct Sp as (_ & _ & _ & Sp).
    destruct (Sp v Vl) as (Bk & _ & F). rewrite Hd in F.
    rewrite Forall_forall in F. destruct (F r Hr) as (x & Hx & Hb).
    rewrite (built_on_date _ _ _ _ Hcode Hb) in M.
    assert (K : (0 < List.length (dates_between a b))%nat).
    { destruct (dates_between a b); [contradiction | cbn; lia]. }
    unfold dates_between in K, Bk. rewrite date_range_length in K, Bk.
    apply (dates_between_In a b Va Vb) in Hx. destruct Hx as (Vx & _ & Lx).
    rewrite DateFacts.leb_toordinal, Z.leb_le in Lx by assumption.
    rewrite (day_after_ok (iso x) x) in M;
      [discriminate | now apply DateFacts.fromisoformat_strftime | lia].
Qed.

Lemma raise_writes_nothing_witness :
  writes (events (do_sync net_html "2023-10-05" "2023-10-06" CurrenciesNone
                    0%nat))
  = [].
Proof.
  destruct (raise_writes_nothing net_html "2023-10-05" "2023-10-06"
              CurrenciesNone 0%nat (Date.mkdate 2023 10 5)
              (Date.mkdate 2023 10 6)
              (JSONDecodeError "<html>maintenance</html>"))
    as (_ & W).
  - reflexivity.
  - reflexivity.
  - cbn [Date.year]. lia.
  - intros m u r body vs N J. injection N as <-. discriminate J.
  - vm_compute. reflexivity.
  - exact W.
Defined.

Lemma loop_events_no_state (evs : list event) (s : state) :
  Forall (fun e => is_loop_event e = true) evs -> ~ In (WriteState s) evs.
Proof.
  intros F H. rewrite Forall_forall in F. apply F in H. discriminate H.
Qed.

Lemma write_record_events_no_state (recs : list dict) (s : state) :
  ~ In (WriteState s) (map write_record recs).
Proof.
  intros H. apply in_map_iff in H. destruct H as (r & Q & _). discriminate Q.
Qed.

(** A state among the events is the one of line 147: the loop ended well
    with records, they were all written, and the day after [stop] exists. *)
Lemma written_state_inv (net : network) (start stop : string)
    (currencies : currencies_arg) (n : nat) (s : state) :
  In (WriteState s) (events (do_sync net start stop currencies n)) ->
  exists v st1 next pre,
    value (run_loop net start stop currencies n) = Ok v
    /\ data v <> []
    /\ value (write_all (data v) (mkstate start stop)
                (requests (run_loop net start stop currencies n))) = Ok st1
    /\ day_after (date_stop st1) = Ok next
    /\ s = mkstate (date_start st1) next
    /\ events (do_sync net start stop currencies n)
       = pre ++ [WriteState s; Log Info (MsgCompleted (List.length (data v)))]
    /\ (forall s', ~ In (WriteState s') pre)
    /\ value (do_sync net start stop currencies n) = Ok tt.
Proof.
  rewrite do_sync_eq. cbv zeta.
  pose proof (run_loop_events net start stop currencies n) as Fl.
  assert (Nc : forall s', check_event currencies <> WriteState s')
    by (destruct currencies; discriminate).
  destruct (value (run_loop net start stop currencies n)) as [v | e |] eqn:Vl;
    cbn [events value].
  - destruct (run_loop_ok_dates net start stop currencies n v Vl)
      as (a & b & Pa & Pb).
    pose proof (run_loop_spec net start stop currencies a b n Pa Pb) as Sp.
    cbv zeta in Sp. destruct Sp as (_ & _ & _ & Sp).
    destruct (Sp v Vl) as (_ & R & _).
    destruct (data v) as [| r0 rs] eqn:D.
    { rewrite finish_empty by exact D. cbn [events].
      intros [H | H]; [now apply Nc in H|].
      apply in_app_or in H. destruct H as [H | [H | []]];
        [now apply loop_events_no_state in H | discriminate H]. }
    rewrite <- D in *.
    assert (Hne : data v <> []) by congruence.
    rewrite (finish_nonempty _ v _ (last (data v) []));
      [| exact Hne | rewrite R; now apply latest_last].
    cbv zeta.
    destruct (write_all_spec (data v) (mkstate start stop)
                (requests (run_loop net start stop currencies n)))
      as (_ & (j & Ew) & _).
    assert (Nw : forall s', ~ In (WriteState s')
                              (events (write_all (data v) (mkstate start stop)
                                         (requests (run_loop net start stop
                                                      currencies n)))))
      by (intros s'; rewrite Ew; apply write_record_events_no_state).
    assert (Npre : forall s',
               ~ In (WriteState s')
                   (check_event currencies
                    :: events (run_loop net start stop currencies n)
                    ++ WriteSchema STREAM (make_schema (last (data v) [])) "date"
                    :: events (write_all (data v) (mkstate start stop)
                                 (requests (run_loop net start stop
                                              currencies n))))).
    { intros s' [H | H]; [now apply Nc in H|].
      apply in_app_or in H. destruct H as [H | [H | H]];
        [now apply loop_events_no_state in H | discriminate H
        | now apply Nw in H]. }
    destruct (value (write_all (data v) (mkstate start stop) _))
      as [st1 | e |] eqn:W;
      [destruct (day_after (date_stop st1)) as [next | e |] eqn:A | |];
      cbn [events value]; intros H;
      try (exfalso; apply (Npre s); exact H).
    exists v, st1, next,
      (check_event currencies
       :: events (run_loop net start stop currencies n)
       ++ WriteSchema STREAM (make_schema (last (data v) [])) "date"
       :: events (write_all (data v) (mkstate start stop)
                    (requests (run_loop net start stop currencies n)))).
    assert (Es : s = mkstate (date_start st1) next).
    { destruct H as [H | H]; [now apply Nc in H|].
      apply in_app_or in H. destruct H as [H | [H | H]];
        [now apply loop_events_no_state in H | discriminate H |].
      apply in_app_or in H. destruct H as [H | [H | [H | []]]];
        [now apply Nw in H | congruence | discriminate H]. }
    subst s. repeat split; auto.
    cbn [app]. rewrite <- app_assoc. reflexivity.
  - intros [H | H]; [now apply Nc in H | now apply loop_events_no_state in H].
  - intros [H | H]; [now apply Nc in H | now apply loop_events_no_state in H].
Qed.

(** X8.  Whatever the arguments and the network, a state is written by a run
    that ends well only, once, after everything else it writes; the line that
    tells the number of rows follows it and ends the run.  A run that raises
    leaves no state behind. *)
Theorem state_written_last (net : network) (start stop : string)
    (currencies : currencies_arg) (n : nat) (s : state) :
  let o := do_sync net start stop currencies n in
  In (WriteState s) (events o) ->
  value o = Ok tt
  /\ exists pre recs,
      accumulated net start stop currencies n = Some recs
      /\ recs <> []
      /\ events o
         = pre ++ [WriteState s; Log Info (MsgCompleted (List.length recs))]
      /\ forall s', ~ In (WriteState s') pre.
Proof.
  cbv zeta. intros H. apply written_state_inv in H.
  destruct H as (v & st1 & next & pre & Vl & Hne & _ & _ & _ & E & Npre & Ho).
  split; [exact Ho|]. exists pre, (data v). unfold accumulated. rewrite Vl.
  repeat split; auto.
Qed.

Lemma state_written_last_witness :
  value (do_sync net_rates "2023-10-05" "2023-10-05" (CurrenciesList ["USD"])
           0%nat)
  = Ok tt.
Proof.
  destruct (state_written_last net_rates "2023-10-05" "2023-10-05"
              (CurrenciesList ["USD"]) 0%nat
              (mkstate "2023-10-06" "2023-10-06")) as (H & _).
  - vm_compute. auto 20.
  - exact H.
Defined.

(** ** The records of a run *)

Lemma keys_dict_set_eq (d : dict) (k : string) (v : pyvalue) :
  keys (dict_set d k v) = add_key (keys d) k.
Proof.
  unfold add_key. induction d as [| [k0 v0] d IH]; cbn [dict_set keys map fst].
  - destruct (in_dec string_dec k []) as [[] | _]. reflexivity.
  - fold (keys d). fold (keys (dict_set d k v)).
    destruct (String.eqb_spec k0 k) as [-> | N]; cbn [map fst].
    + fold (keys d).
      destruct (in_dec string_dec k (k :: keys d)) as [_ | N];
        [reflexivity | exfalso; apply N; now left].
    + fold (keys (dict_set d k v)). rewrite IH.
      destruct (in_dec string_dec k (keys d)) as [I | I];
        destruct (in_dec string_dec k (k0 :: keys d)) as [I' | I'];
        try reflexivity.
      * exfalso. apply I'. now right.
      * exfalso. destruct I' as [E | I']; [congruence | contradiction].
Qed.

(** The keys of a record filled from a list of codes depend on the codes
    only, not on the answer of the day. *)
Lemma fill_keys_eq (vs : dict) (codes : list string) (record r : dict) :
  fill_from_currencies (PyDict vs) codes record = Ok r ->
  keys r
  = fold_left (fun ks c => add_key (add_key ks c) (c ++ "_Nominal")%string)
      codes (keys record).
Proof.
  revert record. induction codes as [| c codes IH]; intros record.
  - cbn. intros E. now injection E as <-.
  - rewrite fill_from_currencies_cons.
    destruct (is_dict (entry_of vs c)); [| discriminate].
    intros E. rewrite (IH _ E), !keys_dict_set_eq. reflexivity.
Qed.

Lemma built_on_keys (net : network) (c : string) (codes : list string)
    (s : string) (r : dict) :
  built_on net (Some (c :: codes)) s r -> keys r = record_keys (c :: codes).
Proof.
  intros (m & u & resp & body & valutes & _ & _ & _ & _ & _ & T & B).
  destruct (build_record_ok_dict _ _ _ _ T B) as (vs & -> & _).
  unfold build_record in B. cbn [currencies_truthy] in B.
  now apply fill_keys_eq in B.
Qed.

(** The schema of a record is made from its keys. *)
Lemma make_schema_keys (r r' : dict) :
  keys r = keys r' -> make_schema r = make_schema r'.
Proof. intros E. unfold make_schema. now rewrite E. Qed.

Lemma accumulated_built_on (net : network) (start stop : string)
    (currencies : currencies_arg) (n : nat) (recs : list dict) :
  accumulated net start stop currencies n = Some recs ->
  exists a b,
    Date.fromisoformat start = Some a
    /\ Date.fromisoformat stop = Some b
    /\ Forall (fun r => exists x, In x (dates_between a b)
                                  /\ built_on net (checked currencies) (iso x) r)
         recs.
Proof.
  unfold accumulated.
  destruct (value (run_loop net start stop currencies n)) as [v | |] eqn:Vl;
    try discriminate.
  intros E. injection E as <-.
  destruct (run_loop_ok_dates net start stop currencies n v Vl)
    as (a & b & Pa & Pb).
  pose proof (run_loop_spec net start stop currencies a b n Pa Pb) as Sp.
  cbv zeta in Sp. destruct Sp as (_ & _ & _ & Sp).
  destruct (Sp v Vl) as (_ & _ & F). eauto.
Qed.

(** X9.  With a list of currencies that is not empty, every record of a run
    has the same keys in the same order, whatever the archive answered on its
    day: [date], then each code and its [_Nominal] at their first place.  The
    schema written, which is made from the last record, is therefore the
    schema of every record. *)
Theorem filtered_records_same_keys (net : network) (start stop : string)
    (c : string) (codes : list string) (n : nat) (recs : list dict) :
  accumulated net start stop (CurrenciesList (c :: codes)) n = Some recs ->
  Forall (fun r => keys r = record_keys (c :: codes)
                   /\ make_schema r = make_schema (last recs []))
    recs.
Proof.
  intros Hacc. apply accumulated_built_on in Hacc.
  destruct Hacc as (a & b & _ & _ & F). cbn [checked] in F.
  assert (K : Forall (fun r => keys r = record_keys (c :: codes)) recs).
  { eapply Forall_impl; [| exact F]. intros r (x & _ & Hb).
    exact (built_on_keys _ _ _ _ _ Hb). }
  rewrite Forall_forall in K. apply Forall_forall. intros r Hr.
  split; [exact (K r Hr)|].
  apply make_schema_keys. rewrite (K r Hr). symmetry. apply K.
  destruct recs as [| r0 rs]; [contradiction|].
  assert (Hne : r0 :: rs <> []) by discriminate.
  destruct (exists_last Hne) as (l' & r' & ->). rewrite last_last.
  apply in_or_app. right. now left.
Qed.

Lemma filtered_records_same_keys_witness :
  Forall (fun r => keys r = ["date"; "USD"; "USD_Nominal"]%string)
    [[("date", PyStr "2023-10-05"); ("USD", PyFloat 99.4555);
      ("USD_Nominal", PyInt 1)];
     [("date", PyStr "2023-10-06"); ("USD", PyFloat 100.5);
      ("USD_Nominal", PyInt 1)]].
Proof.
  eapply Forall_impl;
    [| apply (filtered_records_same_keys net_then_usd_only "2023-10-05"
                "2023-10-06" "USD" [] 0%nat); vm_compute; reflexivity].
  intros r [K _]. exact K.
Defined.

Lemma toordinal_ltb (a b : Date.date) :
  Date.valid a = true -> Date.valid b = true ->
  Date.toordinal a < Date.toordinal b -> Date.ltb a b = true.
Proof.
  intros Va Vb L.
  destruct (DateFacts.ltb_total a b) as [H | [-> | H]]; [assumption | lia |].
  pose proof (DateFacts.ltb_toordinal b a Vb Va H). lia.
Qed.

Lemma ltb_irrefl (x : Date.date) : Date.ltb x x = false.
Proof.
  unfold Date.ltb. rewrite !Z.ltb_irrefl, !Z.eqb_refl. reflexivity.
Qed.

Lemma earlier_differ (r1 r2 : dict) :
  earlier r1 r2 -> dict_get r1 "date" <> dict_get r2 "date".
Proof.
  intros (s1 & s2 & x1 & x2 & D1 & D2 & P1 & P2 & L) E.
  assert (s1 = s2) by congruence. subst s2.
  assert (x1 = x2) by congruence. subst x2.
  rewrite ltb_irrefl in L. discriminate.
Qed.

Lemma sorted_dates_differ (recs : list dict) :
  StronglySorted earlier recs ->
  NoDup (map (fun r => dict_get r "date") recs).
Proof.
  induction 1 as [| r recs _ IH F]; cbn [map]; constructor; [| exact IH].
  intros I. apply in_map_iff in I. destruct I as (r' & E & Hr').
  rewrite Forall_forall in F. apply (earlier_differ r r' (F r' Hr')).
  now symmetry.
Qed.

Section Sorted.

Variable net : network.
Variable cur : option (list string).
Hypothesis Hdate :
  forall s r, built_on net cur s r -> dict_get r "date" = Some (PyStr s).

(** A day adds one record at most. *)
Lemma sync_day_one_record (v v' : vars) (n : nat) (d : Date.date) :
  Date.fromisoformat (date_to_process v) = Some d ->
  value (sync_day net cur v n) = Ok v' ->
  data v' = data v
  \/ exists r, data v' = data v ++ [r]
               /\ dict_get r "date" = Some (PyStr (iso d)).
Proof.
  intros P H.
  destruct (sync_day_records net cur v v' n H) as (d' & P1 & _ & _ & news & D & _ & B).
  assert (d' = d) by congruence. subst d'.
  apply sync_day_inv in H.
  destruct H as (d' & resp & v1 & _ & _ & Hr & _ & _ & ->). cbn [data] in *.
  apply handle_response_inv in Hr.
  destruct Hr as [-> | (r & body & valutes & rec & _ & _ & _ & _ & _ & ->)].
  - now left.
  - right. cbn [data] in *. exists rec. split; [reflexivity|].
    apply app_inv_head in D. subst news. inversion B as [| ? ? Hb _]; subst.
    exact (Hdate _ _ Hb).
Qed.

Lemma iterate_sync_day_sorted (k : nat) (v v' : vars) (n : nat)
    (d : Date.date) :
  Date.fromisoformat (date_to_process v) = Some d ->
  value (iterate k (sync_day net cur) v n) = Ok v' ->
  exists news,
    data v' = data v ++ news
    /\ (List.length news <= k)%nat
    /\ StronglySorted earlier news
    /\ Forall (fun r => exists x,
                   Date.valid x = true
                   /\ Date.toordinal d <= Date.toordinal x
                   /\ dict_get r "date" = Some (PyStr (iso x)))
         news.
Proof.
  revert v n d. induction k as [| k IH]; intros v n d P.
  - cbn [iterate]. intros E. injection E as <-. exists [].
    rewrite app_nil_r. repeat split; auto; constructor.
  - cbn [iterate]. rewrite bind_eq.
    destruct (value (sync_day net cur v n)) as [v1 | e |] eqn:Vd;
      cbn [value]; try discriminate.
    intros H.
    pose proof (fromisoformat_valid _ _ P) as Vd'.
    destruct (sync_day_records net cur v v1 n Vd) as (d' & P1 & _ & P' & _).
    assert (d' = d) by congruence. subst d'.
    destruct (IH v1 _ _ P' H) as (news & D & Ln & So & F).
    rewrite DateFacts.toordinal_tomorrow in F by assumption.
    destruct (sync_day_one_record v v1 n d P Vd) as [E | (r & E & Dr)].
    + exists news. rewrite D, E. repeat split; auto.
      eapply Forall_impl; [| exact F].
      intros r (x & Vx & Lx & Dx). exists x. repeat split; auto. lia.
    + exists (r :: news). rewrite D, E, <- app_assoc. cbn [app List.length].
      split; [reflexivity|]. split; [lia|]. split.
      * constructor; [exact So|].
        eapply Forall_impl; [| exact F].
        intros r' (x & Vx & Lx & Dx).
        exists (iso d), (iso x), d, x. repeat split; auto.
        -- now apply DateFacts.fromisoformat_strftime.
        -- now apply DateFacts.fromisoformat_strftime.
        -- apply toordinal_ltb; auto. lia.
      * constructor.
        -- exists d. repeat split; auto. lia.
        -- eapply Forall_impl; [| exact F].
           intros r' (x & Vx & Lx & Dx). exists x. repeat split; auto. lia.
Qed.

End Sorted.

(** X10.  When no code is the string [date], the records of a run come in the
    order of their dates, each later than the one before: at most one record
    for a day, and no two records with the same [date], which the schema
    declares as the key of the stream. *)
Theorem records_in_date_order (net : network) (start stop : string)
    (currencies : currencies_arg) (n : nat) (recs : list dict)
    (a b : Date.date) :
  Date.fromisoformat start = Some a ->
  Date.fromisoformat stop = Some b ->
  date_is_not_a_code net (checked currencies) ->
  accumulated net start stop currencies n = Some recs ->
  StronglySorted earlier recs
  /\ NoDup (map (fun r => dict_get r "date") recs)
  /\ (List.length recs <= List.length (dates_between a b))%nat.
Proof.
  intros Pa Pb Hcode Hacc. unfold accumulated in Hacc.
  rewrite (run_loop_iterate net start stop currencies a b n Pa Pb) in Hacc.
  destruct (value (iterate _ _ _ n)) as [v | |] eqn:Vl; try discriminate.
  injection Hacc as <-.
  destruct (iterate_sync_day_sorted net (checked currencies)
              (fun s r => built_on_date net (checked currencies) s r Hcode)
              _ (mkvars start [] None) v n a Pa Vl) as (news & D & Ln & So & _).
  cbn [data app] in D. subst news.
  split; [exact So|]. split; [now apply sorted_dates_differ | exact Ln].
Qed.

Lemma records_in_date_order_witness :
  NoDup (map (fun r => dict_get r "date")
           [[("date", PyStr "2023-10-05"); ("USD", PyFloat 99.4555);
             ("USD_Nominal", PyInt 1)];
            [("date", PyStr "2023-10-06"); ("USD", PyFloat 100.5);
             ("USD_Nominal", PyInt 1)]]).
Proof.
  destruct (records_in_date_order net_then_usd_only "2023-10-05" "2023-10-06"
              (CurrenciesList ["USD"]) 0%nat
              [[("date", PyStr "2023-10-05"); ("USD", PyFloat 99.4555);
                ("USD_Nominal", PyInt 1)];
               [("date", PyStr "2023-10-06"); ("USD", PyFloat 100.5);
                ("USD_Nominal", PyInt 1)]]
              (Date.mkdate 2023 10 5) (Date.mkdate 2023 10 6))
    as (_ & N & _).
  - reflexivity.
  - reflexivity.
  - intros [H | []]. discriminate H.
  - vm_compute. reflexivity.
  - exact N.
Defined.

(** ** Answers with nothing to record *)

Lemma empty_body_good (currencies : option (list string)) (r : response) :
  empty_body r = true -> good_body currencies r = true.
Proof.
  unfold empty_body, good_body.
  destruct (Response.json r) as [[| | | | | | body] |]; try discriminate.
  destruct (dict_get body "Valute") as [valutes |]; [| reflexivity].
  intros ->. reflexivity.
Qed.

(** X11.  When every answer with status 200 and without the text of a day
    without a rate is a JSON object whose [Valute] is missing or falsy, a run
    over dates that parse, with [start] in the year 1000 or later and [stop]
    before 9999-12-31, visits every day of its range, records nothing,
    writes nothing and ends well. *)
Theorem empty_answers_record_nothing (net : network) (start stop : string)
    (currencies : currencies_arg) (n : nat) (a b : Date.date) :
  Date.fromisoformat start = Some a ->
  Date.fromisoformat stop = Some b ->
  1000 <= Date.year a ->
  Date.toordinal b < Date.MAXORDINAL ->
  (forall m u r, net m u = Responded r ->
                 Response.status_code r = 200 ->
                 str_in NO_RATE_TEXT (Response.text r) = false ->
                 empty_body r = true) ->
  let o := do_sync net start stop currencies n in
  value o = Ok tt
  /\ accumulated net start stop currencies n = Some []
  /\ writes (events o) = []
  /\ visited (events o) = map iso (dates_between a b)
  /\ exists evs, events o = evs ++ [Log Info MsgNothingDone].
Proof.
  intros Pa Pb _ Lb He. cbv zeta.
  pose proof (fromisoformat_valid _ _ Pa) as Va.
  pose proof (fromisoformat_valid _ _ Pb) as Vb.
  pose proof (DateFacts.toordinal_bounds a Va) as Ba.
  assert (G : good_network net (checked currencies)).
  { intros m u r N S200 T. apply empty_body_good. exact (He m u r N S200 T). }
  destruct (iterate_sync_day_ok net (checked currencies)
              (List.length (dates_between a b)) (mkvars start [] None) n a G Pa)
    as [v Hv].
  { unfold dates_between. rewrite date_range_length. lia. }
  rewrite <- (run_loop_iterate net start stop currencies a b n Pa Pb) in Hv.
  pose proof (run_loop_spec net start stop currencies a b n Pa Pb) as Sp.
  cbv zeta in Sp. destruct Sp as (Fl & _ & (j & Hj & Vj & Cj) & Sp).
  destruct (Sp v Hv) as (_ & _ & F).
  assert (D : data v = []).
  { destruct (data v) as [| r0 rs]; [reflexivity | exfalso].
    inversion F as [| ? ? (x & _ & Hb) _]; subst.
    destruct Hb as (m & u & resp & body & valutes & N & S200 & Tx & J & V & T & _).
    specialize (He m u resp N S200 Tx). unfold empty_body in He.
    rewrite J, V, T in He. discriminate He. }
  assert (E : do_sync net start stop currencies n
              = mkoutcome
                  (check_event currencies
                   :: events (run_loop net start stop currencies n)
                   ++ [Log Info MsgNothingDone])
                  (requests (run_loop net start stop currencies n)) (Ok tt)).
  { rewrite do_sync_eq. cbv zeta. rewrite Hv, finish_empty by exact D.
    reflexivity. }
  split; [now rewrite E|].
  split; [unfold accumulated; now rewrite Hv, D|].
  split; [| split].
  - rewrite E. cbn [events].
    change (check_event currencies :: ?l) with ([check_event currencies] ++ l).
    rewrite !writes_app, check_event_writes, (loop_events_writes _ Fl).
    reflexivity.
  - rewrite do_sync_visited, Vj. f_equal.
    rewrite (Cj (ex_intro _ v Hv)). unfold dates_between.
    now rewrite date_range_length.
  - rewrite E. cbn [events].
    exists (check_event currencies
            :: events (run_loop net start stop currencies n)).
    reflexivity.
Qed.

Lemma empty_answers_record_nothing_witness :
  visited (events (do_sync net_no_valute "2023-10-05" "2023-10-06"
                     CurrenciesNone 0%nat))
  = map iso (dates_between (Date.mkdate 2023 10 5) (Date.mkdate 2023 10 6)).
Proof.
  destruct (empty_answers_record_nothing net_no_valute "2023-10-05" "2023-10-06"
              CurrenciesNone 0%nat (Date.mkdate 2023 10 5)
              (Date.mkdate 2023 10 6)) as (_ & _ & _ & H & _).
  - reflexivity.
  - reflexivity.
  - cbn [Date.year]. lia.
  - reflexivity.
  - intros m u r N _ _. injection N as <-. reflexivity.
  - exact H.
Defined.

(** ** The entry point *)

(** The day before a day that has one. *)
Lemma yesterday_spec (d : Date.date) :
  Date.valid d = true -> 1 < Date.toordinal d ->
  Date.valid (yesterday d) = true
  /\ Date.tomorrow (yesterday d) = d
  /\ Date.toordinal (yesterday d) = Date.toordinal d - 1.
Proof.
  intros V O.
  assert (H : Date.valid (yesterday d) = true /\ Date.tomorrow (yesterday d) = d).
  { pose proof (DateFacts.valid_inv d V) as (Hy & Hm & Hd).
    destruct d as [y m dd]. cbn [Date.year Date.month Date.day] in *.
    unfold yesterday. cbn [Date.year Date.month Date.day].
    destruct (Z.ltb_spec 1 dd) as [L | L].
    - split.
      + apply DateFacts.valid_intro; cbn [Date.year Date.month Date.day]; lia.
      + unfold Date.tomorrow. cbn [Date.year Date.month Date.day].
        destruct (Z.ltb_spec (dd - 1) (Date.days_in_month y m)); [| lia].
        f_equal. lia.
    - assert (dd = 1) by lia. subst dd.
      destruct (Z.ltb_spec 1 m) as [Lm | Lm].
      + pose proof (DateFacts.days_in_month_bounds y (m - 1)).
        split.
        * apply DateFacts.valid_intro; cbn [Date.year Date.month Date.day]; lia.
        * unfold Date.tomorrow. cbn [Date.year Date.month Date.day].
          rewrite Z.ltb_irrefl.
          destruct (Z.ltb_spec (m - 1) 12); [| lia]. f_equal. lia.
      + assert (m = 1) by lia. subst m.
        assert (Y : 1 < y).
        { destruct (Z.eq_dec y 1) as [-> | N]; [| lia].
          exfalso. revert O. vm_compute. discriminate. }
        change (Date.days_in_month y (1 - 1)) with 31.
        split.
        * apply DateFacts.valid_intro; cbn [Date.year Date.month Date.day];
            [lia | lia |].
          change (Date.days_in_month (y - 1) 12) with 31. lia.
        * unfold Date.tomorrow. cbn [Date.year Date.month Date.day].
          change (Date.days_in_month (y - 1) 12) with 31.
          change (31 <? 31) with false. change (12 <? 12) with false.
          cbv iota. f_equal. lia. }
  destruct H as [Vy T]. split; [exact Vy|]. split; [exact T|].
  pose proof (DateFacts.toordinal_tomorrow (yesterday d) Vy) as E.
  rewrite T in E. lia.
Qed.

Lemma sub_one_day_some (d : Date.date) :
  1 < Date.toordinal d -> sub_one_day d = Some (yesterday d).
Proof.
  intros O. unfold sub_one_day.
  destruct (Z.ltb_spec 0 (Date.toordinal d - 1)); [reflexivity | lia].
Qed.

Lemma iso_truthy (d : Date.date) : truthy (PyStr (iso d)) = true.
Proof.
  unfold iso, DATE_FORMAT. rewrite DateFacts.strftime_DATE_FORMAT. reflexivity.
Qed.

(** Lines 179-183 when neither file sets the date. *)
Lemma configured_date_unset (c s : dict) (key : string) (today : Date.date) :
  unset c key = true -> unset s key = true ->
  1 < Date.toordinal today ->
  configured_date (PyDict c) (PyDict s) key today
  = Ok (PyStr (iso (yesterday today))).
Proof.
  unfold unset, configured_date, get_field. intros Uc Us O.
  rewrite (sub_one_day_some today O).
  assert (Tc : truthy (match dict_get c key with Some v => v | None => PyNone end)
               = false).
  { destruct (dict_get c key) as [v |]; [| reflexivity].
    now apply negb_true_iff in Uc. }
  assert (Ts : truthy (match dict_get s key with Some v => v | None => PyNone end)
               = false).
  { destruct (dict_get s key) as [v |]; [| reflexivity].
    now apply negb_true_iff in Us. }
  cbn [rbind]. rewrite Tc. cbn [rbind]. rewrite Ts. reflexivity.
Qed.

(** Lines 179-183 when the configuration sets the date: the state is not
    looked at. *)
Lemma configured_date_config (c : dict) (state : pyvalue) (key : string)
    (today : Date.date) (v : pyvalue) :
  dict_get c key = Some v -> truthy v = true ->
  configured_date (PyDict c) state key today = Ok v.
Proof.
  intros D T. unfold configured_date, get_field. rewrite D. cbn [rbind].
  now rewrite T.
Qed.

(** Lines 179-183 when only the state sets the date. *)
Lemma configured_date_state (c s : dict) (key : string) (today : Date.date)
    (v : pyvalue) :
  unset c key = true -> dict_get s key = Some v -> truthy v = true ->
  configured_date (PyDict c) (PyDict s) key today = Ok v.
Proof.
  unfold unset, configured_date, get_field. intros Uc D T.
  assert (Tc : truthy (match dict_get c key with Some v => v | None => PyNone end)
               = false).
  { destruct (dict_get c key) as [x |]; [| reflexivity].
    now apply negb_true_iff in Uc. }
  cbn [rbind]. rewrite Tc, D. cbn [rbind]. now rewrite T.
Qed.

(** [main] once its two dates are known to be strings. *)
Lemma main_eq (net : network) (config state : option pyvalue) (c : dict)
    (t1 t2 : Date.date) (a b : string) (cur : currencies_arg) :
  loaded config = PyDict c ->
  configured_date (PyDict c) (loaded state) "date_start" t1 = Ok (PyStr a) ->
  configured_date (PyDict c) (loaded state) "date_stop" t2 = Ok (PyStr b) ->
  as_currencies (field_of (PyDict c) "currencies") = Some cur ->
  main net config state t1 t2 = Some (do_sync net a b cur).
Proof.
  intros Lc Ca Cb Cc. unfold main. cbv zeta.
  change (match config with Some c0 => c0 | None => PyDict [] end)
    with (loaded config).
  change (match state with Some s0 => s0 | None => PyDict [] end)
    with (loaded state).
  rewrite Lc, Ca, Cb.
  change (get_field (PyDict c) "currencies")
    with (Ok (field_of (PyDict c) "currencies")).
  cbv iota beta. rewrite Cc. reflexivity.
Qed.

(** A run over one day starts on that day and on no other. *)
Lemma one_day_visited (net : network) (s : string) (d : Date.date)
    (currencies : currencies_arg) (n : nat) :
  Date.fromisoformat s = Some d ->
  visited (events (do_sync net s s currencies n)) = [s].
Proof.
  intros P. rewrite do_sync_visited.
  rewrite (run_loop_iterate net s s currencies d d n P P).
  unfold dates_between. rewrite date_range_length.
  replace (Z.to_nat (Date.toordinal d - Date.toordinal d + 1)) with 1%nat by lia.
  cbn [iterate]. rewrite bind_eq.
  destruct (sync_day_events net (checked currencies) (mkvars s [] None) n)
    as (evs & E & F).
  cbn [date_to_process] in E.
  destruct (value (sync_day net (checked currencies) (mkvars s [] None) n));
    cbn [events ret]; rewrite ?app_nil_r, E; cbn [visited];
    now rewrite (fetch_events_visited _ F).
Qed.

(** X12.  Without a date in the configuration and in the state, [main] runs
    [do_sync] from the day before today to the day before today, where today
    is what each of its two calls of [date.today()] returns.  A date that is
    [null] or an empty string counts as none.  When both calls return the same
    day, the run visits that one day, yesterday, with 10 requests at most. *)
Theorem main_without_dates (net : network) (config state : option pyvalue)
    (c s : dict) (t1 t2 : Date.date) (cur : currencies_arg) :
  loaded config = PyDict c ->
  loaded state = PyDict s ->
  unset c "date_start" = true -> unset s "date_start" = true ->
  unset c "date_stop" = true -> unset s "date_stop" = true ->
  as_currencies (field_of (PyDict c) "currencies") = Some cur ->
  Date.valid t1 = true -> 1 < Date.toordinal t1 ->
  Date.valid t2 = true -> 1 < Date.toordinal t2 ->
  let y1 := yesterday t1 in
  let y2 := yesterday t2 in
  main net config state t1 t2 = Some (do_sync net (iso y1) (iso y2) cur)
  /\ Date.fromisoformat (iso y1) = Some y1
  /\ Date.fromisoformat (iso y2) = Some y2
  /\ Date.tomorrow y1 = t1
  /\ Date.tomorrow y2 = t2
  /\ (t1 = t2 ->
      forall n,
        let o := do_sync net (iso y1) (iso y2) cur n in
        visited (events o) = [iso y1]
        /\ (List.length (requested (events o)) <= 10)%nat).
Proof.
  intros Lc Ls Uc1 Us1 Uc2 Us2 Cc V1 O1 V2 O2. cbv zeta.
  destruct (yesterday_spec t1 V1 O1) as (Vy1 & T1 & _).
  destruct (yesterday_spec t2 V2 O2) as (Vy2 & T2 & _).
  pose proof (DateFacts.fromisoformat_strftime _ Vy1) as P1.
  pose proof (DateFacts.fromisoformat_strftime _ Vy2) as P2.
  split; [| split; [exact P1 | split; [exact P2 | split; [exact T1 | split;
                                                         [exact T2|]]]]].
  - apply (main_eq net config state c); auto; rewrite Ls;
      now apply configured_date_unset.
  - intros <- n. split.
    + now apply (one_day_visited net (iso (yesterday t1)) (yesterday t1)).
    + destruct (do_sync_quiet_ends net (iso (yesterday t1)) (iso (yesterday t1))
                  cur n) as (-> & _ & _).
      destruct (run_loop_days_trace net (iso (yesterday t1))
                  (iso (yesterday t1)) cur n _ _ P1 P1) as (j & Hj & T).
      destruct (days_trace_requests net _ j _ T) as (R & _).
      unfold dates_between in Hj. rewrite date_range_length in Hj. lia.
Qed.

Lemma main_without_dates_witness :
  main net_rates None None (Date.mkdate 2023 10 6) (Date.mkdate 2023 10 6)
  = Some (do_sync net_rates "2023-10-05" "2023-10-05" CurrenciesNone).
Proof.
  exact (proj1 (main_without_dates net_rates None None [] []
                  (Date.mkdate 2023 10 6) (Date.mkdate 2023 10 6) CurrenciesNone
                  eq_refl eq_refl eq_refl eq_refl eq_refl eq_refl eq_refl
                  eq_refl eq_refl eq_refl eq_refl)).
Defined.

(** X13.  Dates in the configuration win over the state: with a non-empty
    string for both, [main] runs [do_sync] on them whatever the state file
    holds, be it the state that the run before wrote or a value that is not an
    object, and whatever the day is.  Such a configuration starts every run on
    its [date_start] again. *)
Theorem config_dates_override_state (net : network) (config : option pyvalue)
    (c : dict) (a b : string) (cur : currencies_arg) :
  loaded config = PyDict c ->
  dict_get c "date_start" = Some (PyStr a) -> a <> ""%string ->
  dict_get c "date_stop" = Some (PyStr b) -> b <> ""%string ->
  as_currencies (field_of (PyDict c) "currencies") = Some cur ->
  forall state t1 t2,
    main net config state t1 t2 = Some (do_sync net a b cur).
Proof.
  intros Lc Da Na Db Nb Cc state t1 t2.
  apply (main_eq net config state c); auto;
    apply configured_date_config; auto; cbn [truthy];
    apply negb_true_iff, String.eqb_neq; assumption.
Qed.

Lemma config_dates_override_state_witness :
  main net_rates
    (Some (PyDict [("date_start", PyStr "2023-10-05");
                   ("date_stop", PyStr "2023-10-06");
                   ("currencies", PyList [PyStr "USD"])]))
    (Some (state_value (mkstate "2023-10-07" "2023-10-07")))
    (Date.mkdate 2023 10 8) (Date.mkdate 2023 10 8)
  = Some (do_sync net_rates "2023-10-05" "2023-10-06" (CurrenciesList ["USD"])).
Proof.
  apply (config_dates_override_state net_rates _
           [("date_start", PyStr "2023-10-05");
            ("date_stop", PyStr "2023-10-06");
            ("currencies", PyList [PyStr "USD"])]).
  - reflexivity.
  - reflexivity.
  - discriminate.
  - reflexivity.
  - discriminate.
  - reflexivity.
Defined.

(** The state that a run writes, when no code is the string [date]: it
    starts on the day after the last record and stops on the day after
    [stop]. *)
Lemma written_state_dates (net : network) (start stop : string)
    (currencies : currencies_arg) (n : nat) (st : state) :
  date_is_not_a_code net (checked currencies) ->
  In (WriteState st) (events (do_sync net start stop currencies n)) ->
  exists recs x b,
    accumulated net start stop currencies n = Some recs
    /\ dict_get (last recs []) "date" = Some (PyStr (iso x))
    /\ Date.valid x = true
    /\ Date.fromisoformat stop = Some b
    /\ Date.toordinal x <= Date.toordinal b < Date.MAXORDINAL
    /\ st = mkstate (iso (Date.tomorrow x)) (iso (Date.tomorrow b)).
Proof.
  intros Hcode H. apply written_state_inv in H.
  destruct H as (v & st1 & next & pre & Vl & Hne & W & A & Es & _).
  destruct (run_loop_ok_dates net start stop currencies n v Vl)
    as (a & b & Pa & Pb).
  pose proof (fromisoformat_valid _ _ Pa) as Va.
  pose proof (fromisoformat_valid _ _ Pb) as Vb.
  pose proof (run_loop_spec net start stop currencies a b n Pa Pb) as Sp.
  cbv zeta in Sp. destruct Sp as (_ & _ & _ & Sp).
  destruct (Sp v Vl) as (_ & _ & F).
  pose proof (write_all_spec (data v) (mkstate start stop)
                (requests (run_loop net start stop currencies n))) as Ws.
  cbv zeta in Ws. destruct Ws as (_ & _ & Ws).
  destruct (Ws st1 W) as (_ & Wstop & _ & Wlast).
  cbn [date_stop] in Wstop. rewrite Wstop in A.
  destruct (Wlast Hne) as (s0 & D0 & A0).
  assert (Hlast : In (last (data v) []) (data v)).
  { destruct (exists_last Hne) as (l' & r' & ->). rewrite last_last.
    apply in_or_app. right. now left. }
  rewrite Forall_forall in F. destruct (F _ Hlast) as (x & Hx & Hb).
  rewrite (built_on_date _ _ _ _ Hcode Hb) in D0.
  assert (s0 = iso x) by congruence. subst s0.
  apply (dates_between_In a b Va Vb) in Hx. destruct Hx as (Vx & _ & Lx).
  rewrite DateFacts.leb_toordinal, Z.leb_le in Lx by assumption.
  apply day_after_inv in A0, A.
  destruct A0 as (x' & Px & _ & E0 & _), A as (b' & Pb' & Lb & E1 & _).
  pose proof (DateFacts.fromisoformat_strftime x Vx) as Qx.
  change (Date.fromisoformat (iso x) = Some x) in Qx.
  assert (x' = x) by congruence. assert (b' = b) by congruence. subst x' b'.
  exists (data v), x, b. unfold accumulated. rewrite Vl.
  repeat split; auto; try lia.
  - now apply (built_on_date _ _ _ _ Hcode Hb).
  - rewrite Es. congruence.
Qed.

(** The days a run starts on lie in its range. *)
Lemma visited_in_range (net : network) (start stop : string)
    (currencies : currencies_arg) (n : nat) (a b : Date.date) (d : string) :
  Date.fromisoformat start = Some a ->
  Date.fromisoformat stop = Some b ->
  In d (visited (events (do_sync net start stop currencies n))) ->
  exists y, d = iso y /\ In y (dates_between a b).
Proof.
  intros Pa Pb. rewrite do_sync_visited.
  pose proof (run_loop_spec net start stop currencies a b n Pa Pb) as Sp.
  cbv zeta in Sp. destruct Sp as (_ & _ & (j & Hj & -> & _) & _).
  intros H. apply in_map_iff in H. destruct H as (y & <- & Hy).
  exists y. split; [reflexivity|].
  unfold dates_between in *. rewrite date_range_length in Hj.
  rewrite <- (firstn_date_range a j _ Hj) in Hy.
  rewrite <- (firstn_skipn j (date_range a _)). apply in_or_app. now left.
Qed.

(** X14.  A run from the state that the run before wrote, with no date in the
    configuration, takes up where that run ended: [main] runs [do_sync] from
    the day after the last record to the day after the last [stop], whatever
    the day is, and starts on no day that is on or before the [date] of the
    last record. *)
Theorem main_resumes_after_last_record (net net' : network)
    (start stop : string) (currencies : currencies_arg) (n : nat) (st : state)
    (config : option pyvalue) (c : dict) (cur' : currencies_arg)
    (t1 t2 : Date.date) :
  date_is_not_a_code net (checked currencies) ->
  In (WriteState st) (events (do_sync net start stop currencies n)) ->
  loaded config = PyDict c ->
  unset c "date_start" = true ->
  unset c "date_stop" = true ->
  as_currencies (field_of (PyDict c) "currencies") = Some cur' ->
  main net' config (Some (state_value st)) t1 t2
  = Some (do_sync net' (date_start st) (date_stop st) cur')
  /\ exists recs x b,
      accumulated net start stop currencies n = Some recs
      /\ dict_get (last recs []) "date" = Some (PyStr (iso x))
      /\ Date.fromisoformat stop = Some b
      /\ Date.fromisoformat (date_start st) = Some (Date.tomorrow x)
      /\ Date.fromisoformat (date_stop st) = Some (Date.tomorrow b)
      /\ forall n' d,
          In d (visited (events (do_sync net' (date_start st) (date_stop st)
                                   cur' n'))) ->
          exists y, d = iso y
                    /\ Date.ltb x y = true
                    /\ Date.leb y (Date.tomorrow b) = true.
Proof.
  intros Hcode Hin Lc U1 U2 Cc.
  destruct (written_state_dates net start stop currencies n st Hcode Hin)
    as (recs & x & b & Hacc & Dx & Vx & Pb & Lx & ->).
  cbn [date_start date_stop].
  pose proof (fromisoformat_valid _ _ Pb) as Vb.
  assert (Vx' : Date.valid (Date.tomorrow x) = true)
    by (apply DateFacts.valid_tomorrow; [assumption | lia]).
  assert (Vb' : Date.valid (Date.tomorrow b) = true)
    by (apply DateFacts.valid_tomorrow; [assumption | lia]).
  pose proof (DateFacts.fromisoformat_strftime _ Vx') as Px'.
  pose proof (DateFacts.fromisoformat_strftime _ Vb') as Pb'.
  split.
  - apply (main_eq net' config _ c); auto.
    + apply configured_date_state; [assumption | reflexivity | apply iso_truthy].
    + apply configured_date_state; [assumption | reflexivity | apply iso_truthy].
  - exists recs, x, b. repeat split; auto.
    intros n' d Hd.
    destruct (visited_in_range net' _ _ cur' n' _ _ d Px' Pb' Hd)
      as (y & -> & Hy).
    apply (dates_between_In _ _ Vx' Vb') in Hy. destruct Hy as (Vy & L1 & L2).
    exists y. repeat split; auto.
    rewrite DateFacts.leb_toordinal, Z.leb_le in L1 by assumption.
    rewrite DateFacts.toordinal_tomorrow in L1 by assumption.
    apply toordinal_ltb; auto. lia.
Qed.

Lemma main_resumes_after_last_record_witness :
  main net_rates None (Some (state_value (mkstate "2023-10-06" "2023-10-07")))
    (Date.mkdate 2023 10 9) (Date.mkdate 2023 10 9)
  = Some (do_sync net_rates "2023-10-06" "2023-10-07" CurrenciesNone).
Proof.
  destruct (main_resumes_after_last_record net_then_no_rate net_rates
              "2023-10-05" "2023-10-06" (CurrenciesList ["USD"; "EUR"]) 0%nat
              (mkstate "2023-10-06" "2023-10-07") None [] CurrenciesNone
              (Date.mkdate 2023 10 9) (Date.mkdate 2023 10 9))
    as (H & _).
  - intros [H | [H | []]]; discriminate H.
  - vm_compute. auto 20.
  - reflexivity.
  - reflexivity.
  - reflexivity.
  - reflexivity.
  - exact H.
Defined.
